(** * Curator: role policy, review state machine and HTTP handlers

    A shallow embedding of the knowledge-base curator application:
    - [src/lib/auth/helpers.ts]            (module [Auth])
    - [supabase/migrations/001_initial_schema.sql]
                                           (modules [Schema], [Sql], [Completion],
                                            [VectorSearch], [NewUser])
    - [src/app/api/chunks/[id]/review]     (modules [Review], [Metadata])
    - [src/app/api/documents/upload]       (module [Upload])
    - [src/app/api/admin/settings]         (module [Settings])

    Conventions.  A nullable SQL column is an [option]; a UUID, a TEXT and an
    ISO timestamp are [string]s; an INTEGER is a [Z]; a FLOAT is a rational
    [Q] (only order and subtraction are used on it).  The hosted store is an
    external collaborator: every call to it takes an extra argument
    [backend : option string], the error the store answers with ([None] when
    it accepts the statement); the constraints the schema declares (CHECK,
    NOT NULL, primary keys) are evaluated by the model itself.  Readings of
    the clock ([new Date()], [NOW()]) are arguments too. *)

From Stdlib Require Import Ascii ZArith QArith Sorted.
From stdpp Require Import base option list strings pretty gmap.

Local Open Scope string_scope.

(** ** JSON values *)

Unset Elimination Schemes.
Inductive json : Type :=
| JNull
| JBool (b : bool)
| JNum (n : Z)
| JStr (s : string)
| JArr (items : list json)
| JObj (fields : list (string * json)).
Set Elimination Schemes.

Definition uuid := string.

(** ** The texts of a uuid

    A uuid column shows its values in one form: 32 hexadecimal digits in
    lower case, in groups of 8, 4, 4, 4 and 12 joined by hyphens.  The input
    function of the type reads more: the digits in either case, a hyphen
    after any group of four digits being optional, the whole possibly in
    braces. *)

Definition is_hex (c : ascii) : bool :=
  let n := nat_of_ascii c in
  ((48 <=? n) && (n <=? 57) || (65 <=? n) && (n <=? 70) || (97 <=? n) && (n <=? 102))%nat.

Definition lower_hex (c : ascii) : ascii :=
  let n := nat_of_ascii c in
  if ((65 <=? n) && (n <=? 70))%nat then ascii_of_nat (n + 32) else c.

(** [todo] bytes of two digits each, from byte number [i] on: the digits in
    lower case and the text left over. *)
Fixpoint uuid_bytes (todo i : nat) (src : list ascii) : option (list ascii * list ascii) :=
  match todo with
  | O => Some ([], src)
  | S todo' =>
    match src with
    | a :: b :: rest =>
      if is_hex a && is_hex b
      then
        let rest' :=
          match rest with
          | "-"%char :: r => if Nat.odd i && (i <? 15)%nat then r else rest
          | _ => rest
          end in
        match uuid_bytes todo' (S i) rest' with
        | Some (digits, tail) => Some (lower_hex a :: lower_hex b :: digits, tail)
        | None => None
        end
      else None
    | _ => None
    end
  end.

(** [uuid_in]: the 32 digits of the value a text denotes; [None] is "invalid
    input syntax for type uuid". *)
Definition uuid_in (text : string) : option (list ascii) :=
  let src := String.list_ascii_of_string text in
  match src with
  | "{"%char :: src' =>
    match uuid_bytes 16 0 src' with
    | Some (digits, ["}"%char]) => Some digits
    | _ => None
    end
  | _ =>
    match uuid_bytes 16 0 src with
    | Some (digits, []) => Some digits
    | _ => None
    end
  end.

(** [uuid_out]: the form a column shows. *)
Definition uuid_out (digits : list ascii) : uuid :=
  String.string_of_list_ascii
    (take 8 digits ++ "-"%char :: take 4 (drop 8 digits) ++ "-"%char
     :: take 4 (drop 12 digits) ++ "-"%char :: take 4 (drop 16 digits) ++ "-"%char
     :: drop 20 digits)%list.

(** The id a text denotes in [WHERE id = text], among the ids [ids] of the
    table.  The ids of a table are values of the column, in the form it shows:
    a text that is the id of a row denotes that id; any other text is read by
    [uuid_in], and an ill-formed one is an error of the statement. *)
Definition uuid_of (text : string) (ids : list uuid) : option uuid :=
  if existsb (String.eqb text) ids then Some text
  else option_map uuid_out (uuid_in text).

(** [.single()] of the store client: exactly one row, else an error. *)
Definition single {A : Type} (rows : list A) : option A :=
  match rows with
  | [x] => Some x
  | _ => None
  end.

(** [NextResponse.json(body, { status })]; the status defaults to 200. *)
Inductive Body : Type :=
| BError (error : string)
| BSuccess (message : string)
| BMetadata (message : string) (metadata : gmap string json)
| BDocument (documentId : uuid)
| BSettings (settings : gmap string json)
| BSaved (provider documentProcessor : option json).

Record Response : Type := Json { body : Body; status : nat }.

(** ** The messages of the database *)

Module Pg.

(** A name between double quotation marks. *)
Definition quoted (name : string) : string :=
  String (ascii_of_nat 34) (name ++ String (ascii_of_nat 34) EmptyString).

Definition invalid_uuid (text : string) : string :=
  "invalid input syntax for type uuid: " ++ quoted text.

Definition policy_violation (table : string) : string :=
  "new row violates row-level security policy for table " ++ quoted table.

Definition policy_violation_using (table : string) : string :=
  "new row violates row-level security policy (USING expression) for table " ++ quoted table.

Definition check_violation (table constraint : string) : string :=
  "new row for relation " ++ quoted table ++ " violates check constraint "
  ++ quoted constraint.

Definition not_null_violation (column table : string) : string :=
  "null value in column " ++ quoted column ++ " of relation " ++ quoted table
  ++ " violates not-null constraint".

Definition unique_violation (constraint : string) : string :=
  "duplicate key value violates unique constraint " ++ quoted constraint.

End Pg.

(** ** The tables of [001_initial_schema.sql] *)

Module Schema.

Record Profile : Type := mkProfile {
  p_id : uuid;
  p_email : string;
  p_full_name : option string;
  p_role : option string;
  p_is_active : option bool;
  p_created_at : string;
  p_updated_at : string
}.

Record Document : Type := mkDocument {
  d_id : uuid;
  d_filename : string;
  d_original_filename : string;
  d_doc_type : string;
  d_storage_path : string;
  d_file_size : option Z;
  d_mime_type : option string;
  d_uploaded_by : option uuid;
  d_processing_status : string;
  d_total_chunks : option Z;
  d_approved_chunks : option Z;
  d_rejected_chunks : option Z;
  d_error_message : option string
}.

Record Chunk : Type := mkChunk {
  c_id : uuid;
  c_document_id : uuid;
  c_chunk_index : Z;
  c_chunk_text : string;
  c_ai_metadata : option (gmap string json);
  c_review_status : string;
  c_curator_notes : option string;
  c_reviewed_by : option uuid;
  c_reviewed_at : option string;
  c_is_filtered : bool;
  c_filtered_reason : option string;
  c_metadata_edited : bool;
  c_metadata_edited_by : option uuid;
  c_metadata_edited_at : option string
}.

Record Setting : Type := mkSetting {
  s_key : string;
  s_value : json;
  s_updated_at : option string;
  s_updated_by : option uuid
}.

Definition mem (s : string) (l : list string) : bool := existsb (String.eqb s) l.
Global Arguments mem : simpl never.

(** [CHECK (role IN ('user', 'curator', 'admin'))]: a NULL passes a CHECK. *)
Definition role_values : list string := ["user"; "curator"; "admin"].

Definition profile_check (p : Profile) : bool :=
  match p_role p with
  | Some r => mem r role_values
  | None => true
  end.

(** [CHECK (processing_status IN (...))], [CHECK (doc_type IN (...))] and
    the table constraint [valid_chunks]. *)
Definition processing_status_values : list string :=
  ["pending"; "processing"; "review"; "completed"; "failed"].

Definition doc_type_values : list string := ["fhir"; "vbc"; "grants"; "billing"].

Definition valid_chunks (d : Document) : bool :=
  match d_approved_chunks d, d_total_chunks d with
  | Some a, Some t => (a <=? t)%Z
  | _, _ => true
  end.

Definition document_check (d : Document) : bool :=
  mem (d_doc_type d) doc_type_values
  && mem (d_processing_status d) processing_status_values
  && valid_chunks d.

(** The CHECK a row fails is reported by its name; the CHECKs of a table are
    tried in the order of their names. *)
Definition document_violation (d : Document) : string :=
  if negb (mem (d_doc_type d) doc_type_values) then "documents_doc_type_check"
  else if negb (mem (d_processing_status d) processing_status_values)
  then "documents_processing_status_check"
  else "valid_chunks".

(** A table whose rows all pass the CHECKs. *)
Definition valid (documents : list Document) : Prop :=
  Forall (fun d => document_check d = true) documents.

(** [CHECK (review_status IN (...))] *)
Definition review_status_values : list string :=
  ["pending"; "approved"; "rejected"; "filtered"; "enriching"].

Definition chunk_check (c : Chunk) : bool := mem (c_review_status c) review_status_values.

(** The columns of [documents]. *)
Definition documents_columns : list string :=
  ["id"; "filename"; "original_filename"; "doc_type"; "storage_path"; "file_size";
   "mime_type"; "upload_date"; "uploaded_by"; "processing_status"; "total_chunks";
   "approved_chunks"; "rejected_chunks"; "metadata"; "error_message"].

End Schema.

(** ** SQL's three-valued logic, as far as the functions below use it *)

Module Sql.

Definition eq_text (a b : option string) : option bool :=
  match a, b with
  | Some x, Some y => Some (String.eqb x y)
  | _, _ => None
  end.

Definition and3 (a b : option bool) : option bool :=
  match a, b with
  | Some false, _ | _, Some false => Some false
  | Some true, Some true => Some true
  | _, _ => None
  end.

Definition or3 (a b : option bool) : option bool :=
  match a, b with
  | Some true, _ | _, Some true => Some true
  | Some false, Some false => Some false
  | _, _ => None
  end.

(** [x IN (v1, ..., vn)] is [x = v1 OR ... OR x = vn]. *)
Definition in_text (a : option string) (vs : list string) : option bool :=
  fold_right (fun v acc => or3 (eq_text a (Some v)) acc) (Some false) vs.

(** A condition of [IF] or [WHERE] holds only when it is TRUE. *)
Definition holds (c : option bool) : bool :=
  match c with
  | Some true => true
  | _ => false
  end.

End Sql.

(** ** [src/lib/auth/helpers.ts] and the SQL helper [has_role] *)

Module Auth.
Import Schema.

(** What a request carries: the identity [supabase.auth.getUser()] answers
    with ([None] for an error or no user) and the [profiles] table. *)
Record Ctx : Type := mkCtx {
  session : option uuid;
  profiles : list Profile
}.

Definition getCurrentUser (ctx : Ctx) : option Profile :=
  match session ctx with
  | None => None
  | Some uid => single (List.filter (fun p => String.eqb (p_id p) uid) (profiles ctx))
  end.

(** [user.role === r] *)
Definition role_is (user : Profile) (r : string) : bool :=
  match p_role user with
  | Some x => String.eqb x r
  | None => false
  end.

(** JS truthiness of [user.is_active] *)
Definition active (user : Profile) : bool :=
  match p_is_active user with
  | Some b => b
  | None => false
  end.

Definition hasRole (ctx : Ctx) (requiredRole : string) : bool :=
  match getCurrentUser ctx with
  | None => false
  | Some user =>
    if negb (active user) then false
    else if role_is user "admin" then true
    else if role_is user "curator"
            && (String.eqb requiredRole "curator" || String.eqb requiredRole "user") then true
    else if role_is user "user" && String.eqb requiredRole "user" then true
    else false
  end.

Definition isCuratorOrAdmin (ctx : Ctx) : bool := hasRole ctx "curator".

Definition isAdmin (ctx : Ctx) : bool :=
  match getCurrentUser ctx with
  | None => false
  | Some user => role_is user "admin" && bool_decide (p_is_active user = Some true)
  end.

(** [has_role(user_id, required_role)] of the schema. [SELECT role INTO
    user_role ...] takes the first row and leaves NULL when there is none. *)
Definition has_role (table : list Profile) (user_id : uuid) (required_role : option string) : bool :=
  let user_role :=
    match List.filter (fun p => String.eqb (p_id p) user_id
                           && Sql.holds (option_map (fun b => Bool.eqb b true) (p_is_active p)))
                 table with
    | p :: _ => p_role p
    | [] => None
    end in
  match user_role with
  | None => false
  | Some _ =>
    if Sql.holds (Sql.eq_text user_role (Some "admin")) then true
    else if Sql.holds (Sql.and3 (Sql.eq_text user_role (Some "curator"))
                                (Sql.in_text required_role ["curator"; "user"])) then true
    else if Sql.holds (Sql.and3 (Sql.eq_text user_role (Some "user"))
                                (Sql.eq_text required_role (Some "user"))) then true
    else false
  end.

(** ** The helper functions and row policies of the schema *)

Module Policies.

Definition is_curator_or_admin (table : list Profile) (user_id : uuid) : bool :=
  has_role table user_id (Some "curator").

(** [EXISTS (SELECT 1 FROM profiles WHERE id = user_id AND role = 'admin' AND
    is_active = true)] *)
Definition is_admin (table : list Profile) (user_id : uuid) : bool :=
  existsb (fun p => Sql.holds
             (Sql.and3 (Sql.and3 (Some (String.eqb (p_id p) user_id))
                                 (Sql.eq_text (p_role p) (Some "admin")))
                       (option_map (fun b => Bool.eqb b true) (p_is_active p))))
          table.

(** The policies are all [TO authenticated]: [caller] is [auth.uid()], and a
    caller without a session is under no policy, so is refused.  The permissive
    policies of one command are joined by OR: the USING expressions on the row
    as it is, the WITH CHECK expressions on the row as it would be; a policy
    without WITH CHECK checks with its USING expression; a command without a
    policy is refused.  [table] is the [profiles] table [is_admin] and
    [is_curator_or_admin] read. *)

(** "Users can view own profile" and "Curators can view all profiles" *)
Definition profiles_select_using (caller : option uuid) (table : list Profile)
    (row : Profile) : bool :=
  match caller with
  | None => false
  | Some uid => String.eqb uid (p_id row) || is_curator_or_admin table uid
  end.

(** "Users can update own profile" and "Admins can update any profile" *)
Definition profiles_update_using (caller : option uuid) (table : list Profile)
    (row : Profile) : bool :=
  match caller with
  | None => false
  | Some uid => String.eqb uid (p_id row) || is_admin table uid
  end.

Definition profiles_update_check (caller : option uuid) (table : list Profile)
    (new_row : Profile) : bool :=
  match caller with
  | None => false
  | Some uid => String.eqb uid (p_id new_row) || is_admin table uid
  end.

Definition profiles_update_allowed (caller : option uuid) (table : list Profile)
    (row new_row : Profile) : bool :=
  profiles_update_using caller table row && profiles_update_check caller table new_row.

(** "Curators can view/insert/update documents", and the same three on
    [document_chunks] *)
Definition curator_policy (caller : option uuid) (table : list Profile) : bool :=
  match caller with
  | None => false
  | Some uid => is_curator_or_admin table uid
  end.

(** "Admins can delete documents", "Admins can delete kb_vectors" and
    "Admins can update settings" *)
Definition admin_policy (caller : option uuid) (table : list Profile) : bool :=
  match caller with
  | None => false
  | Some uid => is_admin table uid
  end.

(** "Anyone can view settings": [TO authenticated USING (true)] *)
Definition settings_select_using (caller : option uuid) : bool :=
  match caller with
  | None => false
  | Some _ => true
  end.

(** [settings] has a policy for SELECT and one for UPDATE, and none for
    INSERT: no row may be inserted through the policies. *)
Definition settings_insert_check (caller : option uuid) (table : list Profile) : bool :=
  false.

(** "Admins can update settings" *)
Definition settings_update_using (caller : option uuid) (table : list Profile) : bool :=
  admin_policy caller table.

End Policies.

(** [{ success: boolean; error?: string }] *)
Inductive Result : Type :=
| Success
| Failure (error : string).

(** The rows [UPDATE profiles ... WHERE id = userId] reaches for a caller:
    those with the id that the SELECT policies and the UPDATE policies let
    the caller see.  The others are passed over in silence. *)
Definition reached (caller : option uuid) (table : list Profile) (id : uuid) (p : Profile)
    : bool :=
  String.eqb (p_id p) id
  && Policies.profiles_select_using caller table p
  && Policies.profiles_update_using caller table p.

(** [.from('profiles').update(...).eq('id', userId)] by the client of the
    caller [caller].  An error of the store, a text that is no uuid, a
    rewritten row that the policies do not admit and a rewritten row that
    breaks the CHECK of the table each refuse the statement, which then
    changes nothing; otherwise the rows reached are rewritten, and the
    statement succeeds also when it reaches none. *)
Definition profiles_update (caller : option uuid) (backend : option string)
    (set : Profile -> Profile) (userId : string) (table : list Profile)
    : option string * list Profile :=
  match backend with
  | Some e => (Some e, table)
  | None =>
    match uuid_of userId (map p_id table) with
    | None => (Some (Pg.invalid_uuid userId), table)
    | Some id =>
      if negb (forallb (fun p => negb (reached caller table id p)
                                 || Policies.profiles_select_using caller table (set p)
                                    && Policies.profiles_update_check caller table (set p))
                       table)
      then (Some (Pg.policy_violation "profiles"), table)
      else if negb (forallb (fun p => negb (reached caller table id p) || profile_check (set p))
                            table)
      then (Some (Pg.check_violation "profiles" "profiles_role_check"), table)
      else (None, map (fun p => if reached caller table id p then set p else p) table)
    end
  end.

Global Arguments profiles_update : simpl never.

Definition set_role (newRole : string) (now : string) (p : Profile) : Profile :=
  mkProfile (p_id p) (p_email p) (p_full_name p) (Some newRole) (p_is_active p)
            (p_created_at p) now.

Definition set_is_active (isActive : bool) (now : string) (p : Profile) : Profile :=
  mkProfile (p_id p) (p_email p) (p_full_name p) (p_role p) (Some isActive)
            (p_created_at p) now.

Definition set_full_name (full_name : option string) (now : string) (p : Profile) : Profile :=
  mkProfile (p_id p) (p_email p)
            (match full_name with Some n => Some n | None => p_full_name p end)
            (p_role p) (p_is_active p) (p_created_at p) now.

Definition finish (r : option string * list Profile) : Result * list Profile :=
  match r with
  | (Some e, table) => (Failure e, table)
  | (None, table) => (Success, table)
  end.

(** The three functions run the UPDATE through the client of the session:
    [auth.uid()] is the user of the session. *)
Definition updateProfile (ctx : Ctx) (backend : option string) (now : string)
    (userId : string) (full_name : option string) : Result * list Profile :=
  finish (profiles_update (session ctx) backend (set_full_name full_name now) userId
            (profiles ctx)).

Definition updateUserRole (ctx : Ctx) (backend : option string) (now : string)
    (userId : string) (newRole : string) : Result * list Profile :=
  match getCurrentUser ctx with
  | None => (Failure "Only admins can change user roles", profiles ctx)
  | Some currentUser =>
    if negb (role_is currentUser "admin")
    then (Failure "Only admins can change user roles", profiles ctx)
    else if String.eqb (p_id currentUser) userId
    then (Failure "Cannot change your own role", profiles ctx)
    else finish (profiles_update (session ctx) backend (set_role newRole now) userId
                   (profiles ctx))
  end.

Definition setUserActiveStatus (ctx : Ctx) (backend : option string) (now : string)
    (userId : string) (isActive : bool) : Result * list Profile :=
  match getCurrentUser ctx with
  | None => (Failure "Only admins can change user status", profiles ctx)
  | Some currentUser =>
    if negb (role_is currentUser "admin")
    then (Failure "Only admins can change user status", profiles ctx)
    else if String.eqb (p_id currentUser) userId && negb isActive
    then (Failure "Cannot deactivate your own account", profiles ctx)
    else finish (profiles_update (session ctx) backend (set_is_active isActive now) userId
                   (profiles ctx))
  end.

End Auth.

Module Policies := Auth.Policies.

(** ** Document completion: [check_document_completion] and its trigger *)

Module Completion.
Import Schema.

Record DB : Type := mkDB {
  documents : list Document;
  document_chunks : list Chunk
}.

Definition set_processing_status (s : string) (d : Document) : Document :=
  mkDocument (d_id d) (d_filename d) (d_original_filename d) (d_doc_type d)
             (d_storage_path d) (d_file_size d) (d_mime_type d) (d_uploaded_by d)
             s (d_total_chunks d) (d_approved_chunks d) (d_rejected_chunks d)
             (d_error_message d).

Definition set_review_status (s : string) (c : Chunk) : Chunk :=
  mkChunk (c_id c) (c_document_id c) (c_chunk_index c) (c_chunk_text c) (c_ai_metadata c)
          s (c_curator_notes c) (c_reviewed_by c) (c_reviewed_at c) (c_is_filtered c)
          (c_filtered_reason c) (c_metadata_edited c) (c_metadata_edited_by c)
          (c_metadata_edited_at c).

(** [SELECT total_chunks INTO total FROM documents WHERE id = doc_id] *)
Definition select_total (doc_id : uuid) (db : DB) : option Z :=
  match List.filter (fun d => String.eqb (d_id d) doc_id) (documents db) with
  | d :: _ => d_total_chunks d
  | [] => None
  end.

(** [SELECT COUNT( * ) INTO reviewed FROM document_chunks WHERE document_id =
    doc_id AND review_status IN ('approved', 'rejected', 'filtered')] *)
Definition count_reviewed (doc_id : uuid) (db : DB) : Z :=
  Z.of_nat (length (List.filter
    (fun c => String.eqb (c_document_id c) doc_id
              && mem (c_review_status c) ["approved"; "rejected"; "filtered"])
    (document_chunks db))).

(** The trigger function; [NEW] is the chunk row after the update.  The
    UPDATE of [documents] writes a value of the CHECK's list into a row that
    passed the CHECK, so it is not evaluated again. *)
Definition check_document_completion (NEW : Chunk) (db : DB) : DB :=
  let doc_id := c_document_id NEW in
  let total := select_total doc_id db in
  let reviewed := count_reviewed doc_id db in
  match total with
  | Some total =>
    if (total <=? reviewed)%Z
    then mkDB (map (fun d => if String.eqb (d_id d) doc_id
                             then set_processing_status "completed" d else d)
                   (documents db))
              (document_chunks db)
    else db
  | None => db
  end.

(** [WHEN (NEW.review_status IN ('approved', 'rejected'))] *)
Definition trigger_when (NEW : Chunk) : bool :=
  mem (c_review_status NEW) ["approved"; "rejected"].

(** [UPDATE document_chunks SET review_status = s WHERE id = chunk_id],
    followed by the trigger [check_completion_after_review] (AFTER UPDATE OF
    review_status, FOR EACH ROW): it runs once for every rewritten row that
    passes [trigger_when], on the table as the statement left it. *)
Definition update_review_status (backend : option string) (chunk_id : uuid) (s : string)
    (db : DB) : option string * DB :=
  match backend with
  | Some e => (Some e, db)
  | None =>
    if existsb (fun c => String.eqb (c_id c) chunk_id) (document_chunks db)
       && negb (mem s review_status_values)
    then (Some (Pg.check_violation "document_chunks" "document_chunks_review_status_check"),
          db)
    else
      let chunks' := map (fun c => if String.eqb (c_id c) chunk_id
                                   then set_review_status s c else c)
                         (document_chunks db) in
      let fired := List.filter (fun c => String.eqb (c_id c) chunk_id && trigger_when c)
                               chunks' in
      (None, fold_left (fun db NEW => check_document_completion NEW db) fired
                       (mkDB (documents db) chunks'))
  end.

Definition set_approved_chunks (n : Z) (d : Document) : Document :=
  mkDocument (d_id d) (d_filename d) (d_original_filename d) (d_doc_type d)
             (d_storage_path d) (d_file_size d) (d_mime_type d) (d_uploaded_by d)
             (d_processing_status d) (d_total_chunks d) (Some n) (d_rejected_chunks d)
             (d_error_message d).

Definition set_rejected_chunks (n : Z) (d : Document) : Document :=
  mkDocument (d_id d) (d_filename d) (d_original_filename d) (d_doc_type d)
             (d_storage_path d) (d_file_size d) (d_mime_type d) (d_uploaded_by d)
             (d_processing_status d) (d_total_chunks d) (d_approved_chunks d) (Some n)
             (d_error_message d).

(** The greatest value of INTEGER. *)
Definition integer_max : Z := 2147483647.

(** [COALESCE(n, 0) + 1] on INTEGER: the sum, or an error when it is out of
    the range of the type. *)
Definition coalesce_plus_one (n : option Z) : string + Z :=
  if (integer_max <? default 0 n + 1)%Z then inl "integer out of range"
  else inr (default 0 n + 1)%Z.

(** [UPDATE documents SET ... WHERE id = doc_id]: the rows with the id are
    rewritten in the order of the table; the first error ends the
    statement. *)
Fixpoint update_documents (doc_id : uuid) (set : Document -> string + Document)
    (l : list Document) : string + list Document :=
  match l with
  | [] => inr []
  | d :: l' =>
    if String.eqb (d_id d) doc_id
    then match set d with
         | inl e => inl e
         | inr d' =>
           match update_documents doc_id set l' with
           | inl e => inl e
           | inr l'' => inr (d' :: l'')
           end
         end
    else match update_documents doc_id set l' with
         | inl e => inl e
         | inr l'' => inr (d :: l'')
         end
  end.

(** [SET approved_chunks = COALESCE(approved_chunks, 0) + 1]; the new row is
    subject to [valid_chunks]. *)
Definition bump_approved (d : Document) : string + Document :=
  match coalesce_plus_one (d_approved_chunks d) with
  | inl e => inl e
  | inr n =>
    if valid_chunks (set_approved_chunks n d) then inr (set_approved_chunks n d)
    else inl (Pg.check_violation "documents" "valid_chunks")
  end.

(** [SET rejected_chunks = COALESCE(rejected_chunks, 0) + 1]; no constraint
    reads the column. *)
Definition bump_rejected (d : Document) : string + Document :=
  match coalesce_plus_one (d_rejected_chunks d) with
  | inl e => inl e
  | inr n => inr (set_rejected_chunks n d)
  end.

(** [increment_approved_chunks(doc_id)] and [increment_rejected_chunks(doc_id)],
    called by a user whom the policies of [documents] let update the rows.
    An error leaves the table as it was. *)
Definition increment_approved_chunks (doc_id : uuid) (db : DB) : option string * DB :=
  match update_documents doc_id bump_approved (documents db) with
  | inl e => (Some e, db)
  | inr documents' => (None, mkDB documents' (document_chunks db))
  end.

Definition increment_rejected_chunks (doc_id : uuid) (db : DB) : option string * DB :=
  match update_documents doc_id bump_rejected (documents db) with
  | inl e => (Some e, db)
  | inr documents' => (None, mkDB documents' (document_chunks db))
  end.

(** The first document with that id. *)
Definition find_document (doc_id : uuid) (db : DB) : option Document :=
  List.find (fun d => String.eqb (d_id d) doc_id) (documents db).

Definition find_chunk (chunk_id : uuid) (db : DB) : option Chunk :=
  List.find (fun c => String.eqb (c_id c) chunk_id) (document_chunks db).

End Completion.

(** ** Similarity search: [match_documents] *)

Module VectorSearch.

Definition vector := list Q.

(** A value of [float8]: a number or NaN. *)
Inductive float8 : Type :=
| Num (q : Q)
| NaN.

(** An expression of the query evaluates to a value or raises an error. *)
Definition Result (A : Type) : Type := (string + A)%type.

Record KbVector : Type := mkKbVector {
  k_id : uuid;
  k_chunk_id : uuid;
  k_document_id : uuid;
  k_content : string;
  k_embedding_openai : option vector;
  k_embedding_gemini : option vector;
  k_doc_type : string;
  k_topic : option string;
  k_subtopic : option string;
  k_use_cases : option (list string);
  k_key_concepts : option (list string);
  k_relevance_score : option Q;
  k_curator_notes : option string;
  k_source_document : option string;
  k_source_url : option string;
  k_domain : option string;
  k_curator_name : option string;
  k_tags : option (list string);
  k_chunk_index : option Z;
  k_word_count : option Z;
  k_last_updated : option string;
  k_approved_date : string
}.

(** The two embedding columns are [vector(1536)] and [vector(768)]. *)
Definition dimensions_ok (r : KbVector) : bool :=
  match k_embedding_openai r with
  | Some e => (length e =? 1536)%nat
  | None => true
  end
  && match k_embedding_gemini r with
     | Some e => (length e =? 768)%nat
     | None => true
     end.

(** A row of the result.  [metadata] is [jsonb_build_object] over columns of
    the source row; the row itself stands for it. *)
Record Match : Type := mkMatch {
  m_id : uuid;
  m_content : string;
  m_similarity : option float8;
  m_metadata : KbVector
}.

(** A row that passed WHERE, with the key of ORDER BY and the similarity
    column computed for it. *)
Record Scanned : Type := mkScanned {
  s_row : KbVector;
  s_key : option float8;
  s_similarity : option float8
}.

Definition bind {A B : Type} (x : Result A) (f : A -> Result B) : Result B :=
  match x with
  | inl e => inl e
  | inr a => f a
  end.

Definition fmap {A B : Type} (f : A -> B) (x : Result A) : Result B :=
  bind x (fun a => inr (f a)).

Fixpoint mapM {A B : Type} (f : A -> Result B) (l : list A) : Result (list B) :=
  match l with
  | [] => inr []
  | x :: l' => bind (f x) (fun y => bind (mapM f l') (fun ys => inr (y :: ys)))
  end.

Fixpoint filterM {A : Type} (f : A -> Result bool) (l : list A) : Result (list A) :=
  match l with
  | [] => inr []
  | x :: l' =>
    bind (f x) (fun keep => bind (filterM f l') (fun xs => inr (if keep then x :: xs else xs)))
  end.

(** [a AND b]: when [a] is false [b] is not evaluated. *)
Definition and_then (a b : Result (option bool)) : Result (option bool) :=
  match a with
  | inl e => inl e
  | inr (Some false) => inr (Some false)
  | inr x => fmap (Sql.and3 x) b
  end.

(** [a OR b]: when [a] is true [b] is not evaluated. *)
Definition or_else (a b : Result (option bool)) : Result (option bool) :=
  match a with
  | inl e => inl e
  | inr (Some true) => inr (Some true)
  | inr x => fmap (Sql.or3 x) b
  end.

(** The conditions that AND joins at the top of WHERE, in the order they are
    written: the row passes when each is true, and the conditions after one
    that is not true are not evaluated. *)
Fixpoint qual (conditions : list (Result (option bool))) : Result bool :=
  match conditions with
  | [] => inr true
  | c :: rest =>
    match c with
    | inl e => inl e
    | inr (Some true) => qual rest
    | inr _ => inr false
    end
  end.

(** The embedding of a row in the column of a provider. *)
Definition column_is (provider : string) (r : KbVector) (e : vector) : Prop :=
  provider = "openai" /\ k_embedding_openai r = Some e
  \/ provider = "gemini" /\ k_embedding_gemini r = Some e.

(** A row passes WHERE when the clause evaluates to true. *)
Definition passed (c : Result bool) : bool :=
  match c with
  | inr true => true
  | _ => false
  end.

Section Search.

(** pgvector's cosine distance on two vectors of one dimension: a number,
    or NaN when a vector has norm zero. *)
Variable cosine_distance : vector -> vector -> float8.

(** The operator [<=>]: NULL on NULL, an error on vectors of different
    dimensions. *)
Definition distance (embedding : option vector) (query_embedding : vector)
    : Result (option float8) :=
  match embedding with
  | None => inr None
  | Some e =>
    if (length e =? length query_embedding)%nat
    then inr (Some (cosine_distance e query_embedding))
    else inl ("different vector dimensions " ++ pretty (length e) ++ " and "
              ++ pretty (length query_embedding))
  end.

(** [1 - d] *)
Definition one_minus (d : float8) : float8 :=
  match d with
  | Num x => Num (1 - x)%Q
  | NaN => NaN
  end.

(** [a > t] for a threshold [t] that is a number: NaN is above every
    number. *)
Definition gt (a : float8) (t : Q) : bool :=
  match a with
  | Num x => negb (Qle_bool x t)
  | NaN => true
  end.

(** [1 - (embedding <=> query_embedding)] *)
Definition similarity_to (embedding : option vector) (query_embedding : vector)
    : Result (option float8) :=
  fmap (option_map one_minus) (distance embedding query_embedding).

(** [CASE WHEN provider = 'openai' THEN 1 - (embedding_openai <=> q)
         ELSE 1 - (embedding_gemini <=> q) END] *)
Definition similarity (provider : string) (query_embedding : vector) (r : KbVector)
    : Result (option float8) :=
  if String.eqb provider "openai"
  then similarity_to (k_embedding_openai r) query_embedding
  else similarity_to (k_embedding_gemini r) query_embedding.

(** [a && b] on arrays: some element in common; NULL when a side is NULL. *)
Definition overlap (a b : option (list string)) : option bool :=
  match a, b with
  | Some xs, Some ys => Some (existsb (fun x => Schema.mem x ys) xs)
  | _, _ => None
  end.

(** [filter_doc_type IS NULL OR kb_vectors.doc_type = filter_doc_type] *)
Definition doc_type_condition (filter_doc_type : option string) (r : KbVector) : option bool :=
  Sql.or3 (Some (bool_decide (filter_doc_type = None)))
          (Sql.eq_text (Some (k_doc_type r)) filter_doc_type).

(** [filter_use_cases IS NULL OR kb_vectors.use_cases && filter_use_cases] *)
Definition use_cases_condition (filter_use_cases : option (list string)) (r : KbVector)
    : option bool :=
  Sql.or3 (Some (bool_decide (filter_use_cases = None)))
          (overlap (k_use_cases r) filter_use_cases).

(** [(provider = 'openai' AND 1 - (embedding_openai <=> q) > match_threshold)
     OR (provider = 'gemini' AND 1 - (embedding_gemini <=> q) > match_threshold)] *)
Definition similarity_condition (query_embedding : vector) (match_threshold : Q)
    (provider : string) (r : KbVector) : Result (option bool) :=
  or_else
    (and_then (inr (Some (String.eqb provider "openai")))
              (fmap (option_map (fun s => gt s match_threshold))
                    (similarity_to (k_embedding_openai r) query_embedding)))
    (and_then (inr (Some (String.eqb provider "gemini")))
              (fmap (option_map (fun s => gt s match_threshold))
                    (similarity_to (k_embedding_gemini r) query_embedding))).

Definition where_clause (query_embedding : vector) (match_threshold : Q)
    (filter_doc_type : option string) (filter_use_cases : option (list string))
    (provider : string) (r : KbVector) : Result bool :=
  qual [inr (doc_type_condition filter_doc_type r);
        inr (use_cases_condition filter_use_cases r);
        similarity_condition query_embedding match_threshold provider r].

(** The key of [ORDER BY] *)
Definition order_key (provider : string) (query_embedding : vector) (r : KbVector)
    : Result (option float8) :=
  if String.eqb provider "openai"
  then distance (k_embedding_openai r) query_embedding
  else distance (k_embedding_gemini r) query_embedding.

(** Ascending order of [float8]: the numbers, then NaN; NULLs last. *)
Definition key_le (a b : option float8) : bool :=
  match a, b with
  | Some (Num x), Some (Num y) => Qle_bool x y
  | Some (Num _), Some NaN => true
  | Some NaN, Some (Num _) => false
  | Some NaN, Some NaN => true
  | Some _, None => true
  | None, Some _ => false
  | None, None => true
  end.

Fixpoint insert_by (r : Scanned) (l : list Scanned) : list Scanned :=
  match l with
  | [] => [r]
  | x :: l' => if key_le (s_key r) (s_key x) then r :: l else x :: insert_by r l'
  end.

Definition order_by (l : list Scanned) : list Scanned :=
  fold_right insert_by [] l.


(** The key and the similarity column of a row that passed WHERE. *)
Definition scan (provider : string) (query_embedding : vector) (r : KbVector)
    : Result Scanned :=
  bind (order_key provider query_embedding r) (fun key =>
  bind (similarity provider query_embedding r) (fun sim =>
  inr (mkScanned r key sim))).

(** [match_documents] with every argument supplied and not NULL, apart from
    the two filters, and a threshold that is a number.  A negative [LIMIT]
    is an error of the database, raised before a row is read; an error of
    [<=>] at a row ends the query. *)
Definition match_documents (kb_vectors : list KbVector) (query_embedding : vector)
    (match_threshold : Q) (match_count : Z) (filter_doc_type : option string)
    (filter_use_cases : option (list string)) (provider : string)
    : Result (list Match) :=
  if (match_count <? 0)%Z then inl "LIMIT must not be negative"
  else
    bind (filterM (where_clause query_embedding match_threshold filter_doc_type
                     filter_use_cases provider)
                  kb_vectors) (fun selected =>
    bind (mapM (scan provider query_embedding) selected) (fun scanned =>
    inr (map (fun s => mkMatch (k_id (s_row s)) (k_content (s_row s)) (s_similarity s)
                               (s_row s))
             (firstn (Z.to_nat match_count) (order_by scanned))))).

End Search.



End VectorSearch.

(** ** Profile creation on signup: [handle_new_user] *)

Module NewUser.
Import Schema.

(** The columns of [auth.users] the trigger reads. *)
Record AuthUser : Type := mkAuthUser {
  u_id : uuid;
  u_email : option string;
  u_raw_user_meta_data : option (gmap string json)
}.

(** What the trigger can change: the table and the server log. *)
Record State : Type := mkState {
  profiles : list Profile;
  log : list string
}.

(** An error of the server: its SQLSTATE and its message, [SQLERRM]. *)
Record SqlError : Type := mkSqlError {
  sqlstate : string;
  sqlerrm : string
}.

Definition not_null_violation (msg : string) : SqlError := mkSqlError "23502" msg.
Definition check_violation (msg : string) : SqlError := mkSqlError "23514" msg.
Definition query_canceled (msg : string) : SqlError := mkSqlError "57014" msg.
Definition assert_failure (msg : string) : SqlError := mkSqlError "P0004" msg.

(** A PL/pgSQL statement: it raises, or returns a value and a new state. *)
Definition Stmt (A : Type) : Type := State -> SqlError + (A * State).

Definition ret {A : Type} (a : A) : Stmt A := fun st => inr (a, st).

Definition seq {A B : Type} (s : Stmt A) (k : A -> Stmt B) : Stmt B :=
  fun st =>
    match s st with
    | inl e => inl e
    | inr (a, st') => k a st'
    end.

(** The condition name [OTHERS] matches every error but a cancelled query
    and a failed assertion. *)
Definition others (e : SqlError) : bool :=
  negb (String.eqb (sqlstate e) "57014" || String.eqb (sqlstate e) "P0004").

(** [BEGIN body EXCEPTION WHEN OTHERS THEN handler END]: an error of the
    body that [OTHERS] matches rolls the changes of the body back, then the
    handler runs with [SQLERRM]; any other error leaves the block. *)
Definition exception_when_others {A : Type} (blk : Stmt A) (handler : string -> Stmt A)
    : Stmt A :=
  fun st =>
    match blk st with
    | inl e => if others e then handler (sqlerrm e) st else inl e
    | inr r => inr r
    end.

(** [RAISE LOG] *)
Definition raise_log (msg : string) : Stmt unit :=
  fun st => inr (tt, mkState (profiles st) (log st ++ [msg])).

Definition coalesce (vs : list (option string)) : option string :=
  List.find (fun v => bool_decide (v <> None)) vs ≫= id.

Section Trigger.

(** The text PostgreSQL prints for a JSON value that is neither a string
    nor null. *)
Variable jsonb_text : json -> string.

(** [object ->> key] *)
Definition get_text (object : option (gmap string json)) (key : string) : option string :=
  match object with
  | None => None
  | Some o =>
    match o !! key with
    | None | Some JNull => None
    | Some (JStr s) => Some s
    | Some v => Some (jsonb_text v)
    end
  end.

(** [INSERT INTO profiles (id, email, full_name, role) VALUES (...) ON
    CONFLICT (id) DO NOTHING].  [is_active] takes its default [true], the
    two timestamps their default [NOW()].  The constraints of the new row are
    evaluated before the conflict is looked for.  [backend] is an error
    the server raises while the statement runs, if any. *)
Definition insert_profile (backend : option SqlError) (now : string) (id : uuid)
    (email full_name role : option string) : Stmt unit :=
  fun st =>
    match backend with
    | Some e => inl e
    | None =>
      match email with
      | None =>
        inl (not_null_violation (Pg.not_null_violation "email" "profiles"))
      | Some email =>
        let row := mkProfile id email full_name role (Some true) now now in
        if negb (profile_check row)
        then inl (check_violation (Pg.check_violation "profiles" "profiles_role_check"))
        else if existsb (fun p => String.eqb (p_id p) id) (profiles st)
        then inr (tt, st)
        else inr (tt, mkState (profiles st ++ [row]) (log st))
      end
    end.

Definition handle_new_user (backend : option SqlError) (now : string) (NEW : AuthUser)
    : Stmt AuthUser :=
  exception_when_others
    (seq (insert_profile backend now (u_id NEW) (u_email NEW)
            (coalesce [get_text (u_raw_user_meta_data NEW) "full_name";
                       get_text (u_raw_user_meta_data NEW) "name";
                       Some ""])
            (Some "user"))
         (fun _ => ret NEW))
    (fun sqlerrm =>
       seq (raise_log ("Error creating profile for user " ++ u_id NEW ++ ": " ++ sqlerrm))
           (fun _ => ret NEW)).

End Trigger.

End NewUser.

(** ** Request bodies *)

Module Js.

(** [JSON.parse] keeps the last of two members with one name. *)
Definition obj_map (fields : list (string * json)) : gmap string json :=
  fold_left (fun m kv => <[kv.1 := kv.2]> m) fields ∅.

(** [v[key]] for a parsed value that is not [null]: [None] is [undefined].
    Only objects have the members the handlers ask for. *)
Definition member (v : json) (key : string) : option json :=
  match v with
  | JObj fields => obj_map fields !! key
  | _ => None
  end.

(** Truthiness of a member. *)
Definition truthy (v : option json) : bool :=
  match v with
  | None | Some JNull | Some (JBool false) | Some (JNum 0) | Some (JStr "") => false
  | Some _ => true
  end.

(** [list.includes(v)] for a list of strings *)
Definition includes (list : list string) (v : option json) : bool :=
  match v with
  | Some (JStr s) => Schema.mem s list
  | _ => false
  end.

(** [v === s] for a string [s] *)
Definition is_string (v : option json) (s : string) : bool :=
  match v with
  | Some (JStr x) => String.eqb x s
  | _ => false
  end.

(** A string of JavaScript is a sequence of UTF-16 code units.  The strings
    here hold it in UTF-8: a code unit below U+0080 in one byte, one below
    U+0800 in two, another in three, also a surrogate that stands alone; a
    high surrogate followed by a low one is the code point they encode, in
    four bytes. *)
Definition surrogate (unit : N) : string :=
  String (ascii_of_N 237)
    (String (ascii_of_N (N.lor 128 (N.land (N.shiftr unit 6) 63)))
       (String (ascii_of_N (N.lor 128 (N.land unit 63))) EmptyString)).

(** The code point of a sequence of four bytes, less 0x10000. *)
Definition supplementary (a b c d : ascii) : N :=
  (N.lor (N.shiftl (N.land (N_of_ascii a) 7) 18)
     (N.lor (N.shiftl (N.land (N_of_ascii b) 63) 12)
        (N.lor (N.shiftl (N.land (N_of_ascii c) 63) 6) (N.land (N_of_ascii d) 63)))
   - 65536)%N.

Definition high_surrogate (a b c d : ascii) : string :=
  surrogate (55296 + N.shiftr (supplementary a b c d) 10)%N.

Definition low_surrogate (a b c d : ascii) : string :=
  surrogate (56320 + N.land (supplementary a b c d) 1023)%N.

(** The code units of a string, each a string of its own: what the indices
    [s[0]], [s[1]], ... yield.  A byte that starts no sequence counts as a
    unit; no parsed text has one. *)
Fixpoint units (bytes : list ascii) : list string :=
  match bytes with
  | [] => []
  | a :: rest =>
    let one := String a EmptyString :: units rest in
    if (N_of_ascii a <? 192)%N then one
    else if (N_of_ascii a <? 224)%N then
      match rest with
      | b :: rest2 => String a (String b EmptyString) :: units rest2
      | _ => one
      end
    else if (N_of_ascii a <? 240)%N then
      match rest with
      | b :: c :: rest3 => String a (String b (String c EmptyString)) :: units rest3
      | _ => one
      end
    else
      match rest with
      | b :: c :: d :: rest4 =>
        high_surrogate a b c d :: low_surrogate a b c d :: units rest4
      | _ => one
      end
  end.

Definition code_units (s : string) : list string :=
  units (String.list_ascii_of_string s).

End Js.

(** The profile check every handler starts with:
    [.from('profiles').select('role').eq('id', user.id).single()]. *)
Definition select_role (profiles : list Schema.Profile) (user_id : uuid)
    : option (option string) :=
  option_map Schema.p_role
    (single (List.filter (fun p => String.eqb (Schema.p_id p) user_id) profiles)).

(** [!profile || !['curator', 'admin'].includes(profile.role)] *)
Definition not_curator_or_admin (profile : option (option string)) : bool :=
  match profile with
  | Some (Some role) => negb (Schema.mem role ["curator"; "admin"])
  | _ => true
  end.

(** ** [POST /api/chunks/{id}/review] *)

Module Review.

Record Request : Type := mkRequest {
  params_id : string;
  session : option uuid;
  (** [None] when [request.json()] rejects *)
  json_body : option json
}.

(** The calls into [src/lib/api/curator], which is outside the handler. *)
Inductive Call : Type :=
| approveChunk (chunkId : string) (notes : json) (reviewerId : uuid)
| rejectChunk (chunkId : string) (reviewerId : uuid).

(** What a call throws, if it does. *)
Inductive Thrown : Type :=
| ThrownError (message : string)
| ThrownOther.

Definition thrown_message (t : Thrown) : string :=
  match t with
  | ThrownError message => message
  | ThrownOther => "Unknown error"
  end.

(** [notes || ''] *)
Definition notes_or_empty (notes : option json) : json :=
  match notes with
  | Some v => if Js.truthy notes then v else JStr ""
  | None => JStr ""
  end.

Definition finish (action : string) (outcome : option Thrown) (ok : string) : Response :=
  match outcome with
  | None => Json (BSuccess ok) 200
  | Some t =>
    Json (BError ("Failed to " ++ action ++ " chunk: " ++ thrown_message t)) 500
  end.

(** The handler answers with a response and the calls it made; [outcome] is
    how the call it makes ends. *)
Definition POST (request : Request) (profiles : list Schema.Profile)
    (outcome : option Thrown) : Response * list Call :=
  let id := params_id request in
  match session request with
  | None => (Json (BError "Unauthorized") 401, [])
  | Some user_id =>
    if not_curator_or_admin (select_role profiles user_id)
    then (Json (BError "Insufficient permissions") 403, [])
    else
      match json_body request with
      | None | Some JNull => (Json (BError "Internal server error") 500, [])
      | Some body =>
        let action := Js.member body "action" in
        let notes := Js.member body "notes" in
        if negb (Js.includes ["approve"; "reject"] action)
        then (Json (BError "Invalid action. Must be approve or reject") 400, [])
        else if Js.is_string action "approve"
        then (finish "approve" outcome "Chunk approved successfully",
              [approveChunk id (notes_or_empty notes) user_id])
        else (finish "reject" outcome "Chunk rejected successfully",
              [rejectChunk id user_id])
      end
  end.

End Review.

(** ** [PUT /api/chunks/{id}/metadata] *)

Module Metadata.
Import Schema.

Record Request : Type := mkRequest {
  params_id : string;
  session : option uuid;
  (** [None] when [request.json()] rejects *)
  json_body : option json
}.

(** The own enumerable properties [{ ...v }] copies: the members of an
    object, the indexed elements of an array, the indexed code units of a
    string, nothing for the other values. *)
Definition spread (v : option json) : gmap string json :=
  match v with
  | Some (JObj fields) => Js.obj_map fields
  | Some (JArr items) => list_to_map (imap (fun i x => (pretty i, x)) items)
  | Some (JStr s) => list_to_map (imap (fun i u => (pretty i, JStr u)) (Js.code_units s))
  | _ => ∅
  end.

(** [{ ...currentChunk.ai_metadata, ...metadata, last_updated: now }] *)
Definition updatedMetadata (current : option (gmap string json)) (metadata : option json)
    (now : string) : gmap string json :=
  <["last_updated" := JStr now]> (spread metadata ∪ default ∅ current).

Definition set_metadata (m : gmap string json) (editor : uuid) (now : string) (c : Chunk)
    : Chunk :=
  mkChunk (c_id c) (c_document_id c) (c_chunk_index c) (c_chunk_text c) (Some m)
          (c_review_status c) (c_curator_notes c) (c_reviewed_by c) (c_reviewed_at c)
          (c_is_filtered c) (c_filtered_reason c) true (Some editor) (Some now).

(** [.from('document_chunks').select('ai_metadata').eq('id', id).single()] *)
Definition select_ai_metadata (backend : option string) (chunks : list Chunk) (id : string)
    : option (option (gmap string json)) :=
  match backend with
  | Some _ => None
  | None =>
    option_map c_ai_metadata
      (single (List.filter (fun c => String.eqb (c_id c) id) chunks))
  end.

(** [.from('document_chunks').update({...}).eq('id', id)] *)
Definition chunks_update (backend : option string) (set : Chunk -> Chunk) (id : string)
    (chunks : list Chunk) : option string * list Chunk :=
  match backend with
  | Some e => (Some e, chunks)
  | None => (None, map (fun c => if String.eqb (c_id c) id then set c else c) chunks)
  end.

(** [fetch_backend] and [update_backend] are the store's answers to the two
    statements, [now_metadata] and [now_edited] the two readings of the
    clock. *)
Definition PUT (request : Request) (profiles : list Profile) (chunks : list Chunk)
    (fetch_backend update_backend : option string) (now_metadata now_edited : string)
    : Response * list Chunk :=
  let id := params_id request in
  match session request with
  | None => (Json (BError "Unauthorized") 401, chunks)
  | Some user_id =>
    if not_curator_or_admin (select_role profiles user_id)
    then (Json (BError "Insufficient permissions") 403, chunks)
    else
      match json_body request with
      | None | Some JNull => (Json (BError "Internal server error") 500, chunks)
      | Some body =>
        let metadata := Js.member body "metadata" in
        if negb (Js.truthy metadata)
        then (Json (BError "Metadata is required") 400, chunks)
        else
          match select_ai_metadata fetch_backend chunks id with
          | None => (Json (BError "Chunk not found") 404, chunks)
          | Some current =>
            let updated := updatedMetadata current metadata now_metadata in
            match chunks_update update_backend (set_metadata updated user_id now_edited)
                                id chunks with
            | (Some _, chunks') => (Json (BError "Failed to update metadata") 500, chunks')
            | (None, chunks') =>
              (Json (BMetadata "Metadata updated successfully" updated) 200, chunks')
            end
          end
      end
  end.

End Metadata.

(** ** [POST /api/documents/upload] *)

Module Upload.
Import Schema.

Record File : Type := mkFile {
  f_name : string;
  f_size : Z;
  f_type : string
}.

(** [formData.get(name)]: [None] is [null]. *)
Record Form : Type := mkForm {
  file : option File;
  title : option string;
  documentType : option string;
  description : option string
}.

Record Request : Type := mkRequest {
  session : option uuid;
  (** [None] when [request.formData()] rejects *)
  form_data : option Form
}.

(** [INSERT INTO documents]: the row must pass the CHECKs and carry a new
    primary key. *)
Definition documents_insert (backend : option string) (row : Document)
    (documents : list Document) : string + list Document :=
  match backend with
  | Some e => inl e
  | None =>
    if negb (document_check row)
    then inl (Pg.check_violation "documents" (document_violation row))
    else if existsb (fun d => String.eqb (d_id d) (d_id row)) documents
    then inl (Pg.unique_violation "documents_pkey")
    else inr (documents ++ [row])%list
  end.

(** Modelled from the spec: [uploadDocument] of [src/lib/api/curator], which
    the handler imports, is not among the sources.  Section 3 of the
    specification has a document "created on upload (status=pending)": the
    call stores the file and inserts one row of [documents] for it, leaving
    [processing_status] and the two counters to the defaults of the table,
    and answers with the id of the row; an error of the store is thrown.
    [new_id] is the value [uuid_generate_v4()] draws for the row and
    [storage_path] the place the storage gives the file. *)
Definition uploadDocument (backend : option string) (new_id : uuid) (storage_path : string)
    (uploader : uuid) (file : File) (docType : string) (documents : list Document)
    : string + (uuid * list Document) :=
  let row := mkDocument new_id (f_name file) (f_name file) docType
               storage_path (Some (f_size file)) (Some (f_type file))
               (Some uploader) "pending" None (Some 0%Z) (Some 0%Z) None in
  match documents_insert backend row documents with
  | inl e => inl e
  | inr documents' => inr (new_id, documents')
  end.

(** [SET column = value] for the TEXT columns of [documents]; a NULL for a
    NOT NULL column and a text for a column of another type are refused. *)
Definition assign (column : string) (value : option string) (d : Document)
    : option Document :=
  let mk fn ofn dt sp mt ps em :=
    mkDocument (d_id d) fn ofn dt sp (d_file_size d) mt (d_uploaded_by d) ps
               (d_total_chunks d) (d_approved_chunks d) (d_rejected_chunks d) em in
  let cur := mk (d_filename d) (d_original_filename d) (d_doc_type d) (d_storage_path d) in
  if String.eqb column "filename" then
    option_map (fun v => mk v (d_original_filename d) (d_doc_type d) (d_storage_path d)
                            (d_mime_type d) (d_processing_status d) (d_error_message d)) value
  else if String.eqb column "original_filename" then
    option_map (fun v => mk (d_filename d) v (d_doc_type d) (d_storage_path d)
                            (d_mime_type d) (d_processing_status d) (d_error_message d)) value
  else if String.eqb column "doc_type" then
    option_map (fun v => mk (d_filename d) (d_original_filename d) v (d_storage_path d)
                            (d_mime_type d) (d_processing_status d) (d_error_message d)) value
  else if String.eqb column "storage_path" then
    option_map (fun v => mk (d_filename d) (d_original_filename d) (d_doc_type d) v
                            (d_mime_type d) (d_processing_status d) (d_error_message d)) value
  else if String.eqb column "mime_type" then
    Some (cur value (d_processing_status d) (d_error_message d))
  else if String.eqb column "processing_status" then
    option_map (fun v => cur (d_mime_type d) v (d_error_message d)) value
  else if String.eqb column "error_message" then
    Some (cur (d_mime_type d) (d_processing_status d) value)
  else None.

(** The row after every assignment of the payload, if it passes the CHECKs. *)
Definition rewrite_row (payload : list (string * option string)) (d : Document)
    : option Document :=
  match fold_left (fun acc kv => acc ≫= assign kv.1 kv.2) payload (Some d) with
  | Some d' => if document_check d' then Some d' else None
  | None => None
  end.

(** [.from('documents').update(payload).eq('id', id)]: a column the table
    does not have is refused before any row is looked at; a row that breaks
    a constraint refuses the whole statement. *)
Definition documents_update (backend : option string)
    (payload : list (string * option string)) (id : uuid) (documents : list Document)
    : option string * list Document :=
  match backend with
  | Some e => (Some e, documents)
  | None =>
    match List.find (fun kv => negb (mem kv.1 documents_columns)) payload with
    | Some kv =>
      (Some ("Could not find the '" ++ kv.1 ++ "' column of 'documents' in the schema cache"),
       documents)
    | None =>
      match mapM (fun d => if String.eqb (d_id d) id then rewrite_row payload d else Some d)
                 documents with
      | Some documents' => (None, documents')
      | None => (Some "new row for relation documents violates a constraint", documents)
      end
    end
  end.

(** [!s] for a string or [null] *)
Definition present (s : option string) : option string :=
  match s with
  | Some "" | None => None
  | Some v => Some v
  end.

(** The handler answers with a response, the [documents] table and the lines
    it wrote with [console.error]. *)
Definition POST (request : Request) (profiles : list Profile) (documents : list Document)
    (upload_backend update_backend : option string) (new_id : uuid) (storage_path : string)
    : Response * list Document * list string :=
  match session request with
  | None => (Json (BError "Unauthorized") 401, documents, [])
  | Some user_id =>
    if not_curator_or_admin (select_role profiles user_id)
    then (Json (BError "Insufficient permissions") 403, documents, [])
    else
      match form_data request with
      | None => (Json (BError "Internal server error") 500, documents, ["Upload error:"])
      | Some form =>
        match file form, present (title form), present (documentType form) with
        | Some file, Some title, Some documentType =>
          match uploadDocument upload_backend new_id storage_path user_id file documentType
                               documents with
          | inl e =>
            (Json (BError "Internal server error") 500, documents, ["Upload error: " ++ e])
          | inr (documentId, documents') =>
            match documents_update update_backend
                    [("title", Some title); ("document_type", Some documentType);
                     ("description", description form); ("processing_status", Some "draft")]
                    documentId documents' with
            | (Some e, documents'') =>
              (Json (BDocument documentId) 200, documents'',
               ["Failed to update document metadata: " ++ e])
            | (None, documents'') => (Json (BDocument documentId) 200, documents'', [])
            end
          end
        | _, _, _ => (Json (BError "Missing required fields") 400, documents, [])
        end
      end
  end.

End Upload.

(** ** [GET] and [POST /api/admin/settings] *)

Module Settings.
Import Schema.

(** [.from('settings').select('*')] through the caller's client: the rows
    that "Anyone can view settings" shows to the caller. *)
Definition select_all (caller : option uuid) (settings : list Setting) : list Setting :=
  List.filter (fun _ => Policies.settings_select_using caller) settings.

(** What an assignment to the key [__proto__] of the object finds on the
    chain of prototypes: the setter of [Object.prototype]; no property, once
    the prototype is null; or a property [__proto__] of a value that an
    earlier assignment made the prototype. *)
Inductive Chain : Type :=
| SetterOfObject
| NoProperty
| DataProperty.

Definition has_key (key : string) (fields : list (string * json)) : bool :=
  existsb (fun f => String.eqb f.1 key) fields.

(** [settings[key] = value] on the properties of the object itself and the
    chain.  A key other than [__proto__], and [__proto__] once the object has
    it, is written on the object.  Otherwise the setter of [Object.prototype]
    makes an object, an array or null the prototype, ignores another value,
    and writes no property. *)
Definition assign (o : gmap string json * Chain) (key : string) (value : json)
    : gmap string json * Chain :=
  if negb (String.eqb key "__proto__") || bool_decide (is_Some (o.1 !! key))
  then (<[key := value]> o.1, o.2)
  else
    match o.2 with
    | SetterOfObject =>
      match value with
      | JNull => (o.1, NoProperty)
      | JObj fields =>
        (o.1, if has_key "__proto__" fields then DataProperty else SetterOfObject)
      | _ => o
      end
    | _ => (<[key := value]> o.1, o.2)
    end.

(** The handler makes no check of the caller; [caller] is the user of the
    request's cookies, whom the policies of the store see.  The response
    holds the properties of the object itself. *)
Definition GET (caller : option uuid) (backend : option string) (settings : list Setting)
    : Response :=
  match backend with
  | Some message => Json (BError message) 500
  | None =>
    Json (BSettings
            (fold_left (fun o setting => assign o (s_key setting) (s_value setting))
                       (select_all caller settings) (∅, SetterOfObject)).1)
         200
  end.

Record Request : Type := mkRequest {
  session : option uuid;
  (** [inl message] when [request.json()] rejects with that message *)
  json_body : string + json
}.

(** [.from('settings').upsert(row)] through the caller's client: [INSERT ...
    ON CONFLICT (key) DO UPDATE].  The row is checked against the policies
    for INSERT before the conflict is looked for; on a conflict the row in
    the table must pass the policy for UPDATE, and is replaced. *)
Definition upsert (caller : option uuid) (profiles : list Profile) (backend : option string)
    (row : Setting) (settings : list Setting) : option string * list Setting :=
  match backend with
  | Some e => (Some e, settings)
  | None =>
    if negb (Policies.settings_insert_check caller profiles)
    then (Some (Pg.policy_violation "settings"), settings)
    else if existsb (fun s => String.eqb (s_key s) (s_key row)) settings
    then
      if Policies.settings_update_using caller profiles
      then (None, map (fun s => if String.eqb (s_key s) (s_key row) then row else s) settings)
      else (Some (Pg.policy_violation_using "settings"), settings)
    else (None, (settings ++ [row])%list)
  end.

Global Arguments upsert : simpl never.

(** One of the two blocks ["if (x !== undefined) { validate; upsert }"]:
    [inl] is the response that ends the request there. *)
Definition handle_setting (value : option json) (allowed : list string) (invalid : string)
    (key : string) (wrap : json -> json) (profiles : list Profile) (backend : option string)
    (now : string) (user_id : uuid) (settings : list Setting)
    : (Response * list Setting) + list Setting :=
  match value with
  | None => inr settings
  | Some v =>
    if negb (Js.includes allowed value)
    then inl (Json (BError invalid) 400, settings)
    else
      match upsert (Some user_id) profiles backend
              (mkSetting key (wrap v) (Some now) (Some user_id)) settings with
      | (Some message, settings') => inl (Json (BError message) 500, settings')
      | (None, settings') => inr settings'
      end
  end.

(** [profile?.role !== 'admin'] *)
Definition not_admin (profile : option (option string)) : bool :=
  match profile with
  | Some (Some role) => negb (String.eqb role "admin")
  | _ => true
  end.

Definition POST (request : Request) (profiles : list Profile) (settings : list Setting)
    (backend_provider backend_processor : option string)
    (now_provider now_processor : string) : Response * list Setting :=
  match session request with
  | None => (Json (BError "Unauthorized") 401, settings)
  | Some user_id =>
    if not_admin (select_role profiles user_id)
    then (Json (BError "Forbidden") 403, settings)
    else
      match json_body request with
      | inl message => (Json (BError message) 500, settings)
      | inr JNull =>
        (Json (BError "Cannot destructure property 'provider' of 'body' as it is null.") 500,
         settings)
      | inr body =>
        let provider := Js.member body "provider" in
        let documentProcessor := Js.member body "documentProcessor" in
        match handle_setting provider ["gemini"; "openai"] "Invalid AI provider"
                "ai_provider" (fun v => JObj [("provider", v)])
                profiles backend_provider now_provider user_id settings with
        | inl r => r
        | inr settings1 =>
          match handle_setting documentProcessor ["flowise"; "direct_gemini"]
                  "Invalid document processor" "document_processor"
                  (fun v => JObj [("processor", v)])
                  profiles backend_processor now_processor user_id settings1 with
          | inl r => r
          | inr settings2 => (Json (BSaved provider documentProcessor) 200, settings2)
          end
        end
      end
  end.

(** The value stored under a key. *)
Definition stored (key : string) (settings : list Setting) : option json :=
  option_map s_value (List.find (fun s => String.eqb (s_key s) key) settings).

End Settings.

(** ** The statements that reach the [documents] table *)

Module Lifecycle.
Import Schema Completion.

Inductive step : DB -> DB -> Prop :=
| step_upload request profiles upload_backend update_backend new_id storage_path db r documents' l :
    Upload.POST request profiles (documents db) upload_backend update_backend new_id
                storage_path = (r, documents', l) ->
    step db (mkDB documents' (document_chunks db))
| step_insert backend row db documents' :
    Upload.documents_insert backend row (documents db) = inr documents' ->
    step db (mkDB documents' (document_chunks db))
| step_update backend payload id db e documents' :
    Upload.documents_update backend payload id (documents db) = (e, documents') ->
    step db (mkDB documents' (document_chunks db))
| step_review backend chunk_id s db e db' :
    update_review_status backend chunk_id s db = (e, db') ->
    step db db'
| step_approved doc_id db e db' :
    increment_approved_chunks doc_id db = (e, db') ->
    step db db'
| step_rejected doc_id db e db' :
    increment_rejected_chunks doc_id db = (e, db') ->
    step db db'
| step_chunks db chunks' :
    step db (mkDB (documents db) chunks').

Inductive reachable : DB -> Prop :=
| reachable_empty chunks : reachable (mkDB [] chunks)
| reachable_step db db' : reachable db -> step db db' -> reachable db'.

End Lifecycle.

(** ** The page guards of [helpers.ts] and of the protected layout *)

Module Guards.
Import Schema.

(** A guard hands the profile on, or leaves through [redirect(url)], which
    does not return. *)
Inductive Guarded : Type :=
| Returned (user : Profile)
| Redirected (url : string).

(** [user?.role ?? null] *)
Definition getCurrentUserRole (ctx : Auth.Ctx) : option string :=
  match Auth.getCurrentUser ctx with
  | Some user => p_role user
  | None => None
  end.

Definition requireAuth (ctx : Auth.Ctx) : Guarded :=
  match Auth.getCurrentUser ctx with
  | None => Redirected "/login"
  | Some user =>
    if negb (Auth.active user) then Redirected "/login?error=inactive"
    else Returned user
  end.

Definition requireCurator (ctx : Auth.Ctx) : Guarded :=
  match requireAuth ctx with
  | Redirected url => Redirected url
  | Returned user =>
    if negb (Auth.role_is user "curator") && negb (Auth.role_is user "admin")
    then Redirected "/unauthorized"
    else Returned user
  end.

Definition requireAdmin (ctx : Auth.Ctx) : Guarded :=
  match requireAuth ctx with
  | Redirected url => Redirected url
  | Returned user =>
    if negb (Auth.role_is user "admin") then Redirected "/unauthorized"
    else Returned user
  end.

(** [getUser] of the layout of the protected pages *)
Definition getUser (ctx : Auth.Ctx) : option Profile :=
  match Auth.session ctx with
  | None => None
  | Some uid => single (List.filter (fun p => String.eqb (p_id p) uid) (Auth.profiles ctx))
  end.

(** [ProtectedLayout]: [Returned profile] stands for the page rendered for
    that profile. *)
Definition ProtectedLayout (ctx : Auth.Ctx) : Guarded :=
  match getUser ctx with
  | None => Redirected "/login"
  | Some profile =>
    if negb (Auth.active profile) then Redirected "/login?error=inactive"
    else Returned profile
  end.

End Guards.

(** ** Step 3 of [complete-profile-fix.sql]: profiles for the users without one *)

Module Backfill.
Import Schema.

Section Statement.

Variable jsonb_text : json -> string.

(** [FROM auth.users u LEFT JOIN profiles p ON u.id = p.id WHERE p.id IS NULL] *)
Definition missing (users : list NewUser.AuthUser) (profiles : list Profile)
    : list NewUser.AuthUser :=
  List.filter (fun u => negb (existsb (fun p => String.eqb (NewUser.u_id u) (p_id p)) profiles))
              users.

(** The row the SELECT list builds; [None] when [email], a NOT NULL column,
    would be NULL. *)
Definition new_row (now : string) (u : NewUser.AuthUser) : option Profile :=
  match NewUser.u_email u with
  | None => None
  | Some email =>
    Some (mkProfile (NewUser.u_id u) email
            (NewUser.coalesce [NewUser.get_text jsonb_text (NewUser.u_raw_user_meta_data u)
                                 "full_name";
                               NewUser.get_text jsonb_text (NewUser.u_raw_user_meta_data u)
                                 "name";
                               Some ""])
            (Some "user") (Some true) now now)
  end.

(** The rows are added one after the other; a primary key that is taken
    fails the statement. *)
Fixpoint insert_rows (rows : list Profile) (profiles : list Profile)
    : string + list Profile :=
  match rows with
  | [] => inr profiles
  | row :: rows' =>
    if existsb (fun p => String.eqb (p_id p) (p_id row)) profiles
    then inl (Pg.unique_violation "profiles_pkey")
    else insert_rows rows' (profiles ++ [row])
  end.

(** [INSERT INTO profiles (id, email, full_name, role, is_active) SELECT ...]:
    one statement, which changes nothing when it fails. *)
Definition create_missing_profiles (now : string) (users : list NewUser.AuthUser)
    (profiles : list Profile) : string + list Profile :=
  match mapM (new_row now) (missing users profiles) with
  | None => inl (Pg.not_null_violation "email" "profiles")
  | Some rows => insert_rows rows profiles
  end.

(** The trigger [handle_new_user] at each of a list of signups, in order,
    with a store that answers. *)
Definition signups (now : string) (users : list NewUser.AuthUser) (st : NewUser.State)
    : NewUser.State :=
  fold_left (fun st u =>
               match NewUser.handle_new_user jsonb_text None now u st with
               | inr (_, st') => st'
               | inl _ => st
               end)
            users st.

End Statement.

End Backfill.

(** ** The review workflow of the client: [useCurator] *)

Module Curator.

Record DocumentStats : Type := mkStats {
  total : Z;
  approved : Z;
  rejected : Z;
  pending : Z;
  filtered : Z
}.

(** A number of JavaScript: a rational, NaN or an infinity. *)
Inductive Number : Type :=
| Finite (q : Q)
| NotANumber
| Infinity (negative : bool).

(** The state of the hook that navigation reads and writes; [A] is the type
    of a chunk under review.  The index is a number; the hook stores no NaN
    and no infinity in it. *)
Record State (A : Type) : Type := mkState {
  chunks : list A;
  currentChunkIndex : Q;
  stats : DocumentStats
}.
Arguments mkState {A} _ _ _.
Arguments chunks {A} _.
Arguments currentChunkIndex {A} _.
Arguments stats {A} _.

Definition initial {A : Type} : State A := mkState [] 0 (mkStats 0 0 0 0 0).

Definition len {A : Type} (st : State A) : Z := Z.of_nat (length (chunks st)).

(** [a < b] *)
Definition lt (a b : Q) : bool := negb (Qle_bool b a).

(** [loadData], when the three reads succeed *)
Definition loadData {A : Type} (chunksData : list A) (statsData : DocumentStats)
    (st : State A) : State A :=
  mkState chunksData 0 statsData.

(** The effect when [documentId] becomes null: the chunks and the
    statistics are cleared, the index is not touched. *)
Definition unload {A : Type} (st : State A) : State A :=
  mkState [] (currentChunkIndex st) (mkStats 0 0 0 0 0).

(** The four actions are closures.  [seen] is the state of the render that
    made the closure: its tests read the index and the length of that
    render.  [st] is the state when its updates are applied: for
    [refreshChunks], after the two reads have returned. *)
Definition refreshChunks {A : Type} (seen : State A) (chunksData : list A)
    (statsData : DocumentStats) (st : State A) : State A :=
  mkState chunksData
          (if Qle_bool (inject_Z (Z.of_nat (length chunksData))) (currentChunkIndex seen)
           then inject_Z (Z.max 0 (Z.of_nat (length chunksData) - 1))
           else currentChunkIndex st)
          statsData.

Section Arithmetic.

(** The rounding of a sum to a number of the machine. *)
Variable round : Q -> Q.

Definition nextChunk {A : Type} (seen st : State A) : State A :=
  if lt (currentChunkIndex seen) (inject_Z (len seen - 1))
  then mkState (chunks st) (round (Qred (currentChunkIndex st + 1))) (stats st)
  else st.

Definition previousChunk {A : Type} (seen st : State A) : State A :=
  if lt 0 (currentChunkIndex seen)
  then mkState (chunks st) (round (Qred (currentChunkIndex st - 1))) (stats st)
  else st.

End Arithmetic.

(** NaN and the infinities fail the test. *)
Definition goToChunk {A : Type} (seen : State A) (index : Number) (st : State A) : State A :=
  match index with
  | Finite q =>
    if Qle_bool 0 q && lt q (inject_Z (len seen))
    then mkState (chunks st) q (stats st)
    else st
  | _ => st
  end.

(** [chunks[currentChunkIndex] || null]: a number that is no whole number, or
    is negative, is the index of no element. *)
Definition currentChunk {A : Type} (st : State A) : option A :=
  let index := Qred (currentChunkIndex st) in
  if (Qden index =? 1)%positive && (0 <=? Qnum index)%Z
  then nth_error (chunks st) (Z.to_nat (Qnum index))
  else None.

Definition hasNext {A : Type} (st : State A) : bool :=
  lt (currentChunkIndex st) (inject_Z (len st - 1)).

Definition hasPrevious {A : Type} (st : State A) : bool :=
  lt 0 (currentChunkIndex st).

Definition isEmpty {A : Type} (st : State A) : bool := (len st =? 0)%Z.

Definition isComplete {A : Type} (st : State A) : bool :=
  (pending (stats st) =? 0)%Z && (0 <? total (stats st))%Z.

(** [stats.total > 0 ? (stats.approved + stats.rejected) / stats.total : 0] *)
Definition progress {A : Type} (st : State A) : Q :=
  if (0 <? total (stats st))%Z
  then (inject_Z (approved (stats st) + rejected (stats st)) / inject_Z (total (stats st)))%Q
  else 0%Q.

End Curator.

(** ** The statistics of the admin page: [getSystemStats] *)

Module Stats.

(** A row of [select('id, status')] *)
Record Row : Type := mkRow {
  r_id : uuid;
  r_status : string
}.

(** [data.reduce((acc, doc) => { acc[doc.status] = (acc[doc.status] || 0) + 1;
    return acc }, {})], for statuses that are not names of members every
    object has *)
Definition by_status (data : list Row) : gmap string Z :=
  fold_left (fun acc doc => <[r_status doc := (default 0 (acc !! r_status doc) + 1)%Z]> acc)
            data ∅.

Record SystemStats : Type := mkSystemStats {
  totalDocuments : Z;
  totalChunks : Z;
  totalVectors : Z;
  documentsByStatus : gmap string Z;
  chunksByStatus : gmap string Z
}.

(** [x.data?.length || 0] *)
Definition count {A : Type} (data : option (list A)) : Z :=
  match data with
  | Some rows => Z.of_nat (length rows)
  | None => 0
  end.

(** [x.data?.reduce(...) || {}] *)
Definition histogram (data : option (list Row)) : gmap string Z :=
  match data with
  | Some rows => by_status rows
  | None => ∅
  end.

(** The three arguments are the [data] of the three reads, [None] for a read
    that failed. *)
Definition getSystemStats (documents chunks : option (list Row))
    (vectors : option (list uuid)) : SystemStats :=
  mkSystemStats (count documents) (count chunks) (count vectors)
                (histogram documents) (histogram chunks).

End Stats.

(** ** The client's [AuthProvider] *)

Module Client.
Import Schema.

(** [isRole] reads the profile the provider holds. *)
Definition isRole (profile : option Profile) (role : string) : bool :=
  match profile with
  | None => false
  | Some profile =>
    if negb (Auth.active profile) then false
    else if Auth.role_is profile "admin" then true
    else if Auth.role_is profile "curator"
            && (String.eqb role "curator" || String.eqb role "user") then true
    else if Auth.role_is profile "user" && String.eqb role "user" then true
    else false
  end.

Definition isCurator (profile : option Profile) : bool := isRole profile "curator".

Definition isAdmin (profile : option Profile) : bool :=
  match profile with
  | None => false
  | Some profile =>
    Auth.role_is profile "admin" && bool_decide (p_is_active profile = Some true)
  end.

(** An error of the store client *)
Record StoreError : Type := mkStoreError {
  code : string;
  message : string
}.

(** [hay.includes(needle)] *)
Fixpoint contains (needle hay : string) : bool :=
  String.prefix needle hay
  || match hay with
     | String _ rest => contains needle rest
     | EmptyString => false
     end.

(** The user of the authentication service *)
Record User : Type := mkUser {
  user_id : uuid;
  user_email : option string;
  user_metadata : option (gmap string json)
}.

(** [a || b] on members that may be absent *)
Definition or_else (a b : option json) : option json :=
  if Js.truthy a then a else b.

Section Provider.

(** The text the store writes into a TEXT column for a JSON value that is
    not a string. *)
Variable json_text : json -> string.

Definition text_of (v : json) : string :=
  match v with
  | JStr s => s
  | _ => json_text v
  end.

(** [user.user_metadata?.full_name || user.user_metadata?.name || ''] *)
Definition full_name_of (user : User) : json :=
  let member key := user_metadata user ≫= (fun m => m !! key) in
  default (JStr "") (or_else (or_else (member "full_name") (member "name")) (Some (JStr ""))).

(** [user.email || ''] *)
Definition email_of (user : User) : string :=
  match user_email user with
  | Some e => e
  | None => ""
  end.

(** [.from('profiles').select('*').eq('id', userId).single()]: an error of
    the store, else the one row, else the error of [single]. *)
Definition select_profile (backend : option StoreError) (profiles : list Profile)
    (userId : uuid) : StoreError + Profile :=
  match backend with
  | Some e => inl e
  | None =>
    match single (List.filter (fun p => String.eqb (p_id p) userId) profiles) with
    | Some p => inr p
    | None => inl (mkStoreError "PGRST116" "JSON object requested, multiple (or no) rows returned")
    end
  end.

(** [.from('profiles').insert(profileData).select().single()]; the two
    timestamps take their default. *)
Definition insert_profile (backend : option StoreError) (now : string) (row : Profile)
    (profiles : list Profile) : option Profile * list Profile :=
  match backend with
  | Some _ => (None, profiles)
  | None =>
    if negb (profile_check row) || existsb (fun p => String.eqb (p_id p) (p_id row)) profiles
    then (None, profiles)
    else (Some row, (profiles ++ [row])%list)
  end.

(** [fetchProfile(userId)]: [select_backend] and [insert_backend] are the
    store's answers to the two statements, [auth_user] the user
    [supabase.auth.getUser()] answers with. *)
Definition fetchProfile (select_backend insert_backend : option StoreError)
    (auth_user : option User) (now : string) (profiles : list Profile) (userId : uuid)
    : option Profile * list Profile :=
  match select_profile select_backend profiles userId with
  | inr data => (Some data, profiles)
  | inl error =>
    if String.eqb (code error) "PGRST116" || contains "No rows found" (message error)
    then
      match auth_user with
      | Some user =>
        if String.eqb (user_id user) userId
        then insert_profile insert_backend now
               (mkProfile (user_id user) (email_of user) (Some (text_of (full_name_of user)))
                          (Some "user") (Some true) now now)
               profiles
        else (None, profiles)
      | None => (None, profiles)
      end
    else (None, profiles)
  end.




End Provider.

End Client.

(** ** Concrete rows, used to run the definitions *)

Module Samples.
Import Schema.

Definition profile (id : uuid) (role : string) (is_active : bool) : Profile :=
  mkProfile id (id ++ "@example.org") (Some "") (Some role) (Some is_active)
            "2024-01-01T00:00:00Z" "2024-01-01T00:00:00Z".

Definition alice : Profile := profile "alice" "admin" true.
Definition bob : Profile := profile "bob" "curator" true.
Definition carol : Profile := profile "carol" "user" true.
Definition dave : Profile := profile "dave" "curator" false.
Definition erin : Profile := profile "erin" "admin" false.
Definition mallory : Profile := profile "mallory" "superuser" true.

Definition people : list Profile := [alice; bob; carol; dave; erin; mallory].

(** An admin whose id is written as the store shows a uuid. *)
Definition root_id : uuid := "6f1c2d3e-4a5b-4c6d-8e7f-0a1b2c3d4e5f".
Definition root : Profile := profile root_id "admin" true.
Definition staff : list Profile := [root; carol].

Definition as_user (id : uuid) : Auth.Ctx := Auth.mkCtx (Some id) people.

Definition now : string := "2024-02-02T00:00:00Z".

Definition document (id : uuid) (total_chunks : option Z) (status : string) : Document :=
  mkDocument id "guide.pdf" "guide.pdf" "fhir" ("documents/" ++ id) (Some 1024%Z)
             (Some "application/pdf") (Some "bob") status total_chunks (Some 0%Z)
             (Some 0%Z) None.

Definition chunk (id document_id : uuid) (index : Z) (status : string) : Chunk :=
  mkChunk id document_id index "text" (Some {["topic" := JStr "claims"]}) status None None
          None false None false None None.

Fixpoint inner_product (a b : VectorSearch.vector) : Q :=
  match a, b with
  | x :: a', y :: b' => (x * y + inner_product a' b')%Q
  | _, _ => 0%Q
  end.

(** The square root of a rational that is the square of a rational. *)
Definition Qsqrt (q : Q) : Q :=
  Z.sqrt (Qnum (Qred q)) # Pos.sqrt (Qden (Qred q)).

(** pgvector's [<=>] at two vectors whose norms have a rational product, as
    the vectors below have: 1 minus the inner product divided by the norms,
    the quotient kept between -1 and 1; the quotient of 0 by 0, when a
    vector has norm zero, is NaN. *)
Definition cosine_distance (a b : VectorSearch.vector) : VectorSearch.float8 :=
  let norms := Qsqrt (inner_product a a * inner_product b b) in
  if Qeq_bool norms 0 then VectorSearch.NaN
  else
    let s := (inner_product a b / norms)%Q in
    VectorSearch.Num (Qred (1 - (if Qle_bool 1 s then 1
                                 else if Qle_bool s (-1) then -1 else s))).

(** A vector of [dim] coordinates: [x], then [ones] times 1, then zeros. *)
Definition embedding (dim : nat) (x : Q) (ones : nat) : VectorSearch.vector :=
  x :: repeat 1%Q ones ++ repeat 0%Q (dim - 1 - ones).

(** A query of the dimension of the gemini embeddings. *)
Definition query : VectorSearch.vector := embedding 768 1 0.

Definition kb_vector (id : uuid) (openai gemini : option VectorSearch.vector)
    : VectorSearch.KbVector :=
  VectorSearch.mkKbVector id "c1" "d1" "text" openai gemini "fhir" None None None None None
    None None None None None None None None None "2024-01-01T00:00:00Z".

(** Four records; under gemini their distances to [query] are 1/4, 0 and 1,
    and the last has no gemini embedding. *)
Definition kb : list VectorSearch.KbVector :=
  [kb_vector "v1" None (Some (embedding 768 3 7));
   kb_vector "v2" None (Some (embedding 768 1 0));
   kb_vector "v3" None (Some (embedding 768 0 1));
   kb_vector "v4" (Some (embedding 1536 1 0)) None].

(** The same with a record whose gemini embedding has every coordinate 0. *)
Definition kb_with_zero : list VectorSearch.KbVector :=
  kb ++ [kb_vector "v5" None (Some (repeat 0%Q 768))].

Definition new_user (email : option string) (meta : option (gmap string json))
    : NewUser.AuthUser :=
  NewUser.mkAuthUser "frank" email meta.

(** Three rows of [auth.users]: one with a profile, two without. *)
Definition auth_users : list NewUser.AuthUser :=
  [NewUser.mkAuthUser "alice" (Some "alice@example.org") None;
   new_user (Some "frank@example.org") (Some {["name" := JStr "Frank"]});
   NewUser.mkAuthUser "grace" (Some "grace@example.org") None].

(** [{ "metadata": { "topic": "billing" } }] sent for a chunk *)
Definition edit_by (id : uuid) (chunk_id : string) : Metadata.Request :=
  Metadata.mkRequest chunk_id (Some id)
    (Some (JObj [("metadata", JObj [("topic", JStr "billing")])])).


(** An upload of a PDF with a title and a document type. *)
Definition upload_by (id : uuid) : Upload.Request :=
  Upload.mkRequest (Some id)
    (Some (Upload.mkForm (Some (Upload.mkFile "guide.pdf" 1024 "application/pdf"))
                         (Some "Guide") (Some "fhir") (Some "A guide"))).

(** The settings as the schema seeds them. *)
Definition seeded : list Setting :=
  [mkSetting "ai_provider" (JObj [("provider", JStr "gemini")]) None None].

(** The same with a row under the key [__proto__]. *)
Definition seeded_with_proto : list Setting :=
  seeded ++ [mkSetting "__proto__" (JObj [("theme", JStr "dark")]) None None].

(** [{ "provider": p }] *)
Definition save_provider_by (id : uuid) (provider : string) : Settings.Request :=
  Settings.mkRequest (Some id) (inr (JObj [("provider", JStr provider)])).

(** [{ "provider": p, "documentProcessor": d }] *)
Definition save_by (id : uuid) (provider documentProcessor : string) : Settings.Request :=
  Settings.mkRequest (Some id)
    (inr (JObj [("provider", JStr provider); ("documentProcessor", JStr documentProcessor)])).

(** One document of a single chunk, under review. *)
Definition one_chunk : Completion.DB :=
  Completion.mkDB [document "d1" (Some 1%Z) "review"] [chunk "c1" "d1" 0 "pending"].

(** The scenario of section 8: a document of three chunks. *)
Definition three_chunks : Completion.DB :=
  Completion.mkDB [document "d1" (Some 3%Z) "review"]
                  [chunk "c1" "d1" 0 "pending"; chunk "c2" "d1" 1 "pending";
                   chunk "c3" "d1" 2 "pending"].

(** [{ "action": "approve", "notes": "ok" }] sent for chunk c1 *)
Definition approve_by (id : uuid) : Review.Request :=
  Review.mkRequest "c1" (Some id) (Some (JObj [("action", JStr "approve"); ("notes", JStr "ok")])).

End Samples.

(** ** The specification's tables *)

Module Spec.

(** Section 4.1: admin satisfies any required role, curator satisfies
    curator and user, user satisfies user only.  A row is (role, required
    role, answer). *)
Definition hierarchy : list (string * string * bool) :=
  [("admin", "admin", true); ("admin", "curator", true); ("admin", "user", true);
   ("curator", "admin", false); ("curator", "curator", true); ("curator", "user", true);
   ("user", "admin", false); ("user", "curator", false); ("user", "user", true)].

(** Section 3: the values of processing_status. *)
Definition status_in_set (d : Schema.Document) : Prop :=
  In (Schema.d_processing_status d) ["pending"; "processing"; "review"; "completed"; "failed"].



(** Section 4.4: a shallow merge in which the supplied keys override. *)
Definition shallow_merge (existing supplied : gmap string json) : gmap string json :=
  supplied ∪ existing.

End Spec.

(** * Proofs *)

Import Schema.

(** ** Lists and rows *)

Lemma single_Some {A : Type} (rows : list A) (x : A) :
  single rows = Some x -> rows = [x].
Proof.
  destruct rows as [|y [|z rows]]; simpl; intros H; try discriminate.
  by inversion H.
Qed.

Lemma filter_filter {A : Type} (f g : A -> bool) (l : list A) :
  List.filter (fun x => f x && g x) l = List.filter g (List.filter f l).
Proof.
  induction l as [|x l IH]; simpl; [done|].
  destruct (f x); simpl; [destruct (g x)|]; by rewrite IH.
Qed.

Lemma mem_In (s : string) (l : list string) : mem s l = true <-> In s l.
Proof.
  unfold mem. rewrite existsb_exists. split.
  - intros (x & Hx & Heq). apply String.eqb_eq in Heq. by subst.
  - intros H. exists s. split; [done|]. apply String.eqb_refl.
Qed.

Lemma mem_false (s : string) (l : list string) : mem s l = false <-> ~ In s l.
Proof.
  rewrite <- mem_In. destruct (mem s l); split; intros; congruence.
Qed.

(** ** C1: the role hierarchy *)

Lemma getCurrentUser_Some (ctx : Auth.Ctx) (u : Profile) :
  Auth.getCurrentUser ctx = Some u ->
  Auth.session ctx = Some (p_id u)
  /\ List.filter (fun p => String.eqb (p_id p) (p_id u)) (Auth.profiles ctx) = [u].
Proof.
  unfold Auth.getCurrentUser. destruct (Auth.session ctx) as [uid|]; [|done].
  intros H. apply single_Some in H.
  assert (Hu : In u (List.filter (fun p => String.eqb (p_id p) uid) (Auth.profiles ctx)))
    by (rewrite H; left; done).
  apply filter_In in Hu as [_ Hu]. apply String.eqb_eq in Hu. by subst uid.
Qed.

(** [has_role] reads the role of the profile [getCurrentUser] finds, when
    that profile is active, and NULL otherwise. *)
Lemma has_role_row (ctx : Auth.Ctx) (u : Profile) (q : option string) :
  Auth.getCurrentUser ctx = Some u ->
  Auth.has_role (Auth.profiles ctx) (p_id u) q =
  Auth.has_role [u] (p_id u) q.
Proof.
  intros H. apply getCurrentUser_Some in H as [_ H].
  unfold Auth.has_role. rewrite !filter_filter, H. simpl.
  by rewrite String.eqb_refl.
Qed.

Lemma role_is_eq (u : Profile) (r s : string) :
  p_role u = Some r -> Auth.role_is u s = String.eqb r s.
Proof. unfold Auth.role_is. by intros ->. Qed.

(** C1, as amended.  For a caller whose profile has role r: with
    is_active = true the check answers as the hierarchy table says for every r
    and required role q among user, curator and admin; with is_active not true
    it answers false for every r and q; for a profile role r that is none of
    the three it answers false.  A required role q that is none of the three
    is answered false for a curator and for a user, and true for an active
    admin, whose role is tested before the required role is looked at.  The
    SQL function [has_role] answers the same in each case. *)
Theorem hasRole_hierarchy (ctx : Auth.Ctx) (u : Profile) (r q : string) :
  Auth.getCurrentUser ctx = Some u ->
  p_role u = Some r ->
  (forall b, p_is_active u = Some true -> In (r, q, b) Spec.hierarchy ->
     Auth.hasRole ctx q = b
     /\ Auth.has_role (Auth.profiles ctx) (p_id u) (Some q) = b)
  /\ (p_is_active u <> Some true ->
      Auth.hasRole ctx q = false
      /\ Auth.has_role (Auth.profiles ctx) (p_id u) (Some q) = false)
  /\ (~ In r role_values ->
      Auth.hasRole ctx q = false
      /\ Auth.has_role (Auth.profiles ctx) (p_id u) (Some q) = false)
  /\ (~ In q role_values -> r <> "admin" ->
      Auth.hasRole ctx q = false
      /\ Auth.has_role (Auth.profiles ctx) (p_id u) (Some q) = false)
  /\ (p_is_active u = Some true -> r = "admin" ->
      Auth.hasRole ctx q = true
      /\ Auth.has_role (Auth.profiles ctx) (p_id u) (Some q) = true).
Proof.
  intros Hu Hr. rewrite (has_role_row ctx u (Some q) Hu).
  unfold Auth.hasRole. rewrite Hu.
  unfold Auth.has_role, Auth.active. simpl. rewrite String.eqb_refl. simpl.
  rewrite !(role_is_eq u r _ Hr).
  split; [|split; [|split; [|split]]].
  - intros b H H0. rewrite H. simpl in H0. simpl. rewrite Hr.
    split; repeat (destruct H0 as [H0|H0]; [inversion H0; subst; reflexivity|]); done.
  - intros H. split; destruct (p_is_active u) as [[]|]; done.
  - intros H.
    assert (Ha : String.eqb r "admin" = false)
      by (apply String.eqb_neq; intros ->; apply H; simpl; tauto).
    assert (Hc : String.eqb r "curator" = false)
      by (apply String.eqb_neq; intros ->; apply H; simpl; tauto).
    assert (Hn : String.eqb r "user" = false)
      by (apply String.eqb_neq; intros ->; apply H; simpl; tauto).
    rewrite Ha, Hc, Hn. simpl. split; [by destruct (negb _)|].
    destruct (p_is_active u) as [[]|]; simpl; [|done..].
    rewrite Hr. simpl. rewrite Ha, Hc, Hn. done.
  - intros Hq Hadm.
    assert (Ha : String.eqb r "admin" = false) by (by apply String.eqb_neq).
    assert (Hc : String.eqb q "curator" = false)
      by (apply String.eqb_neq; intros ->; apply Hq; simpl; tauto).
    assert (Hn : String.eqb q "user" = false)
      by (apply String.eqb_neq; intros ->; apply Hq; simpl; tauto).
    rewrite Ha, Hc, Hn. simpl. rewrite !andb_false_r.
    split; [by destruct (negb _)|].
    destruct (p_is_active u) as [[]|]; simpl; [|done..].
    rewrite Hr. simpl. rewrite Ha. simpl.
    destruct (String.eqb r "curator"), (String.eqb r "user"); done.
  - intros Hact ->. rewrite Hact. simpl. rewrite Hr. done.
Qed.

Lemma hasRole_hierarchy_witness :
  (Auth.hasRole (Samples.as_user "bob") "user" = true
   /\ Auth.has_role Samples.people "bob" (Some "user") = true)
  /\ (Auth.hasRole (Samples.as_user "dave") "user" = false
      /\ Auth.has_role Samples.people "dave" (Some "user") = false)
  /\ (Auth.hasRole (Samples.as_user "mallory") "user" = false
      /\ Auth.has_role Samples.people "mallory" (Some "user") = false)
  /\ (Auth.hasRole (Samples.as_user "bob") "superuser" = false
      /\ Auth.has_role Samples.people "bob" (Some "superuser") = false).
Proof.
  split; [|split; [|split]].
  - apply (proj1 (hasRole_hierarchy (Samples.as_user "bob") Samples.bob "curator" "user"
                    eq_refl eq_refl) true); [reflexivity | simpl; tauto].
  - apply (proj1 (proj2 (hasRole_hierarchy (Samples.as_user "dave") Samples.dave "curator"
                           "user" eq_refl eq_refl))).
    discriminate.
  - apply (proj1 (proj2 (proj2 (hasRole_hierarchy (Samples.as_user "mallory")
                                  Samples.mallory "superuser" "user" eq_refl eq_refl)))).
    simpl. intros [H|[H|[H|[]]]]; discriminate.
  - apply (proj1 (proj2 (proj2 (proj2 (hasRole_hierarchy (Samples.as_user "bob")
                                         Samples.bob "curator" "superuser"
                                         eq_refl eq_refl))))).
    + simpl. intros [H|[H|[H|[]]]]; discriminate.
    + discriminate.
Defined.

(** C1 as stated fails: the required role 'superuser' is none of the three,
    and the check does not fall through to false for it: alice, an active
    admin, passes, in [hasRole] and in [has_role]. *)
Lemma hasRole_unrecognized_required_role :
  Auth.getCurrentUser (Samples.as_user "alice") = Some Samples.alice
  /\ ~ In "superuser" role_values
  /\ Auth.hasRole (Samples.as_user "alice") "superuser" = true
  /\ Auth.has_role Samples.people "alice" (Some "superuser") = true.
Proof.
  split; [reflexivity|]. split; [|split; reflexivity].
  simpl. intros [H|[H|[H|[]]]]; discriminate.
Qed.

(** An admin passes the check whatever the required role is, also one that is
    none of the three. *)
Lemma hasRole_admin (ctx : Auth.Ctx) (u : Profile) (q : string) :
  Auth.getCurrentUser ctx = Some u ->
  p_role u = Some "admin" -> p_is_active u = Some true ->
  Auth.hasRole ctx q = true.
Proof.
  intros Hu Hr Ha. unfold Auth.hasRole, Auth.active, Auth.role_is.
  by rewrite Hu, Ha, Hr.
Qed.

(** ** C4: role and status changes by an admin *)

Lemma uuid_of_stored (text : string) (ids : list uuid) :
  In text ids -> uuid_of text ids = Some text.
Proof.
  intros Hin. unfold uuid_of.
  replace (existsb (String.eqb text) ids) with true; [done|].
  symmetry. apply existsb_exists. exists text. split; [done|]. apply String.eqb_refl.
Qed.

Lemma reached_id (caller : option uuid) (table : list Profile) (id : uuid) (p : Profile) :
  Auth.reached caller table id p = true -> p_id p = id.
Proof.
  unfold Auth.reached. intros H. apply andb_true_iff in H as [H _].
  apply andb_true_iff in H as [H _]. by apply String.eqb_eq.
Qed.

(** What the store answers to an UPDATE of one id: it refuses and changes
    nothing, or the text denotes an id and the rows reached are rewritten. *)
Lemma profiles_update_cases (caller : option uuid) (backend : option string)
    (set : Profile -> Profile) (userId : string) (table : list Profile) :
  (exists e, Auth.profiles_update caller backend set userId table = (Some e, table))
  \/ exists id,
       uuid_of userId (map p_id table) = Some id
       /\ Auth.profiles_update caller backend set userId table
          = (None, map (fun p => if Auth.reached caller table id p then set p else p) table).
Proof.
  unfold Auth.profiles_update. destruct backend; [by eauto|].
  destruct (uuid_of userId (map p_id table)) as [id|]; [|by eauto].
  destruct (negb (forallb _ table)); [by eauto|].
  destruct (negb (forallb _ table)); [by eauto|].
  right. by exists id.
Qed.

Lemma finish_update_Failure (caller : option uuid) (backend : option string)
    (set : Profile -> Profile) (userId : string) (table : list Profile) (e : string)
    (table' : list Profile) :
  Auth.finish (Auth.profiles_update caller backend set userId table) = (Auth.Failure e, table') ->
  table' = table.
Proof.
  destruct (profiles_update_cases caller backend set userId table)
    as [[e' ->]|(id & _ & ->)]; simpl; [by intros [= _ <-]|discriminate].
Qed.

Lemma finish_update_Success (caller : option uuid) (backend : option string)
    (set : Profile -> Profile) (userId : string) (table table' : list Profile) :
  Auth.finish (Auth.profiles_update caller backend set userId table) = (Auth.Success, table') ->
  exists id,
    uuid_of userId (map p_id table) = Some id
    /\ Forall2 (fun p p' => p' = p \/ (p_id p = id /\ p' = set p)) table table'.
Proof.
  destruct (profiles_update_cases caller backend set userId table)
    as [[e' ->]|(id & Hid & ->)]; simpl; [discriminate|].
  intros [= <-]. exists id. split; [done|].
  assert (Hc : forall p, Auth.reached caller table id p = true -> p_id p = id)
    by (intros p; apply reached_id).
  revert Hc. generalize (Auth.reached caller table id). intros c Hc.
  clear Hid. induction table as [|p l IH]; simpl; [constructor|].
  constructor; [|exact IH].
  destruct (c p) eqn:Hp; [|by left].
  right. split; [|done]. by apply Hc.
Qed.

(** C4, as amended.  [updateUserRole] fails with the authorization error
    whenever the actor's role is not admin, and with the self-modification
    error whenever an admin actor passes its own id, as the text of its
    profile; [setUserActiveStatus] fails with the authorization error
    whenever the actor's role is not admin, and with the self-modification
    error whenever an admin actor passes its own id and deactivates; in
    either function an actor that passes its own id (and, for the status,
    deactivates) always fails; every failure leaves the profiles unchanged;
    after a success every profile is unchanged or is a profile with the id
    the text denotes, which then carries the new value and [updated_at] =
    now.  A success need not change a row: the row policies pass over the
    rows the actor may not update. *)
Theorem profile_admin_guards (ctx : Auth.Ctx) (backend : option string) (now : string)
    (userId : string) (newRole : string) (isActive : bool) :
  let role_result := Auth.updateUserRole ctx backend now userId newRole in
  let status_result := Auth.setUserActiveStatus ctx backend now userId isActive in
  ((forall a, Auth.getCurrentUser ctx = Some a -> Auth.role_is a "admin" = false) ->
     role_result = (Auth.Failure "Only admins can change user roles", Auth.profiles ctx)
     /\ status_result = (Auth.Failure "Only admins can change user status", Auth.profiles ctx))
  /\ (forall a, Auth.getCurrentUser ctx = Some a -> p_id a = userId ->
        (exists e, role_result = (Auth.Failure e, Auth.profiles ctx))
        /\ (Auth.role_is a "admin" = true ->
            role_result = (Auth.Failure "Cannot change your own role", Auth.profiles ctx))
        /\ (isActive = false ->
            exists e, status_result = (Auth.Failure e, Auth.profiles ctx))
        /\ (isActive = false -> Auth.role_is a "admin" = true ->
            status_result
            = (Auth.Failure "Cannot deactivate your own account", Auth.profiles ctx)))
  /\ (forall e table, role_result = (Auth.Failure e, table) -> table = Auth.profiles ctx)
  /\ (forall e table, status_result = (Auth.Failure e, table) -> table = Auth.profiles ctx)
  /\ (forall table, role_result = (Auth.Success, table) ->
        exists id,
          uuid_of userId (map p_id (Auth.profiles ctx)) = Some id
          /\ Forall2 (fun p p' =>
                        p' = p
                        \/ (p_id p = id /\ p' = Auth.set_role newRole now p
                            /\ p_role p' = Some newRole /\ p_updated_at p' = now))
                     (Auth.profiles ctx) table)
  /\ (forall table, status_result = (Auth.Success, table) ->
        exists id,
          uuid_of userId (map p_id (Auth.profiles ctx)) = Some id
          /\ Forall2 (fun p p' =>
                        p' = p
                        \/ (p_id p = id /\ p' = Auth.set_is_active isActive now p
                            /\ p_is_active p' = Some isActive /\ p_updated_at p' = now))
                     (Auth.profiles ctx) table).
Proof.
  cbv zeta. unfold Auth.updateUserRole, Auth.setUserActiveStatus.
  destruct (Auth.getCurrentUser ctx) as [a|] eqn:Ha.
  2:{ split; [by intros _; split|]. split; [by intros ? [=]|].
      split; [by intros ? ? [= _ <-]|]. split; [by intros ? ? [= _ <-]|].
      split; by intros ? [=]. }
  destruct (Auth.role_is a "admin") eqn:Hadm; simpl.
  2:{ split; [by intros _; split|]. split.
      { intros b [= <-] _. split; [eauto|]. split; [congruence|]. split; [eauto|].
        congruence. }
      split; [by intros ? ? [= _ <-]|]. split; [by intros ? ? [= _ <-]|].
      split; by intros ? [=]. }
  split; [intros H; specialize (H a eq_refl); congruence|].
  split.
  { intros b [= <-] Hid. apply String.eqb_eq in Hid as Hid'. rewrite Hid'. simpl.
    split; [eauto|]. split; [done|].
    split; [intros ->; simpl; eauto|]. by intros ->. }
  split.
  { intros e table. destruct (String.eqb (p_id a) userId); [by intros [= _ <-]|].
    apply finish_update_Failure. }
  split.
  { intros e table. destruct (String.eqb (p_id a) userId && negb isActive);
      [by intros [= _ <-]|].
    apply finish_update_Failure. }
  split.
  - intros table. destruct (String.eqb (p_id a) userId); [discriminate|].
    intros H. apply finish_update_Success in H as (id & Hid & H).
    exists id. split; [done|].
    eapply Forall2_impl; [exact H|]. simpl. intros p p' [->|[Hp ->]]; [by left|by right].
  - intros table. destruct (String.eqb (p_id a) userId && negb isActive); [discriminate|].
    intros H. apply finish_update_Success in H as (id & Hid & H).
    exists id. split; [done|].
    eapply Forall2_impl; [exact H|]. simpl. intros p p' [->|[Hp ->]]; [by left|by right].
Qed.

Lemma profile_admin_guards_witness :
  Auth.updateUserRole (Samples.as_user "bob") None "2024-02-02T00:00:00Z" "carol" "admin"
  = (Auth.Failure "Only admins can change user roles", Samples.people)
  /\ Auth.updateUserRole (Samples.as_user "alice") None "2024-02-02T00:00:00Z" "alice" "user"
     = (Auth.Failure "Cannot change your own role", Samples.people)
  /\ Auth.setUserActiveStatus (Samples.as_user "alice") None "2024-02-02T00:00:00Z" "alice"
       false
     = (Auth.Failure "Cannot deactivate your own account", Samples.people).
Proof.
  split; [|split].
  - apply (proj1 (profile_admin_guards (Samples.as_user "bob") None
                    "2024-02-02T00:00:00Z" "carol" "admin" true)).
    intros a [= <-]. reflexivity.
  - apply (proj1 (proj2 (profile_admin_guards (Samples.as_user "alice") None
                           "2024-02-02T00:00:00Z" "alice" "user" false))
             Samples.alice eq_refl eq_refl).
    reflexivity.
  - apply (proj1 (proj2 (profile_admin_guards (Samples.as_user "alice") None
                           "2024-02-02T00:00:00Z" "alice" "user" false))
             Samples.alice eq_refl eq_refl); reflexivity.
Defined.

(** C4 as stated fails: a curator who targets their own profile is refused
    by the role guard, which runs first, so the error is the authorization
    error and not the self-modification error. *)
Lemma updateUserRole_self_not_admin :
  Auth.getCurrentUser (Samples.as_user "bob") = Some Samples.bob
  /\ p_id Samples.bob = "bob"
  /\ fst (Auth.updateUserRole (Samples.as_user "bob") None "2024-02-02T00:00:00Z" "bob"
            "admin")
     = Auth.Failure "Only admins can change user roles"
  /\ fst (Auth.updateUserRole (Samples.as_user "bob") None "2024-02-02T00:00:00Z" "bob"
            "admin")
     <> Auth.Failure "Cannot change your own role".
Proof. repeat split. vm_compute. discriminate. Qed.

(** [updateProfile] stamps the row it rewrites as well. *)
Lemma updateProfile_stamps (ctx : Auth.Ctx) (backend : option string) (now : string)
    (userId : uuid) (full_name : option string) (table : list Profile) :
  Auth.updateProfile ctx backend now userId full_name = (Auth.Success, table) ->
  Forall2 (fun p p' => p' = p \/ p_updated_at p' = now) (Auth.profiles ctx) table.
Proof.
  intros H. apply finish_update_Success in H as (id & _ & H).
  eapply Forall2_impl; [exact H|]. simpl. intros p p' [->|[_ ->]]; [by left|by right].
Qed.

(** A successful change, run: the target alone is rewritten and stamped. *)
Example updateUserRole_promotes :
  Auth.updateUserRole (Samples.as_user "alice") None "2024-02-02T00:00:00Z" "carol" "curator"
  = (Auth.Success,
     [Samples.alice; Samples.bob;
      mkProfile "carol" "carol@example.org" (Some "") (Some "curator") (Some true)
                "2024-01-01T00:00:00Z" "2024-02-02T00:00:00Z";
      Samples.dave; Samples.erin; Samples.mallory]).
Proof. reflexivity. Qed.

(** The guard on the actor's own id compares texts, the store compares uuid
    values.  An admin who passes its own id in upper case gets past the guard;
    the policy for a user's own profile admits the row, and the admin has
    demoted itself. *)
Example updateUserRole_own_id_respelled :
  Auth.getCurrentUser (Auth.mkCtx (Some Samples.root_id) Samples.staff) = Some Samples.root
  /\ uuid_of "6F1C2D3E-4A5B-4C6D-8E7F-0A1B2C3D4E5F" (map p_id Samples.staff)
     = Some Samples.root_id
  /\ Auth.updateUserRole (Auth.mkCtx (Some Samples.root_id) Samples.staff) None Samples.now
       "6F1C2D3E-4A5B-4C6D-8E7F-0A1B2C3D4E5F" "user"
     = (Auth.Success,
        [Auth.set_role "user" Samples.now Samples.root; Samples.carol]).
Proof. repeat split. Qed.

(** An admin whose account is not active passes the guard, which reads the
    role only; the policies then show it no row but its own, and the call
    reports a success that changed nothing. *)
Example updateUserRole_inactive_admin :
  Auth.updateUserRole (Samples.as_user "erin") None Samples.now "carol" "curator"
  = (Auth.Success, Samples.people).
Proof. reflexivity. Qed.

(** A text that is no uuid is refused by the store. *)
Example updateUserRole_not_a_uuid :
  Auth.updateUserRole (Samples.as_user "alice") None Samples.now "nobody" "curator"
  = (Auth.Failure (Pg.invalid_uuid "nobody"), Samples.people).
Proof. reflexivity. Qed.

(** ** C5: the review endpoint *)

Lemma not_curator_or_admin_false (profile : option (option string)) :
  not_curator_or_admin profile = false <->
  exists r, profile = Some (Some r) /\ In r ["curator"; "admin"].
Proof.
  unfold not_curator_or_admin. split.
  - destruct profile as [[r|]|]; try discriminate.
    intros H. apply negb_false_iff, mem_In in H. eauto.
  - intros (r & -> & H). apply negb_false_iff, mem_In. done.
Qed.

Lemma includes_true (l : list string) (v : option json) :
  Js.includes l v = true <-> exists s, v = Some (JStr s) /\ In s l.
Proof.
  unfold Js.includes. split.
  - destruct v as [[]|]; try discriminate. intros H. apply mem_In in H. eauto.
  - intros (s & -> & H). by apply mem_In.
Qed.

(** C5, as amended.  The endpoint answers 401 when there is no session; 403
    unless the caller has a profile whose role is curator or admin (is_active
    is not read); 400 when the body's action is neither "approve" nor
    "reject"; it calls approveChunk or rejectChunk only for such an action of
    such a caller, and answers {success, message} only after that call
    returned (500 when it threw). *)
Theorem review_POST_responses (request : Review.Request) (profiles : list Profile)
    (outcome : option Review.Thrown) :
  let response := fst (Review.POST request profiles outcome) in
  let calls := snd (Review.POST request profiles outcome) in
  let authorized uid :=
    exists r, select_role profiles uid = Some (Some r) /\ In r ["curator"; "admin"] in
  (Review.session request = None ->
     response = Json (BError "Unauthorized") 401 /\ calls = [])
  /\ (forall uid, Review.session request = Some uid -> ~ authorized uid ->
        response = Json (BError "Insufficient permissions") 403 /\ calls = [])
  /\ (forall uid body, Review.session request = Some uid -> authorized uid ->
        Review.json_body request = Some body -> body <> JNull ->
        (Js.includes ["approve"; "reject"] (Js.member body "action") = false ->
           response = Json (BError "Invalid action. Must be approve or reject") 400
           /\ calls = [])
        /\ (Js.member body "action" = Some (JStr "approve") ->
            calls = [Review.approveChunk (Review.params_id request)
                       (Review.notes_or_empty (Js.member body "notes")) uid]
            /\ (outcome = None ->
                response = Json (BSuccess "Chunk approved successfully") 200)
            /\ (outcome <> None -> status response = 500))
        /\ (Js.member body "action" = Some (JStr "reject") ->
            calls = [Review.rejectChunk (Review.params_id request) uid]
            /\ (outcome = None ->
                response = Json (BSuccess "Chunk rejected successfully") 200)
            /\ (outcome <> None -> status response = 500)))
  /\ (calls <> [] ->
        exists uid body,
          Review.session request = Some uid /\ authorized uid
          /\ Review.json_body request = Some body
          /\ Js.includes ["approve"; "reject"] (Js.member body "action") = true)
  /\ (forall message, body response = BSuccess message ->
        calls <> [] /\ outcome = None /\ status response = 200).
Proof.
  cbv zeta. unfold Review.POST.
  destruct (Review.session request) as [uid|] eqn:Hs.
  2:{ simpl. split; [done|]. split; [done|]. split; [done|]. split; done. }
  destruct (not_curator_or_admin (select_role profiles uid)) eqn:Hauth.
  { simpl. split; [done|].
    split; [done|].
    split.
    { intros uid' body' [= <-] Ha. apply not_curator_or_admin_false in Ha. congruence. }
    split; done. }
  apply not_curator_or_admin_false in Hauth.
  split; [done|].
  split; [intros uid' [= <-] Hn; by destruct Hn|].
  destruct (Review.json_body request) as [body0|] eqn:Hb.
  2:{ simpl. split; [done|]. split; done. }
  assert (Hcase : body0 = JNull \/ body0 <> JNull)
    by (destruct body0; (by left) || (by right)).
  destruct Hcase as [->|Hnn].
  { simpl. split; [by intros ? ? _ _ [= <-]|]. split; done. }
  set (action := Js.member body0 "action").
  replace (match body0 with
           | JNull => (Json (BError "Internal server error") 500, [])
           | _ => _ end)
    with (if negb (Js.includes ["approve"; "reject"] action)
          then (Json (BError "Invalid action. Must be approve or reject") 400,
                @nil Review.Call)
          else if Js.is_string action "approve"
          then (Review.finish "approve" outcome "Chunk approved successfully",
                [Review.approveChunk (Review.params_id request)
                   (Review.notes_or_empty (Js.member body0 "notes")) uid])
          else (Review.finish "reject" outcome "Chunk rejected successfully",
                [Review.rejectChunk (Review.params_id request) uid]))
    by (destruct body0; done).
  destruct (Js.includes ["approve"; "reject"] action) eqn:Hinc; simpl.
  2:{ split; [|split; [done|done]].
      intros uid' body' [= <-] _ [= <-] _. fold action. rewrite Hinc.
      split; [done|]. split; intros Heq; rewrite Heq in Hinc; done. }
  apply includes_true in Hinc as Hinc'. destruct Hinc' as (s & Hact & Hin).
  rewrite Hact. simpl in Hin.
  destruct Hin as [<-|[<-|[]]]; simpl.
  - split.
    { intros uid' body' [= <-] _ [= <-] _. fold action. rewrite Hact. simpl.
      split; [done|]. split; [|done]. intros _. split; [done|].
      split; [by intros ->|]. by destruct outcome. }
    split; [intros _; exists uid, body0; fold action; rewrite Hact; done|].
    intros message. destruct outcome; simpl; [done|]. done.
  - split.
    { intros uid' body' [= <-] _ [= <-] _. fold action. rewrite Hact. simpl.
      split; [done|]. split; [done|]. intros _. split; [done|].
      split; [by intros ->|]. by destruct outcome. }
    split; [intros _; exists uid, body0; fold action; rewrite Hact; done|].
    intros message. destruct outcome; simpl; [done|]. done.
Qed.

Lemma review_POST_responses_witness :
  snd (Review.POST (Samples.approve_by "bob") Samples.people None)
  = [Review.approveChunk "c1" (JStr "ok") "bob"]
  /\ fst (Review.POST (Samples.approve_by "bob") Samples.people None)
     = Json (BSuccess "Chunk approved successfully") 200
  /\ fst (Review.POST (Samples.approve_by "carol") Samples.people None)
     = Json (BError "Insufficient permissions") 403.
Proof.
  pose proof (review_POST_responses (Samples.approve_by "bob") Samples.people None) as Hb.
  pose proof (review_POST_responses (Samples.approve_by "carol") Samples.people None) as Hc.
  cbv zeta in Hb, Hc.
  destruct Hb as (_ & _ & Hb & _). destruct Hc as (_ & Hc & _).
  specialize (Hb "bob" (JObj [("action", JStr "approve"); ("notes", JStr "ok")]) eq_refl).
  destruct Hb as (_ & (Hcalls & Hok & _) & _).
  - exists "curator". split; [reflexivity | simpl; tauto].
  - reflexivity.
  - discriminate.
  - reflexivity.
  - split; [exact Hcalls|]. split; [exact (Hok eq_refl)|].
    apply (Hc "carol" eq_refl).
    intros (r & Hr & Hin). vm_compute in Hr. inversion Hr; subst r.
    simpl in Hin. destruct Hin as [H|[H|[]]]; discriminate.
Defined.

(** C5 as stated fails: dave is a curator whose account is not active; the
    handler reads the role alone and lets the review through. *)
Lemma review_POST_inactive_curator :
  p_role Samples.dave = Some "curator"
  /\ p_is_active Samples.dave = Some false
  /\ Review.POST (Samples.approve_by "dave") Samples.people None
     = (Json (BSuccess "Chunk approved successfully") 200,
        [Review.approveChunk "c1" (JStr "ok") "dave"])
  /\ status (fst (Review.POST (Samples.approve_by "dave") Samples.people None)) <> 403.
Proof. repeat split. vm_compute. discriminate. Qed.

(** ** C2: completion of a document *)

Lemma filter_update_rows (chunk_id : uuid) (s : string) (P : Chunk -> bool)
    (chunks : list Chunk) :
  List.filter (fun c => String.eqb (c_id c) chunk_id && P c)
    (map (fun c => if String.eqb (c_id c) chunk_id
                   then Completion.set_review_status s c else c) chunks)
  = List.filter P (map (Completion.set_review_status s)
                       (List.filter (fun c => String.eqb (c_id c) chunk_id) chunks)).
Proof.
  induction chunks as [|c chunks IH]; simpl; [done|].
  destruct (String.eqb (c_id c) chunk_id) eqn:Hc; simpl; rewrite Hc; simpl.
  - destruct (P _); by rewrite IH.
  - exact IH.
Qed.

Lemma update_review_status_accepted (backend : option string) (chunk_id : uuid) (s : string)
    (db db' : Completion.DB) (c : Chunk) :
  List.filter (fun c => String.eqb (c_id c) chunk_id) (Completion.document_chunks db) = [c] ->
  Completion.update_review_status backend chunk_id s db = (None, db') ->
  let chunks' := map (fun c => if String.eqb (c_id c) chunk_id
                               then Completion.set_review_status s c else c)
                     (Completion.document_chunks db) in
  In s review_status_values
  /\ db' = if mem s ["approved"; "rejected"]
           then Completion.check_document_completion (Completion.set_review_status s c)
                  (Completion.mkDB (Completion.documents db) chunks')
           else Completion.mkDB (Completion.documents db) chunks'.
Proof.
  intros Hc. unfold Completion.update_review_status.
  destruct backend; [discriminate|].
  assert (Hex : existsb (fun c => String.eqb (c_id c) chunk_id)
                        (Completion.document_chunks db) = true).
  { apply existsb_exists. exists c.
    assert (Hin : In c [c]) by (by left). rewrite <- Hc in Hin.
    by apply filter_In in Hin. }
  rewrite Hex. simpl.
  destruct (mem s review_status_values) eqn:Hs; simpl; [|discriminate].
  intros [= <-]. split; [exact (proj1 (mem_In s review_status_values) Hs)|].
  rewrite filter_update_rows, Hc. simpl.
  unfold Completion.trigger_when at 1. simpl c_review_status.
  by destruct (mem s ["approved"; "rejected"]).
Qed.

Lemma check_document_completion_chunks (NEW : Chunk) (db : Completion.DB) :
  Completion.document_chunks (Completion.check_document_completion NEW db)
  = Completion.document_chunks db.
Proof.
  unfold Completion.check_document_completion.
  destruct (Completion.select_total _ _); [|done]. by destruct (_ <=? _)%Z.
Qed.

Lemma find_completed (doc_id : uuid) (docs : list Document) (N : Z) :
  match List.filter (fun d => String.eqb (d_id d) doc_id) docs with
  | d :: _ => d_total_chunks d
  | [] => None
  end = Some N ->
  option_map d_processing_status
    (List.find (fun d => String.eqb (d_id d) doc_id)
       (map (fun d => if String.eqb (d_id d) doc_id
                      then Completion.set_processing_status "completed" d else d) docs))
  = Some "completed".
Proof.
  induction docs as [|d docs IH]; simpl; [done|].
  destruct (String.eqb (d_id d) doc_id) eqn:Hd; simpl; rewrite Hd; [done|exact IH].
Qed.

(** C2, as amended.  Let a statement set the review_status of chunk c, of
    document doc_id with total_chunks = N, to s, and be accepted.  The
    completion check runs exactly when s is approved or rejected; it then
    rewrites processing_status of the document to 'completed' exactly when at
    least N chunks of the document are approved, rejected or filtered.  So
    with s = filtered, or with fewer than N such chunks, the documents are as
    they were; with s approved or rejected and at least N such chunks, the
    document is completed. *)
Theorem completion_after_review (backend : option string) (chunk_id : uuid) (s : string)
    (db db' : Completion.DB) (c : Chunk) (N : Z) :
  List.filter (fun c => String.eqb (c_id c) chunk_id) (Completion.document_chunks db) = [c] ->
  Completion.select_total (c_document_id c) db = Some N ->
  Completion.update_review_status backend chunk_id s db = (None, db') ->
  let doc_id := c_document_id c in
  let reviewed := Completion.count_reviewed doc_id db' in
  Completion.document_chunks db'
  = map (fun c => if String.eqb (c_id c) chunk_id
                  then Completion.set_review_status s c else c)
        (Completion.document_chunks db)
  /\ (In s ["approved"; "rejected"] -> (N <= reviewed)%Z ->
      Completion.documents db'
      = map (fun d => if String.eqb (d_id d) doc_id
                      then Completion.set_processing_status "completed" d else d)
            (Completion.documents db)
      /\ option_map d_processing_status (Completion.find_document doc_id db')
         = Some "completed")
  /\ (~ In s ["approved"; "rejected"] ->
      Completion.documents db' = Completion.documents db)
  /\ ((reviewed < N)%Z -> Completion.documents db' = Completion.documents db).
Proof.
  intros Hc HN Hupd. cbv zeta.
  destruct (update_review_status_accepted _ _ _ _ _ _ Hc Hupd) as [Hs Hdb'].
  cbv zeta in Hdb'.
  set (chunks' := map _ (Completion.document_chunks db)) in *.
  assert (Hchunks : Completion.document_chunks db' = chunks').
  { rewrite Hdb'. destruct (mem s _); [|done].
    by rewrite check_document_completion_chunks. }
  assert (Hcount : Completion.count_reviewed (c_document_id c) db'
                   = Completion.count_reviewed (c_document_id c)
                       (Completion.mkDB (Completion.documents db) chunks')).
  { unfold Completion.count_reviewed. by rewrite Hchunks. }
  split; [exact Hchunks|].
  rewrite Hcount. clear Hcount Hchunks.
  assert (Htotal : Completion.select_total (c_document_id c)
                     (Completion.mkDB (Completion.documents db) chunks') = Some N)
    by exact HN.
  destruct (mem s ["approved"; "rejected"]) eqn:Hm.
  - unfold Completion.check_document_completion in Hdb'.
    simpl c_document_id in Hdb'. rewrite Htotal in Hdb'.
    split; [|split].
    + intros _ Hle. apply Z.leb_le in Hle. rewrite Hle in Hdb'. subst db'. simpl.
      split; [done|].
      exact (find_completed _ _ _ HN).
    + intros Hn. apply mem_In in Hm. done.
    + intros Hlt. apply Z.leb_gt in Hlt. rewrite Hlt in Hdb'. by subst db'.
  - subst db'. simpl. split; [|split; done].
    intros Hin. apply (proj2 (mem_In s ["approved"; "rejected"])) in Hin. congruence.
Qed.

Lemma completion_after_review_witness :
  option_map d_processing_status
    (Completion.find_document "d1"
       (snd (Completion.update_review_status None "c1" "approved" Samples.one_chunk)))
  = Some "completed".
Proof.
  refine (proj2 (proj1 (proj2 (completion_after_review None "c1" "approved"
            Samples.one_chunk _ (Samples.chunk "c1" "d1" 0 "pending") 1
            eq_refl eq_refl eq_refl)) _ _)).
  - simpl. tauto.
  - vm_compute. discriminate.
Defined.

(** C2 as stated fails: the only chunk of a document with total_chunks = 1
    becomes filtered; one chunk is then in a terminal status, and the
    document stays under review, since the trigger does not run for
    'filtered'. *)
Lemma completion_not_on_filtered :
  let db' := snd (Completion.update_review_status None "c1" "filtered" Samples.one_chunk) in
  fst (Completion.update_review_status None "c1" "filtered" Samples.one_chunk) = None
  /\ option_map c_review_status (Completion.find_chunk "c1" db') = Some "filtered"
  /\ Completion.select_total "d1" db' = Some 1%Z
  /\ Completion.count_reviewed "d1" db' = 1%Z
  /\ option_map d_processing_status (Completion.find_document "d1" db') = Some "review".
Proof. repeat split. Qed.

(** The scenario of section 8 of the specification: three chunks; approve,
    reject, approve.  The document is completed by the third review and not
    before. *)
Example completion_scenario :
  let db1 := snd (Completion.update_review_status None "c1" "approved" Samples.three_chunks) in
  let db2 := snd (Completion.update_review_status None "c2" "rejected" db1) in
  let db3 := snd (Completion.update_review_status None "c3" "approved" db2) in
  option_map d_processing_status (Completion.find_document "d1" db1) = Some "review"
  /\ option_map d_processing_status (Completion.find_document "d1" db2) = Some "review"
  /\ option_map d_processing_status (Completion.find_document "d1" db3) = Some "completed".
Proof. repeat split. Qed.

(** ** C3: similarity search *)

Section SearchProofs.

Variable cosine_distance : VectorSearch.vector -> VectorSearch.vector -> VectorSearch.float8.



Lemma insert_by_In (r x : VectorSearch.Scanned) (l : list VectorSearch.Scanned) :
  In x (VectorSearch.insert_by r l) <-> x = r \/ In x l.
Proof.
  induction l as [|y l IH]; simpl; [intuition auto|].
  destruct (VectorSearch.key_le _ _); simpl; [intuition auto|].
  rewrite IH. intuition auto.
Qed.

Lemma order_by_In (x : VectorSearch.Scanned) (l : list VectorSearch.Scanned) :
  In x (VectorSearch.order_by l) <-> In x l.
Proof.
  induction l as [|y l IH]; simpl; [done|].
  rewrite insert_by_In, IH. intuition auto.
Qed.





Lemma holds_true (c : option bool) : Sql.holds c = true -> c = Some true.
Proof. by destruct c as [[]|]. Qed.

Lemma and3_true (a b : option bool) :
  Sql.and3 a b = Some true -> a = Some true /\ b = Some true.
Proof. destruct a as [[]|], b as [[]|]; simpl; done. Qed.

Lemma or3_true (a b : option bool) :
  Sql.or3 a b = Some true -> a = Some true \/ b = Some true.
Proof. destruct a as [[]|], b as [[]|]; simpl; auto; done. Qed.

Lemma filterM_inr {A : Type} (f : A -> VectorSearch.Result bool) (l xs : list A) :
  VectorSearch.filterM f l = inr xs ->
  xs = List.filter (fun x => VectorSearch.passed (f x)) l.
Proof.
  revert xs. induction l as [|x l IH]; simpl; intros xs; [by intros [= <-]|].
  destruct (f x) as [e|keep]; simpl; [done|].
  destruct (VectorSearch.filterM f l) as [e|ys]; simpl; [done|].
  intros [= <-]. rewrite <- (IH ys eq_refl). by destruct keep.
Qed.



Lemma mapM_inr {A B : Type} (f : A -> VectorSearch.Result B) (l : list A) (ys : list B) :
  VectorSearch.mapM f l = inr ys -> Forall2 (fun x y => f x = inr y) l ys.
Proof.
  revert ys. induction l as [|x l IH]; simpl; intros ys; [intros [= <-]; constructor|].
  destruct (f x) as [e|y] eqn:Hx; simpl; [done|].
  destruct (VectorSearch.mapM f l) as [e|zs]; simpl; [done|].
  intros [= <-]. constructor; [done|]. by apply IH.
Qed.


(** A row that passes WHERE passes the two filters and has, in the column of
    the provider, an embedding of the dimension of the query that is above
    the threshold; the key and the similarity column are computed from it. *)
Lemma where_clause_true (query_embedding : VectorSearch.vector) (match_threshold : Q)
    (filter_doc_type : option string) (filter_use_cases : option (list string))
    (provider : string) (r : VectorSearch.KbVector) :
  VectorSearch.where_clause cosine_distance query_embedding match_threshold
    filter_doc_type filter_use_cases provider r = inr true ->
  VectorSearch.doc_type_condition filter_doc_type r = Some true
  /\ VectorSearch.use_cases_condition filter_use_cases r = Some true
  /\ exists e,
       VectorSearch.column_is provider r e
       /\ length e = length query_embedding
       /\ VectorSearch.gt (VectorSearch.one_minus (cosine_distance e query_embedding))
            match_threshold = true
       /\ VectorSearch.scan cosine_distance provider query_embedding r
          = inr (VectorSearch.mkScanned r (Some (cosine_distance e query_embedding))
                   (Some (VectorSearch.one_minus (cosine_distance e query_embedding)))).
Proof.
  unfold VectorSearch.where_clause. simpl.
  destruct (VectorSearch.doc_type_condition filter_doc_type r) as [[]|]; [|done..].
  destruct (VectorSearch.use_cases_condition filter_use_cases r) as [[]|]; [|done..].
  intros H. split; [done|]. split; [done|].
  unfold VectorSearch.similarity_condition, VectorSearch.similarity_to,
    VectorSearch.distance, VectorSearch.column_is, VectorSearch.scan, VectorSearch.order_key,
    VectorSearch.similarity, VectorSearch.similarity_to, VectorSearch.distance in *.
  destruct (String.eqb provider "openai") eqn:Ho.
  - apply String.eqb_eq in Ho. subst provider. simpl in H.
    destruct (VectorSearch.k_embedding_openai r) as [e|]; simpl in H.
    + destruct (length e =? length query_embedding)%nat eqn:Hd; simpl in H; [|done].
      apply Nat.eqb_eq in Hd.
      destruct (VectorSearch.gt _ match_threshold) eqn:Hgt.
      * exists e. split; [by left|]. done.
      * simpl in H. destruct (VectorSearch.k_embedding_gemini r) as [g|]; simpl in H; [|done].
        by destruct (length g =? length query_embedding)%nat.
    + destruct (VectorSearch.k_embedding_gemini r) as [g|]; simpl in H; [|done].
      by destruct (length g =? length query_embedding)%nat.
  - simpl in H. destruct (String.eqb provider "gemini") eqn:Hg; simpl in H; [|done].
    apply String.eqb_eq in Hg. subst provider.
    destruct (VectorSearch.k_embedding_gemini r) as [e|]; simpl in H; [|done].
    destruct (length e =? length query_embedding)%nat eqn:Hd; simpl in H; [|done].
    apply Nat.eqb_eq in Hd.
    destruct (VectorSearch.gt _ match_threshold) eqn:Hgt; simpl in H; [|done].
    exists e. split; [by right|]. done.
Qed.



(** The rows of a result: the rows that pass WHERE, each with its key and
    its similarity, in the order of the keys, cut at the limit. *)
Lemma match_documents_rows (kb_vectors : list VectorSearch.KbVector)
    (query_embedding : VectorSearch.vector) (t : Q) (n : Z)
    (filter_doc_type : option string) (filter_use_cases : option (list string))
    (p : string) (rows : list VectorSearch.Match) :
  VectorSearch.match_documents cosine_distance kb_vectors query_embedding t n
    filter_doc_type filter_use_cases p = inr rows ->
  (0 <= n)%Z
  /\ exists scanned,
       map VectorSearch.s_row scanned
       = List.filter
           (fun r => VectorSearch.passed
                       (VectorSearch.where_clause cosine_distance query_embedding t
                          filter_doc_type filter_use_cases p r))
           kb_vectors
       /\ Forall (fun s =>
                    In (VectorSearch.s_row s) kb_vectors
                    /\ VectorSearch.where_clause cosine_distance query_embedding t
                         filter_doc_type filter_use_cases p (VectorSearch.s_row s) = inr true
                    /\ VectorSearch.scan cosine_distance p query_embedding
                         (VectorSearch.s_row s) = inr s)
                 scanned
       /\ rows = map (fun s => VectorSearch.mkMatch (VectorSearch.k_id (VectorSearch.s_row s))
                                 (VectorSearch.k_content (VectorSearch.s_row s))
                                 (VectorSearch.s_similarity s) (VectorSearch.s_row s))
                     (firstn (Z.to_nat n) (VectorSearch.order_by scanned)).
Proof.
  unfold VectorSearch.match_documents.
  destruct (n <? 0)%Z eqn:Hn; [done|]. apply Z.ltb_ge in Hn.
  destruct (VectorSearch.filterM _ kb_vectors) as [e|selected] eqn:Hsel; simpl; [done|].
  destruct (VectorSearch.mapM _ selected) as [e|scanned] eqn:Hscan; simpl; [done|].
  intros [= <-]. split; [done|]. exists scanned.
  apply filterM_inr in Hsel. apply mapM_inr in Hscan.
  assert (Hrows : Forall2 (fun r s => VectorSearch.s_row s = r
                              /\ VectorSearch.scan cosine_distance p query_embedding r = inr s)
                    selected scanned).
  { eapply Forall2_impl; [exact Hscan|]. intros r s Hs. split; [|done].
    unfold VectorSearch.scan in Hs.
    destruct (VectorSearch.order_key _ _ _ _) as [|k]; simpl in Hs; [done|].
    destruct (VectorSearch.similarity _ _ _ _) as [|y]; simpl in Hs; [done|].
    by injection Hs as <-. }
  split; [|split; [|done]].
  - rewrite <- Hsel. clear -Hrows.
    induction Hrows as [|r s l k [Hr _] _ IH]; simpl; [done|]. by rewrite Hr, IH.
  - assert (Hin : Forall (fun r => In r kb_vectors
                            /\ VectorSearch.where_clause cosine_distance query_embedding t
                                 filter_doc_type filter_use_cases p r = inr true) selected).
    { apply Forall_forall. intros r Hr. rewrite Hsel in Hr.
      apply list_elem_of_In, filter_In in Hr as [Hr Hp]. split; [done|].
      unfold VectorSearch.passed in Hp.
      by destruct (VectorSearch.where_clause _ _ _ _ _ _ _) as [|[]]. }
    clear -Hrows Hin.
    induction Hrows as [|r s l k [Hr Hs] _ IH]; [constructor|].
    apply Forall_cons in Hin as [[Hin Hw] Hl].
    constructor; [|by apply IH]. by rewrite Hr.
Qed.






End SearchProofs.



(** The search, run: of the four records, v3 is below the threshold and v4
    has no embedding for the provider; the nearest comes first.  The
    comparison with the threshold is strict: v1, whose similarity is 3/4, is
    left out when the threshold is 3/4.  A query of the dimension of one
    column is refused at the other. *)
Example match_documents_runs :
  match VectorSearch.match_documents Samples.cosine_distance Samples.kb Samples.query
          (3 # 10) 10 None None "gemini" with
  | inr rows => map VectorSearch.m_id rows
  | inl _ => []
  end = ["v2"; "v1"]
  /\ match VectorSearch.match_documents Samples.cosine_distance Samples.kb Samples.query
             (3 # 4) 10 None None "gemini" with
     | inr rows => map VectorSearch.m_id rows
     | inl _ => []
     end = ["v2"]
  /\ VectorSearch.match_documents Samples.cosine_distance Samples.kb Samples.query (3 # 10) 10
       None None "cohere" = inr []
  /\ VectorSearch.match_documents Samples.cosine_distance Samples.kb Samples.query (3 # 10)
       (-1) None None "gemini" = inl "LIMIT must not be negative"
  /\ VectorSearch.match_documents Samples.cosine_distance Samples.kb Samples.query (3 # 10) 10
       None None "openai" = inl "different vector dimensions 1536 and 768"
  /\ forallb VectorSearch.dimensions_ok Samples.kb_with_zero = true.
Proof. vm_compute. repeat split. Qed.

(** ** C7: the profile of a new user *)

Section NewUserProofs.

Variable jsonb_text : json -> string.

(** The name the trigger stores. *)
Lemma coalesce_full_name (a b : option string) :
  NewUser.coalesce [a; b; Some ""]
  = Some (match a with
          | Some n => n
          | None => match b with Some n => n | None => "" end
          end).
Proof. by destruct a, b. Qed.

(** C7.  The trigger returns the new row, so the registration goes on,
    unless the server raises a cancelled query or a failed assertion while
    the profile is inserted: that error leaves the trigger and aborts the
    registration.  When a profile with the id exists the profiles are left as
    they are; otherwise, when the store accepts the row, one profile is added
    with role 'user', is_active true and the full name of the metadata
    (full_name, else name) or the empty string when the metadata has none;
    when the insertion fails the profiles are left as they are and one line
    is logged.  Running the trigger again changes nothing more. *)
Theorem handle_new_user_best_effort (backend : option NewUser.SqlError) (now : string)
    (NEW : NewUser.AuthUser) (st : NewUser.State) :
  (forall e, backend = Some e -> NewUser.others e = false ->
     NewUser.handle_new_user jsonb_text backend now NEW st = inl e)
  /\ ((forall e, backend = Some e -> NewUser.others e = true) ->
  exists st',
    NewUser.handle_new_user jsonb_text backend now NEW st = inr (NEW, st')
    /\ (existsb (fun p => String.eqb (p_id p) (NewUser.u_id NEW)) (NewUser.profiles st) = true ->
        NewUser.profiles st' = NewUser.profiles st)
    /\ (forall email,
          backend = None -> NewUser.u_email NEW = Some email ->
          existsb (fun p => String.eqb (p_id p) (NewUser.u_id NEW)) (NewUser.profiles st)
          = false ->
          let meta := NewUser.u_raw_user_meta_data NEW in
          let full_name :=
            match NewUser.get_text jsonb_text meta "full_name" with
            | Some n => n
            | None =>
              match NewUser.get_text jsonb_text meta "name" with
              | Some n => n
              | None => ""
              end
            end in
          NewUser.profiles st'
          = (NewUser.profiles st
             ++ [mkProfile (NewUser.u_id NEW) email (Some full_name) (Some "user") (Some true)
                           now now])%list
          /\ NewUser.log st' = NewUser.log st)
    /\ (backend <> None \/ NewUser.u_email NEW = None ->
        NewUser.profiles st' = NewUser.profiles st
        /\ exists sqlerrm,
             NewUser.log st'
             = (NewUser.log st
                ++ [("Error creating profile for user " ++ NewUser.u_id NEW ++ ": "
                     ++ sqlerrm)%string])%list)
    /\ exists st'',
         NewUser.handle_new_user jsonb_text backend now NEW st' = inr (NEW, st'')
         /\ NewUser.profiles st'' = NewUser.profiles st').
Proof.
  unfold NewUser.handle_new_user, NewUser.exception_when_others, NewUser.seq,
    NewUser.insert_profile, NewUser.raise_log, NewUser.ret.
  rewrite coalesce_full_name.
  split; [by intros e -> ->|]. intros Hothers.
  destruct backend as [e|]; simpl.
  { rewrite (Hothers e eq_refl).
    eexists. split; [reflexivity|]. simpl. split; [done|]. split; [done|].
    split; [eauto|]. eexists. split; reflexivity. }
  destruct (NewUser.u_email NEW) as [email|] eqn:Hemail; simpl.
  2:{ eexists. split; [reflexivity|]. simpl. split; [done|]. split; [done|].
      split; [eauto|]. eexists. split; reflexivity. }
  destruct (existsb _ (NewUser.profiles st)) eqn:Hex.
  - exists st. split; [reflexivity|]. split; [done|]. split; [done|].
    split; [by intros [|]|]. rewrite Hex. exists st. done.
  - eexists. split; [reflexivity|]. simpl. split; [done|].
    split; [by intros ? _ [= <-] _|].
    split; [by intros [|]|].
    rewrite existsb_app. simpl. rewrite String.eqb_refl, orb_true_r.
    eexists. split; reflexivity.
Qed.

End NewUserProofs.

(** The trigger, run: a signup with a name, the same signup again, and a
    signup without an e-mail address, which the NOT NULL column refuses. *)
Example handle_new_user_runs :
  let render (_ : json) := "" in
  let st0 := NewUser.mkState Samples.people [] in
  let frank := Samples.new_user (Some "frank@example.org") (Some {["name" := JStr "Frank"]}) in
  let row := mkProfile "frank" "frank@example.org" (Some "Frank") (Some "user") (Some true)
                       Samples.now Samples.now in
  NewUser.handle_new_user render None Samples.now frank st0
  = inr (frank, NewUser.mkState (Samples.people ++ [row]) [])
  /\ NewUser.handle_new_user render None Samples.now frank
       (NewUser.mkState (Samples.people ++ [row]) [])
     = inr (frank, NewUser.mkState (Samples.people ++ [row]) [])
  /\ NewUser.handle_new_user render None Samples.now (Samples.new_user None None) st0
     = inr (Samples.new_user None None,
            NewUser.mkState Samples.people
              [("Error creating profile for user frank: "
                ++ Pg.not_null_violation "email" "profiles")%string])
  /\ NewUser.handle_new_user render
       (Some (NewUser.mkSqlError "53100" "could not extend file: No space left on device"))
       Samples.now frank st0
     = inr (frank,
            NewUser.mkState Samples.people
              ["Error creating profile for user frank: could not extend file: No space left on device"]).
Proof. repeat split. Qed.

Lemma handle_new_user_best_effort_witness :
  let frank := Samples.new_user (Some "frank@example.org") (Some {["name" := JStr "Frank"]}) in
  let full := NewUser.mkSqlError "53100" "could not extend file: No space left on device" in
  (exists st',
     NewUser.handle_new_user (fun _ => "") None Samples.now frank
       (NewUser.mkState Samples.people [])
     = inr (frank, st')
     /\ NewUser.profiles st'
        = (Samples.people
           ++ [mkProfile "frank" "frank@example.org" (Some "Frank") (Some "user") (Some true)
                         Samples.now Samples.now])%list)
  /\ exists st',
       NewUser.handle_new_user (fun _ => "") (Some full) Samples.now frank
         (NewUser.mkState Samples.people [])
       = inr (frank, st')
       /\ NewUser.profiles st' = Samples.people
       /\ length (NewUser.log st') = 1%nat.
Proof.
  intros frank full. split.
  - destruct (proj2 (handle_new_user_best_effort (fun _ => "") None Samples.now frank
                       (NewUser.mkState Samples.people [])))
      as (st' & Hrun & _ & Hnew & _); [intros e H; discriminate H|].
    exists st'. split; [exact Hrun|].
    exact (proj1 (Hnew "frank@example.org" eq_refl eq_refl eq_refl)).
  - destruct (proj2 (handle_new_user_best_effort (fun _ => "") (Some full) Samples.now frank
                       (NewUser.mkState Samples.people [])))
      as (st' & Hrun & _ & _ & Hfail & _); [by intros e [= <-]|].
    exists st'. split; [exact Hrun|].
    destruct Hfail as (Hsame & line & Hlog); [left; discriminate|].
    split; [exact Hsame|]. by rewrite Hlog.
Defined.

(** The statement of the trigger is cancelled, by a timeout of the statement
    or by a request to cancel it: [OTHERS] does not match the error, nothing
    is logged, and the error aborts the registration that fired the
    trigger. *)
Lemma handle_new_user_cancelled :
  let timeout := NewUser.query_canceled "canceling statement due to statement timeout" in
  let frank := Samples.new_user (Some "frank@example.org") (Some {["name" := JStr "Frank"]}) in
  NewUser.handle_new_user (fun _ => "") (Some timeout) Samples.now frank
    (NewUser.mkState Samples.people [])
  = inl timeout
  /\ ~ exists st',
        NewUser.handle_new_user (fun _ => "") (Some timeout) Samples.now frank
          (NewUser.mkState Samples.people [])
        = inr (frank, st').
Proof. split; [reflexivity|]. intros [st' H]. discriminate H. Qed.

(** ** C9: editing the metadata of a chunk *)

Lemma updatedMetadata_lookup (current : option (gmap string json)) (metadata : option json)
    (now : string) (k : string) :
  Metadata.updatedMetadata current metadata now !! k
  = if String.eqb k "last_updated" then Some (JStr now)
    else Spec.shallow_merge (default ∅ current) (Metadata.spread metadata) !! k.
Proof.
  unfold Metadata.updatedMetadata, Spec.shallow_merge.
  destruct (String.eqb k "last_updated") eqn:Hk.
  - apply String.eqb_eq in Hk as ->. apply lookup_insert_eq.
  - apply String.eqb_neq in Hk. by rewrite lookup_insert_ne.
Qed.

Lemma shallow_merge_lookup (existing supplied : gmap string json) (k : string) :
  Spec.shallow_merge existing supplied !! k
  = match supplied !! k with
    | Some v => Some v
    | None => existing !! k
    end.
Proof.
  unfold Spec.shallow_merge. rewrite lookup_union.
  destruct (supplied !! k), (existing !! k); done.
Qed.




(** ** C6 and C10: uploading a document *)

(** The UPDATE the handler issues names columns the table does not have: the
    store refuses it whatever else it holds, and the table is as before. *)
Lemma metadata_update_refused (backend : option string) (title documentType : string)
    (description : option string) (id : uuid) (documents : list Document) :
  exists e,
    Upload.documents_update backend
      [("title", Some title); ("document_type", Some documentType);
       ("description", description); ("processing_status", Some "draft")]
      id documents
    = (Some e, documents).
Proof.
  unfold Upload.documents_update. destruct backend; [eauto|].
  cbn [List.find fst]. replace (mem "title" documents_columns) with false by reflexivity.
  simpl. eauto.
Qed.

(** Were the columns there, the status 'draft' would still break the CHECK
    of [processing_status]. *)
Lemma rewrite_row_draft (d : Document) :
  Upload.rewrite_row [("processing_status", Some "draft")] d = None.
Proof.
  unfold Upload.rewrite_row, document_check. simpl.
  replace (mem "draft" processing_status_values) with false by reflexivity.
  by rewrite andb_false_r.
Qed.

Lemma documents_insert_inr (backend : option string) (row : Document)
    (documents documents' : list Document) :
  Upload.documents_insert backend row documents = inr documents' ->
  documents' = (documents ++ [row])%list
  /\ document_check row = true
  /\ (forall d, In d documents -> d_id d <> d_id row).
Proof.
  unfold Upload.documents_insert. destruct backend; [done|].
  destruct (document_check row); simpl; [|done].
  destruct (existsb _ documents) eqn:Hex; [done|].
  intros [= <-]. repeat split.
  intros d Hd Heq.
  assert (existsb (fun d => String.eqb (d_id d) (d_id row)) documents = true); [|congruence].
  apply existsb_exists. exists d. split; [done|]. by apply String.eqb_eq.
Qed.

Lemma documents_update_valid (backend : option string)
    (payload : list (string * option string)) (id : uuid) (documents : list Document)
    (e : option string) (documents' : list Document) :
  Upload.documents_update backend payload id documents = (e, documents') ->
  valid documents -> valid documents'.
Proof.
  unfold Upload.documents_update. destruct backend; [by intros [= _ <-]|].
  destruct (List.find _ payload); [by intros [= _ <-]|].
  destruct (mapM _ documents) as [k|] eqn:Hk; [|by intros [= _ <-]].
  intros [= _ <-] Hv. apply mapM_Some in Hk. unfold valid in *.
  induction Hk as [|d d' l l' Hd Hl IH]; [constructor|].
  apply Forall_cons in Hv as [Hvd Hv]. constructor; [|by apply IH].
  destruct (String.eqb (d_id d) id); [|by injection Hd as <-].
  unfold Upload.rewrite_row in Hd.
  destruct (fold_left _ payload (Some d)) as [x|]; [|done].
  destruct (document_check x) eqn:Hx; [|done]. by injection Hd as <-.
Qed.

Lemma uploadDocument_inr (backend : option string) (new_id : uuid) (storage_path : string)
    (uploader : uuid) (file : Upload.File) (docType : string)
    (documents : list Document) (documentId : uuid) (documents' : list Document) :
  Upload.uploadDocument backend new_id storage_path uploader file docType documents
  = inr (documentId, documents') ->
  exists row,
    documents' = (documents ++ [row])%list
    /\ d_id row = documentId /\ d_processing_status row = "pending"
    /\ document_check row = true
    /\ (forall d, In d documents -> d_id d <> documentId).
Proof.
  unfold Upload.uploadDocument.
  destruct (Upload.documents_insert _ _ _) as [|k] eqn:Hins; [done|].
  intros [= <- <-]. apply documents_insert_inr in Hins as (-> & Hc & Hfresh).
  eexists. split; [reflexivity|]. simpl in *. auto.
Qed.

(** What the handler does once the caller is let in and the form is
    complete. *)
Lemma POST_upload_cases (request : Upload.Request) (profiles : list Profile)
    (documents : list Document) (upload_backend update_backend : option string)
    (new_id : uuid) (storage_path : string) :
  let result :=
    Upload.POST request profiles documents upload_backend update_backend new_id
      storage_path in
  (result.1.2 = documents /\ forall documentId, body result.1.1 <> BDocument documentId)
  \/ exists uid form f t dt documentId documents1 e,
       Upload.session request = Some uid
       /\ not_curator_or_admin (select_role profiles uid) = false
       /\ Upload.form_data request = Some form
       /\ Upload.file form = Some f
       /\ Upload.present (Upload.title form) = Some t
       /\ Upload.present (Upload.documentType form) = Some dt
       /\ Upload.uploadDocument upload_backend new_id storage_path uid f dt documents
          = inr (documentId, documents1)
       /\ result = (Json (BDocument documentId) 200, documents1,
                    [("Failed to update document metadata: " ++ e)%string]).
Proof.
  cbv zeta. unfold Upload.POST.
  destruct (Upload.session request) as [uid|] eqn:Hs; [|by left].
  destruct (not_curator_or_admin _) eqn:Hrole; [by left|].
  destruct (Upload.form_data request) as [form|] eqn:Hform; [|by left].
  destruct (Upload.file form) as [f|] eqn:Hf; [|by left].
  destruct (Upload.present (Upload.title form)) as [t|] eqn:Ht; [|by left].
  destruct (Upload.present (Upload.documentType form)) as [dt|] eqn:Hdt; [|by left].
  destruct (Upload.uploadDocument _ _ _ _ _ _ _) as [|[documentId documents1]] eqn:Hup;
    [by left|].
  destruct (metadata_update_refused update_backend t dt (Upload.description form)
              documentId documents1) as [e He].
  rewrite He. right. exists uid, form, f, t, dt, documentId, documents1, e.
  repeat split; done.
Qed.

Lemma POST_upload_valid (request : Upload.Request) (profiles : list Profile)
    (documents : list Document) (upload_backend update_backend : option string)
    (new_id : uuid) (storage_path : string) :
  valid documents ->
  valid (Upload.POST request profiles documents upload_backend update_backend new_id
           storage_path).1.2.
Proof.
  intros Hv.
  destruct (POST_upload_cases request profiles documents upload_backend update_backend
              new_id storage_path)
    as [[-> _]|(uid & form & f & t & dt & documentId & documents1 & e & _ & _ & _ & _ & _
                & _ & Hup & ->)]; [done|].
  simpl. apply uploadDocument_inr in Hup as (row & -> & _ & _ & Hc & _).
  apply Forall_app. split; [done|]. by constructor.
Qed.

Lemma check_document_completion_valid (NEW : Chunk) (db : Completion.DB) :
  valid (Completion.documents db) ->
  valid (Completion.documents (Completion.check_document_completion NEW db)).
Proof.
  intros Hv. unfold Completion.check_document_completion.
  destruct (Completion.select_total _ _); [|done].
  destruct (_ <=? _)%Z; [|done]. simpl.
  unfold valid in *. induction Hv as [|d l Hd Hl IH]; simpl; constructor; [|done].
  destruct (String.eqb _ _); [|done].
  unfold document_check in *. simpl.
  apply andb_true_iff in Hd as [Hd Hc]. apply andb_true_iff in Hd as [Hd _].
  rewrite Hd. replace (mem "completed" processing_status_values) with true by reflexivity.
  exact Hc.
Qed.

Lemma update_review_status_valid (backend : option string) (chunk_id : uuid) (s : string)
    (db : Completion.DB) (e : option string) (db' : Completion.DB) :
  Completion.update_review_status backend chunk_id s db = (e, db') ->
  valid (Completion.documents db) -> valid (Completion.documents db').
Proof.
  unfold Completion.update_review_status. destruct backend; [by intros [= _ <-]|].
  destruct (_ && _); [by intros [= _ <-]|].
  intros [= _ <-] Hv.
  set (fired := List.filter _ _).
  assert (Hgen : forall db0, valid (Completion.documents db0) ->
            valid (Completion.documents
                     (fold_left (fun db1 NEW => Completion.check_document_completion NEW db1)
                                fired db0))).
  { induction fired as [|c l IH]; simpl; [done|].
    intros db0 H0. apply IH. by apply check_document_completion_valid. }
  by apply Hgen.
Qed.

(** The rows of an UPDATE of [documents] that went through, and the row at
    which one that did not stopped. *)
Lemma update_documents_cases (doc_id : uuid) (set : Document -> string + Document)
    (l : list Document) :
  match Completion.update_documents doc_id set l with
  | inr l' =>
    Forall2 (fun d d' => if String.eqb (d_id d) doc_id then set d = inr d' else d' = d) l l'
  | inl e => exists d, In d l /\ d_id d = doc_id /\ set d = inl e
  end.
Proof.
  induction l as [|d l IH]; simpl; [constructor|].
  destruct (String.eqb (d_id d) doc_id) eqn:Hid.
  - destruct (set d) as [e|d'] eqn:Hd.
    + exists d. apply String.eqb_eq in Hid. auto.
    + destruct (Completion.update_documents doc_id set l) as [e|l'].
      * destruct IH as (x & Hx & Hxid & Hxe). exists x. auto.
      * constructor; [by rewrite Hid|done].
  - destruct (Completion.update_documents doc_id set l) as [e|l'].
    + destruct IH as (x & Hx & Hxid & Hxe). exists x. auto.
    + constructor; [by rewrite Hid|done].
Qed.


Lemma increment_approved_chunks_valid (doc_id : uuid) (db : Completion.DB)
    (e : option string) (db' : Completion.DB) :
  Completion.increment_approved_chunks doc_id db = (e, db') ->
  valid (Completion.documents db) -> valid (Completion.documents db').
Proof.
  unfold Completion.increment_approved_chunks.
  pose proof (update_documents_cases doc_id Completion.bump_approved
                (Completion.documents db)) as H.
  destruct (Completion.update_documents _ _ _) as [msg|l']; [by intros [= _ <-]|].
  intros [= _ <-] Hv. simpl. unfold valid in *.
  induction H as [|d d' l k Hd _ IH]; [constructor|].
  apply Forall_cons in Hv as [Hd0 Hv]. constructor; [|by apply IH].
  destruct (String.eqb (d_id d) doc_id); [|by subst].
  unfold Completion.bump_approved in Hd.
  destruct (Completion.coalesce_plus_one _) as [|n]; [done|].
  destruct (valid_chunks _) eqn:Hvc; [|done]. injection Hd as <-.
  unfold document_check in *. simpl.
  apply andb_true_iff in Hd0 as [Hd0 _]. by rewrite Hd0, Hvc.
Qed.

Lemma increment_rejected_chunks_valid (doc_id : uuid) (db : Completion.DB)
    (e : option string) (db' : Completion.DB) :
  Completion.increment_rejected_chunks doc_id db = (e, db') ->
  valid (Completion.documents db) -> valid (Completion.documents db').
Proof.
  unfold Completion.increment_rejected_chunks.
  pose proof (update_documents_cases doc_id Completion.bump_rejected
                (Completion.documents db)) as H.
  destruct (Completion.update_documents _ _ _) as [msg|l']; [by intros [= _ <-]|].
  intros [= _ <-] Hv. simpl. unfold valid in *.
  induction H as [|d d' l k Hd _ IH]; [constructor|].
  apply Forall_cons in Hv as [Hd0 Hv]. constructor; [|by apply IH].
  destruct (String.eqb (d_id d) doc_id); [|by subst].
  unfold Completion.bump_rejected in Hd.
  destruct (Completion.coalesce_plus_one _) as [|n]; [done|]. by injection Hd as <-.
Qed.

Lemma reachable_valid (db : Completion.DB) :
  Lifecycle.reachable db -> valid (Completion.documents db).
Proof.
  induction 1 as [chunks|db db' Hr IH Hstep]; [constructor|].
  destruct Hstep as [request profiles ub1 ub2 new_id path db r documents' l Hpost
                    |backend row db documents' Hins
                    |backend payload id db e documents' Hupd
                    |backend chunk_id s db e db' Hrev
                    |doc_id db e db' Hinc
                    |doc_id db e db' Hinc
                    |db chunks']; simpl.
  - pose proof (POST_upload_valid request profiles (Completion.documents db) ub1 ub2 new_id
                  path IH) as Hv.
    by rewrite Hpost in Hv.
  - apply documents_insert_inr in Hins as (-> & Hc & _).
    apply Forall_app. split; [done|]. by constructor.
  - by eapply documents_update_valid.
  - by eapply update_review_status_valid.
  - by eapply increment_approved_chunks_valid.
  - by eapply increment_rejected_chunks_valid.
  - done.
Qed.

(** C6.  When the upload endpoint answers {documentId} it has added one row
    to documents; that row has the id of the answer, no other row has it, and
    its processing_status is 'pending'.  Through the statements that reach
    the table (uploads, inserts, updates, the review trigger, the two
    counters) the processing_status of every document is one of pending,
    processing, review, completed and failed. *)
Theorem upload_POST_pending :
  (forall request profiles documents upload_backend update_backend new_id storage_path
          documentId documents' l,
     Upload.POST request profiles documents upload_backend update_backend new_id
       storage_path = (Json (BDocument documentId) 200, documents', l) ->
     exists row,
       documents' = (documents ++ [row])%list
       /\ d_id row = documentId
       /\ d_processing_status row = "pending"
       /\ (forall d, In d documents' -> d_id d = documentId -> d = row))
  /\ (forall db, Lifecycle.reachable db -> Forall Spec.status_in_set (Completion.documents db)).
Proof.
  split.
  - intros request profiles documents ub1 ub2 new_id path documentId documents' l Hpost.
    destruct (POST_upload_cases request profiles documents ub1 ub2 new_id path)
      as [[_ Hno]|(uid & form & f & t & dt & documentId1 & documents1 & e & _ & _ & _ & _
                   & _ & _ & Hup & Hres)].
    + rewrite Hpost in Hno. by destruct (Hno documentId).
    + rewrite Hpost in Hres. injection Hres as <- <- _.
      apply uploadDocument_inr in Hup as (row & -> & Hid & Hst & _ & Hfresh).
      exists row. repeat split; try done.
      intros d Hd Heq. apply in_app_or in Hd as [Hd|[<-|[]]]; [|done].
      by destruct (Hfresh d Hd).
  - intros db Hr. apply reachable_valid in Hr.
    eapply Forall_impl; [exact Hr|]. intros d Hd.
    unfold document_check in Hd.
    apply andb_true_iff in Hd as [Hd _]. apply andb_true_iff in Hd as [_ Hd].
    by apply mem_In in Hd.
Qed.

Lemma upload_POST_pending_witness :
  exists row,
    [mkDocument "d9" "guide.pdf" "guide.pdf" "fhir" "documents/d9" (Some 1024%Z)
                (Some "application/pdf") (Some "bob") "pending" None (Some 0%Z) (Some 0%Z)
                None]
    = ([] ++ [row])%list
    /\ d_id row = "d9"
    /\ d_processing_status row = "pending"
    /\ (forall d,
          In d [mkDocument "d9" "guide.pdf" "guide.pdf" "fhir" "documents/d9" (Some 1024%Z)
                           (Some "application/pdf") (Some "bob") "pending" None (Some 0%Z)
                           (Some 0%Z) None] ->
          d_id d = "d9" -> d = row).
Proof.
  apply (proj1 upload_POST_pending (Samples.upload_by "bob") Samples.people [] None None
           "d9" "documents/d9" "d9" _
           ["Failed to update document metadata: Could not find the 'title' column of 'documents' in the schema cache"]).
  reflexivity.
Defined.

(** A table two statements away from the empty one: an upload, then the
    hand-over to processing. *)
Example reachable_processing :
  Lifecycle.reachable
    (Completion.mkDB
       [mkDocument "d9" "guide.pdf" "guide.pdf" "fhir" "documents/d9" (Some 1024%Z)
                   (Some "application/pdf") (Some "bob") "processing" None (Some 0%Z)
                   (Some 0%Z) None]
       []).
Proof.
  eapply Lifecycle.reachable_step.
  - eapply Lifecycle.reachable_step; [apply (Lifecycle.reachable_empty [])|].
    eapply (Lifecycle.step_upload (Samples.upload_by "bob") Samples.people None None "d9"
              "documents/d9" (Completion.mkDB [] [])).
    reflexivity.
  - eapply (Lifecycle.step_update None [("processing_status", Some "processing")] "d9"
              (Completion.mkDB _ [])).
    reflexivity.
Qed.

Lemma documents_update_error (backend : option string)
    (payload : list (string * option string)) (id : uuid) (documents : list Document)
    (e : string) (documents' : list Document) :
  Upload.documents_update backend payload id documents = (Some e, documents') ->
  documents' = documents.
Proof.
  unfold Upload.documents_update. destruct backend; [by intros [= _ <-]|].
  destruct (List.find _ payload); [by intros [= _ <-]|].
  destruct (mapM _ documents); [done | by intros [= _ <-]].
Qed.

(** C10.  For every upload that passes the role check, has its fields and
    whose file upload succeeds with documentId, the endpoint answers 200 with
    {documentId} whatever the store answers to the update of title,
    document_type, description and processing_status; when that update fails
    with an error e, the error is logged, the table is as the upload left it
    (nothing of the update is stored) and the answer is still 200.  On the
    tables of the repository that update does fail. *)
Theorem upload_POST_swallows_update_failure (request : Upload.Request)
    (profiles : list Profile) (documents : list Document)
    (upload_backend update_backend : option string) (new_id : uuid) (storage_path : string)
    (uid : uuid) (form : Upload.Form) (f : Upload.File) (t dt : string)
    (documentId : uuid) (documents1 : list Document) :
  Upload.session request = Some uid ->
  not_curator_or_admin (select_role profiles uid) = false ->
  Upload.form_data request = Some form ->
  Upload.file form = Some f ->
  Upload.present (Upload.title form) = Some t ->
  Upload.present (Upload.documentType form) = Some dt ->
  Upload.uploadDocument upload_backend new_id storage_path uid f dt documents
  = inr (documentId, documents1) ->
  let result :=
    Upload.POST request profiles documents upload_backend update_backend new_id
      storage_path in
  let update :=
    Upload.documents_update update_backend
      [("title", Some t); ("document_type", Some dt);
       ("description", Upload.description form); ("processing_status", Some "draft")]
      documentId documents1 in
  result.1.1 = Json (BDocument documentId) 200
  /\ (forall e, update.1 = Some e ->
        result = (Json (BDocument documentId) 200, documents1,
                  [("Failed to update document metadata: " ++ e)%string]))
  /\ exists e, update.1 = Some e.
Proof.
  intros Hs Hrole Hform Hf Ht Hdt Hup. cbv zeta.
  unfold Upload.POST. rewrite Hs, Hrole, Hform, Hf, Ht, Hdt, Hup.
  destruct (Upload.documents_update _ _ _ _) as [[e|] documents2] eqn:Hupd; simpl.
  - split; [done|]. split; [|eauto].
    intros e' [= <-]. by rewrite (documents_update_error _ _ _ _ _ _ Hupd).
  - split; [done|]. split; [done|].
    destruct (metadata_update_refused update_backend t dt (Upload.description form)
                documentId documents1) as [e He].
    rewrite He in Hupd. done.
Qed.

Lemma upload_POST_swallows_update_failure_witness :
  Upload.POST (Samples.upload_by "bob") Samples.people [] None
    (Some "connection reset") "d9" "documents/d9"
  = (Json (BDocument "d9") 200,
     [mkDocument "d9" "guide.pdf" "guide.pdf" "fhir" "documents/d9" (Some 1024%Z)
                 (Some "application/pdf") (Some "bob") "pending" None (Some 0%Z) (Some 0%Z)
                 None],
     ["Failed to update document metadata: connection reset"]).
Proof.
  apply (proj1 (proj2 (upload_POST_swallows_update_failure (Samples.upload_by "bob")
                         Samples.people [] None (Some "connection reset") "d9"
                         "documents/d9" "bob" _ _ "Guide" "fhir" "d9" _
                         eq_refl eq_refl eq_refl eq_refl eq_refl eq_refl eq_refl))
           "connection reset" eq_refl).
Defined.

(** ** C8: the settings endpoints *)

Lemma not_admin_false (profile : option (option string)) :
  Settings.not_admin profile = false <-> profile = Some (Some "admin").
Proof.
  unfold Settings.not_admin. split.
  - destruct profile as [[r|]|]; try done.
    intros H. apply negb_false_iff, String.eqb_eq in H. by subst.
  - by intros ->.
Qed.

Lemma select_all_authenticated (uid : uuid) (rows : list Setting) :
  Settings.select_all (Some uid) rows = rows.
Proof.
  unfold Settings.select_all. induction rows as [|r l IH]; [done|].
  change (r :: List.filter (fun _ => Policies.settings_select_using (Some uid)) l = r :: l).
  by rewrite IH.
Qed.

Lemma select_all_anonymous (rows : list Setting) : Settings.select_all None rows = [].
Proof. unfold Settings.select_all. induction rows as [|r l IH]; simpl; done. Qed.

(** The store refuses every upsert: [settings] has no policy for INSERT. *)
Lemma upsert_refused (caller : option uuid) (profiles : list Profile)
    (backend : option string) (row : Setting) (settings : list Setting) :
  exists message,
    Settings.upsert caller profiles backend row settings = (Some message, settings)
    /\ (backend = None ->
        message = Pg.policy_violation "settings").
Proof.
  unfold Settings.upsert. destruct backend as [e|]; eexists; split; try reflexivity; done.
Qed.

Lemma handle_setting_cases (value : option json) (allowed : list string)
    (invalid key : string) (wrap : json -> json) (profiles : list Profile)
    (backend : option string) (now : string) (user_id : uuid) (settings : list Setting) :
  match value with
  | None =>
    Settings.handle_setting value allowed invalid key wrap profiles backend now user_id
      settings = inr settings
  | Some _ =>
    if Js.includes allowed value
    then exists message,
           Settings.handle_setting value allowed invalid key wrap profiles backend now
             user_id settings = inl (Json (BError message) 500, settings)
           /\ (backend = None ->
               message = Pg.policy_violation "settings")
    else Settings.handle_setting value allowed invalid key wrap profiles backend now
           user_id settings = inl (Json (BError invalid) 400, settings)
  end.
Proof.
  unfold Settings.handle_setting. destruct value as [v|]; [|done].
  destruct (Js.includes allowed (Some v)); simpl; [|done].
  destruct (upsert_refused (Some user_id) profiles backend
              (mkSetting key (wrap v) (Some now) (Some user_id)) settings)
    as (message & -> & Hm).
  by exists message.
Qed.

(** C8, on the code.  GET shows the settings to a caller with a session
    only: without one the policies of the store yield no row and the answer
    is the empty object; an error of the store is answered 500.  POST answers
    401 without a session and 403 unless the caller's profile has role admin.
    For an admin: a supplied provider outside {gemini, openai} yields 400; so
    does a supplied documentProcessor outside {flowise, direct_gemini} when
    no provider is supplied; a supplied provider that is valid is sent to the
    store, which refuses it, and the answer is 500 with the message of the
    store, whatever documentProcessor is; so is a valid documentProcessor
    when no provider is supplied; a body that supplies neither is answered
    200.  No request changes the settings. *)
Theorem settings_endpoints (request : Settings.Request) (profiles : list Profile)
    (settings : list Setting) (backend_provider backend_processor : option string)
    (now_provider now_processor : string) :
  let result :=
    Settings.POST request profiles settings backend_provider backend_processor
      now_provider now_processor in
  let refused := Pg.policy_violation "settings" in
  (forall caller e rows, Settings.GET caller (Some e) rows = Json (BError e) 500)
  /\ (forall rows, Settings.GET None None rows = Json (BSettings ∅) 200)
  /\ (forall uid rows, exists m, Settings.GET (Some uid) None rows = Json (BSettings m) 200)
  /\ result.2 = settings
  /\ (Settings.session request = None -> result.1 = Json (BError "Unauthorized") 401)
  /\ (forall uid, Settings.session request = Some uid ->
        select_role profiles uid <> Some (Some "admin") ->
        result.1 = Json (BError "Forbidden") 403)
  /\ (forall uid body,
        Settings.session request = Some uid ->
        select_role profiles uid = Some (Some "admin") ->
        Settings.json_body request = inr body -> body <> JNull ->
        let provider := Js.member body "provider" in
        let documentProcessor := Js.member body "documentProcessor" in
        (provider <> None -> Js.includes ["gemini"; "openai"] provider = false ->
           result.1 = Json (BError "Invalid AI provider") 400)
        /\ (provider = None -> documentProcessor <> None ->
            Js.includes ["flowise"; "direct_gemini"] documentProcessor = false ->
            result.1 = Json (BError "Invalid document processor") 400)
        /\ (provider <> None -> Js.includes ["gemini"; "openai"] provider = true ->
            backend_provider = None ->
            result.1 = Json (BError refused) 500)
        /\ (provider = None -> documentProcessor <> None ->
            Js.includes ["flowise"; "direct_gemini"] documentProcessor = true ->
            backend_processor = None ->
            result.1 = Json (BError refused) 500)
        /\ (provider = None -> documentProcessor = None ->
            result.1 = Json (BSaved None None) 200)).
Proof.
  cbv zeta.
  split; [done|].
  split; [intros rows; unfold Settings.GET; by rewrite select_all_anonymous|].
  split; [intros uid rows; by eexists|].
  unfold Settings.POST.
  destruct (Settings.session request) as [uid|]; [|repeat split; done].
  destruct (Settings.not_admin (select_role profiles uid)) eqn:Hadm.
  { split; [done|]. split; [done|]. split; [by intros ? [= <-]|].
    intros uid' body [= <-] Hr. apply not_admin_false in Hr. congruence. }
  destruct (Settings.json_body request) as [e|body] eqn:Hbody.
  { split; [done|]. split; [done|]. split; [|done].
    intros uid' [= <-] Hr. apply not_admin_false in Hadm. congruence. }
  pose proof (handle_setting_cases (Js.member body "provider") ["gemini"; "openai"]
                "Invalid AI provider" "ai_provider" (fun v => JObj [("provider", v)])
                profiles backend_provider now_provider uid settings) as H1.
  pose proof (handle_setting_cases (Js.member body "documentProcessor")
                ["flowise"; "direct_gemini"] "Invalid document processor"
                "document_processor" (fun v => JObj [("processor", v)])
                profiles backend_processor now_processor uid settings) as H2.
  set (step1 := Settings.handle_setting (Js.member body "provider") _ _ _ _ _ _ _ _ _) in *.
  set (step2 := Settings.handle_setting (Js.member body "documentProcessor") _ _ _ _ _ _ _ _ _)
    in *.
  assert (Hrun : body <> JNull ->
            match body with
            | JNull =>
              (Json (BError "Cannot destructure property 'provider' of 'body' as it is null.")
                    500, settings)
            | _ =>
              match step1 with
              | inl r => r
              | inr settings1 =>
                match Settings.handle_setting (Js.member body "documentProcessor")
                        ["flowise"; "direct_gemini"] "Invalid document processor"
                        "document_processor" (fun v => JObj [("processor", v)])
                        profiles backend_processor now_processor uid settings1 with
                | inl r => r
                | inr settings2 =>
                  (Json (BSaved (Js.member body "provider")
                           (Js.member body "documentProcessor")) 200, settings2)
                end
              end
            end
            = match step1 with
              | inl r => r
              | inr settings1 =>
                match Settings.handle_setting (Js.member body "documentProcessor")
                        ["flowise"; "direct_gemini"] "Invalid document processor"
                        "document_processor" (fun v => JObj [("processor", v)])
                        profiles backend_processor now_processor uid settings1 with
                | inl r => r
                | inr settings2 =>
                  (Json (BSaved (Js.member body "provider")
                           (Js.member body "documentProcessor")) 200, settings2)
                end
              end) by (by destruct body).
  split.
  { assert (Hnull : body = JNull \/ body <> JNull)
      by (destruct body; auto; right; discriminate).
    destruct Hnull as [->|Hnn]; [done|]. rewrite (Hrun Hnn).
    destruct (Js.member body "provider") as [v|].
    - destruct (Js.includes _ (Some v)); [destruct H1 as (m & -> & _)|rewrite H1]; done.
    - rewrite H1. fold step2.
      destruct (Js.member body "documentProcessor") as [w|].
      + destruct (Js.includes _ (Some w)); [destruct H2 as (m & -> & _)|rewrite H2]; done.
      + by rewrite H2. }
  split; [done|].
  split; [intros uid' [= <-] Hr; apply not_admin_false in Hadm; congruence|].
  intros uid' body' [= <-] _ [= <-] Hnn. rewrite (Hrun Hnn).
  split; [|split; [|split; [|split]]].
  - intros Hp Hinc. destruct (Js.member body "provider"); [|done].
    rewrite Hinc in H1. by rewrite H1.
  - intros Hp Hd Hinc. rewrite Hp in H1. rewrite H1. fold step2.
    destruct (Js.member body "documentProcessor"); [|done].
    rewrite Hinc in H2. by rewrite H2.
  - intros Hp Hinc ->. destruct (Js.member body "provider"); [|done].
    rewrite Hinc in H1. destruct H1 as (m & -> & Hm). by rewrite Hm.
  - intros Hp Hd Hinc ->. rewrite Hp in H1. rewrite H1. fold step2.
    destruct (Js.member body "documentProcessor"); [|done].
    rewrite Hinc in H2. destruct H2 as (m & -> & Hm). by rewrite Hm.
  - intros Hp Hd. rewrite Hp in H1. rewrite H1. fold step2.
    rewrite Hd in H2. rewrite H2. by rewrite Hp, Hd.
Qed.

Lemma settings_endpoints_witness :
  Settings.POST (Samples.save_provider_by "alice" "openai") Samples.people Samples.seeded
    None None Samples.now Samples.now
  = (Json (BError (Pg.policy_violation "settings")) 500, Samples.seeded)
  /\ (Settings.POST (Samples.save_by "alice" "bogus" "flowise") Samples.people Samples.seeded
        None None Samples.now Samples.now).1
     = Json (BError "Invalid AI provider") 400
  /\ (Settings.POST (Samples.save_by "bob" "openai" "flowise") Samples.people Samples.seeded
        None None Samples.now Samples.now).1
     = Json (BError "Forbidden") 403.
Proof.
  pose proof (settings_endpoints (Samples.save_provider_by "alice" "openai") Samples.people
                Samples.seeded None None Samples.now Samples.now) as Ha.
  pose proof (settings_endpoints (Samples.save_by "alice" "bogus" "flowise") Samples.people
                Samples.seeded None None Samples.now Samples.now) as Hi.
  pose proof (settings_endpoints (Samples.save_by "bob" "openai" "flowise") Samples.people
                Samples.seeded None None Samples.now Samples.now) as Hb.
  cbv zeta in Ha, Hi, Hb.
  destruct Ha as (_ & _ & _ & Hsame & _ & _ & Ha).
  destruct Hi as (_ & _ & _ & _ & _ & _ & Hi).
  destruct Hb as (_ & _ & _ & _ & _ & Hb & _).
  specialize (Ha "alice" (JObj [("provider", JStr "openai")]) eq_refl eq_refl eq_refl).
  destruct Ha as (_ & _ & Ha & _); [discriminate|].
  specialize (Hi "alice"
                (JObj [("provider", JStr "bogus"); ("documentProcessor", JStr "flowise")])
                eq_refl eq_refl eq_refl).
  destruct Hi as (Hi & _); [discriminate|].
  split; [|split].
  - rewrite (surjective_pairing (Settings.POST _ _ _ _ _ _ _)), Hsame.
    rewrite Ha; [reflexivity|discriminate|reflexivity|reflexivity].
  - apply Hi; [discriminate|reflexivity].
  - apply (Hb "bob" eq_refl). discriminate.
Defined.

(** The requests of an admin, run.  A valid provider is answered 500 and the
    seeded provider stays; so is a valid provider sent with an invalid
    documentProcessor, which is not looked at by then; erin, an admin whose
    account is not active, passes the check of the handler and is refused by
    the store like everyone. *)
Example settings_POST_runs :
  let refused :=
    Json (BError (Pg.policy_violation "settings")) 500 in
  Settings.POST (Samples.save_by "alice" "openai" "flowise") Samples.people Samples.seeded
    None None Samples.now Samples.now = (refused, Samples.seeded)
  /\ Settings.POST (Samples.save_by "alice" "openai" "bogus") Samples.people Samples.seeded
       None None Samples.now Samples.now = (refused, Samples.seeded)
  /\ Settings.POST (Samples.save_by "erin" "openai" "flowise") Samples.people Samples.seeded
       None None Samples.now Samples.now = (refused, Samples.seeded)
  /\ Settings.stored "ai_provider" Samples.seeded = Some (JObj [("provider", JStr "gemini")]).
Proof. cbv zeta. repeat split. Qed.

(** * Further properties of the code *)

(** ** The copies of the role check *)

Lemma existsb_filter {A : Type} (f g : A -> bool) (l : list A) :
  existsb (fun x => f x && g x) l = existsb g (List.filter f l).
Proof.
  induction l as [|x l IH]; simpl; [done|].
  destruct (f x); simpl; by rewrite IH.
Qed.

Lemma existsb_pointwise {A : Type} (f g : A -> bool) (l : list A) :
  (forall x, f x = g x) -> existsb f l = existsb g l.
Proof. intros H. induction l as [|x l IH]; simpl; [done|]. by rewrite H, IH. Qed.

Lemma holds_and3_and3 (b : bool) (x y : option bool) :
  Sql.holds (Sql.and3 (Sql.and3 (Some b) x) y) = b && (Sql.holds x && Sql.holds y).
Proof. destruct b, x as [[]|], y as [[]|]; done. Qed.

Lemma is_admin_row (ctx : Auth.Ctx) (u : Profile) :
  Auth.getCurrentUser ctx = Some u ->
  Policies.is_admin (Auth.profiles ctx) (p_id u)
  = Auth.role_is u "admin" && bool_decide (p_is_active u = Some true).
Proof.
  intros H. apply getCurrentUser_Some in H as [_ H].
  unfold Policies.is_admin.
  rewrite (existsb_pointwise _
             (fun p => String.eqb (p_id p) (p_id u)
                       && (Sql.holds (Sql.eq_text (p_role p) (Some "admin"))
                           && Sql.holds (option_map (fun b => Bool.eqb b true)
                                                    (p_is_active p))))
             (Auth.profiles ctx))
    by (intros p; apply holds_and3_and3).
  rewrite existsb_filter, H. simpl. unfold Auth.role_is.
  destruct (p_role u) as [r|]; simpl; [|done].
  destruct (String.eqb r "admin"); simpl; [|done].
  by destruct (p_is_active u) as [[]|].
Qed.

(** The role check is written three times, in [helpers.ts], in the schema
    and in the client's provider, and the admin check three times as well.
    For the profile of the session the copies answer the same, for every
    required role, recognized or not, and every role and is_active the
    profile may hold. *)
Theorem role_checks_agree (ctx : Auth.Ctx) (u : Profile) (q : string) :
  Auth.getCurrentUser ctx = Some u ->
  Auth.hasRole ctx q = Auth.has_role (Auth.profiles ctx) (p_id u) (Some q)
  /\ Client.isRole (Some u) q = Auth.hasRole ctx q
  /\ Auth.isCuratorOrAdmin ctx = Policies.is_curator_or_admin (Auth.profiles ctx) (p_id u)
  /\ Auth.isAdmin ctx = Policies.is_admin (Auth.profiles ctx) (p_id u)
  /\ Client.isAdmin (Some u) = Auth.isAdmin ctx
  /\ Auth.isAdmin ctx = Auth.hasRole ctx "admin".
Proof.
  intros Hu.
  assert (Hagree : forall q', Auth.hasRole ctx q'
                              = Auth.has_role (Auth.profiles ctx) (p_id u) (Some q')).
  { intros q'. rewrite (has_role_row ctx u (Some q') Hu).
    unfold Auth.hasRole, Auth.has_role, Auth.active, Auth.role_is. rewrite Hu. simpl.
    rewrite String.eqb_refl. simpl.
    destruct (p_is_active u) as [[]|]; simpl; try done.
    destruct (p_role u) as [r|]; simpl; [|done].
    destruct (String.eqb r "admin"), (String.eqb r "curator"), (String.eqb r "user"),
      (String.eqb q' "curator"), (String.eqb q' "user"); done. }
  split; [apply Hagree|].
  split; [unfold Client.isRole, Auth.hasRole; by rewrite Hu|].
  split; [apply Hagree|].
  rewrite (is_admin_row ctx u Hu).
  unfold Auth.isAdmin, Client.isAdmin, Auth.hasRole. rewrite Hu.
  split; [done|]. split; [done|].
  unfold Auth.active, Auth.role_is.
  destruct (p_is_active u) as [[]|], (p_role u) as [r|]; simpl; try done;
    destruct (String.eqb r "admin"), (String.eqb r "curator"), (String.eqb r "user");
    done.
Qed.

Lemma role_checks_agree_witness :
  Auth.hasRole (Samples.as_user "bob") "curator"
  = Auth.has_role Samples.people "bob" (Some "curator")
  /\ Auth.isAdmin (Samples.as_user "bob") = Policies.is_admin Samples.people "bob".
Proof.
  pose proof (role_checks_agree (Samples.as_user "bob") Samples.bob "curator" eq_refl)
    as (H1 & _ & _ & H2 & _).
  split; [exact H1 | exact H2].
Defined.

(** The hierarchy is monotone: whoever passes the check for some role passes
    it for 'user', and whoever passes it for 'admin' passes it for every role. *)
Theorem hasRole_monotone (ctx : Auth.Ctx) (q : string) :
  (Auth.hasRole ctx q = true -> Auth.hasRole ctx "user" = true)
  /\ (Auth.hasRole ctx "admin" = true -> Auth.hasRole ctx q = true)
  /\ (Auth.hasRole ctx "admin" = true -> Auth.hasRole ctx "curator" = true)
  /\ (Auth.hasRole ctx "curator" = true -> Auth.hasRole ctx "user" = true).
Proof.
  unfold Auth.hasRole. destruct (Auth.getCurrentUser ctx) as [u|]; [|done].
  destruct (negb (Auth.active u)); [done|].
  destruct (Auth.role_is u "admin"); [done|].
  destruct (Auth.role_is u "curator"), (Auth.role_is u "user"),
    (String.eqb q "curator"), (String.eqb q "user"); simpl; done.
Qed.

Lemma hasRole_monotone_witness :
  Auth.hasRole (Samples.as_user "bob") "user" = true
  /\ Auth.hasRole (Samples.as_user "alice") "anything" = true.
Proof.
  split.
  - apply (proj1 (hasRole_monotone (Samples.as_user "bob") "curator")). reflexivity.
  - apply (proj1 (proj2 (hasRole_monotone (Samples.as_user "alice") "anything"))).
    reflexivity.
Defined.

(** ** The page guards *)

(** [requireCurator] hands the profile on exactly when [hasRole('curator')]
    holds, [requireAdmin] exactly when [isAdmin] holds, and [requireAuth]
    exactly when the profile is active, whatever its role; a guard never hands
    on a profile that is not active; the layout of the protected pages lets
    through whom [requireAuth] lets through.  The place a refused caller is
    sent to is /login without a profile, /login?error=inactive with an
    inactive one, /unauthorized with too low a role. *)
Theorem guards_agree_with_checks (ctx : Auth.Ctx) :
  (forall u, Guards.requireAuth ctx = Guards.Returned u
             <-> Auth.getCurrentUser ctx = Some u /\ Auth.active u = true)
  /\ (forall u, Guards.requireCurator ctx = Guards.Returned u
                <-> Auth.getCurrentUser ctx = Some u /\ Auth.hasRole ctx "curator" = true)
  /\ (forall u, Guards.requireAdmin ctx = Guards.Returned u
                <-> Auth.getCurrentUser ctx = Some u /\ Auth.isAdmin ctx = true)
  /\ Guards.ProtectedLayout ctx = Guards.requireAuth ctx
  /\ (Auth.getCurrentUser ctx = None ->
      Guards.requireAuth ctx = Guards.Redirected "/login"
      /\ Guards.requireCurator ctx = Guards.Redirected "/login"
      /\ Guards.requireAdmin ctx = Guards.Redirected "/login")
  /\ (forall u, Auth.getCurrentUser ctx = Some u -> Auth.active u = false ->
        Guards.requireAuth ctx = Guards.Redirected "/login?error=inactive"
        /\ Guards.requireCurator ctx = Guards.Redirected "/login?error=inactive"
        /\ Guards.requireAdmin ctx = Guards.Redirected "/login?error=inactive")
  /\ (forall u, Auth.getCurrentUser ctx = Some u -> Auth.active u = true ->
        (Auth.hasRole ctx "curator" = false ->
         Guards.requireCurator ctx = Guards.Redirected "/unauthorized")
        /\ (Auth.isAdmin ctx = false ->
            Guards.requireAdmin ctx = Guards.Redirected "/unauthorized")).
Proof.
  unfold Guards.requireCurator, Guards.requireAdmin, Guards.ProtectedLayout, Guards.getUser,
    Guards.requireAuth, Auth.hasRole, Auth.isAdmin.
  change (match Auth.session ctx with
          | Some uid =>
            single (List.filter (fun p => String.eqb (p_id p) uid) (Auth.profiles ctx))
          | None => None
          end) with (Auth.getCurrentUser ctx).
  destruct (Auth.getCurrentUser ctx) as [a|];
    [|repeat (split || intro); simplify_eq; try done; destruct_and?; simplify_eq].
  assert (Hact : bool_decide (p_is_active a = Some true) = Auth.active a)
    by (unfold Auth.active; by destruct (p_is_active a) as [[]|]).
  cbn beta iota. rewrite Hact.
  destruct (Auth.active a) eqn:Ha; simpl.
  2:{ repeat (split || intro); destruct_and?; simplify_eq;
        rewrite ?andb_false_r in *; try done; congruence. }
  destruct (Auth.role_is a "admin") eqn:Hadm, (Auth.role_is a "curator") eqn:Hcur,
    (Auth.role_is a "user") eqn:Husr; simpl.
  all: repeat (split || intro); destruct_and?; simplify_eq; try done; congruence.
Qed.

Lemma guards_agree_with_checks_witness :
  Guards.requireCurator (Samples.as_user "bob") = Guards.Returned Samples.bob
  /\ Guards.requireAdmin (Samples.as_user "bob") = Guards.Redirected "/unauthorized"
  /\ Guards.requireAuth (Samples.as_user "dave") = Guards.Redirected "/login?error=inactive".
Proof.
  split; [|split].
  - apply (proj1 (proj2 (guards_agree_with_checks (Samples.as_user "bob")))). by split.
  - apply (proj2 (proj2 (proj2 (proj2 (proj2 (proj2
             (guards_agree_with_checks (Samples.as_user "bob")))))))
             Samples.bob eq_refl eq_refl).
    reflexivity.
  - apply (proj1 (proj2 (proj2 (proj2 (proj2 (proj2
             (guards_agree_with_checks (Samples.as_user "dave"))))))) Samples.dave eq_refl
             eq_refl).
Defined.

(** ** Role and status changes, continued *)

Lemma filter_update {A : Type} (id : A -> uuid) (set : A -> A) (x t : uuid) (l : list A) :
  (forall p, id (set p) = id p) ->
  List.filter (fun p => String.eqb (id p) x)
              (map (fun p => if String.eqb (id p) t then set p else p) l)
  = map (fun p => if String.eqb (id p) t then set p else p)
        (List.filter (fun p => String.eqb (id p) x) l).
Proof.
  intros Hid. induction l as [|p l IH]; simpl; [done|].
  assert (Hp : id (if String.eqb (id p) t then set p else p) = id p)
    by (destruct (String.eqb (id p) t); [apply Hid | done]).
  rewrite Hp. destruct (String.eqb (id p) x); simpl; by rewrite IH.
Qed.

Lemma filter_rewrite {A : Type} (id : A -> uuid) (c : A -> bool) (set : A -> A) (x : uuid)
    (l : list A) :
  (forall p, id (set p) = id p) ->
  List.filter (fun p => String.eqb (id p) x) (map (fun p => if c p then set p else p) l)
  = map (fun p => if c p then set p else p) (List.filter (fun p => String.eqb (id p) x) l).
Proof.
  intros Hid. induction l as [|p l IH]; simpl; [done|].
  assert (Hp : id (if c p then set p else p) = id p)
    by (destruct (c p); [apply Hid | done]).
  rewrite Hp. destruct (String.eqb (id p) x); simpl; by rewrite IH.
Qed.

Lemma forallb_pointwise {A : Type} (f g : A -> bool) (l : list A) :
  (forall x, f x = g x) -> forallb f l = forallb g l.
Proof. intros H. induction l as [|x l IH]; simpl; [done|]. by rewrite H, IH. Qed.

Lemma map_id_rewrite (c : Profile -> bool) (set : Profile -> Profile) (l : list Profile) :
  (forall p, p_id (set p) = p_id p) ->
  map p_id (map (fun p => if c p then set p else p) l) = map p_id l.
Proof.
  intros Hid. rewrite map_map. apply map_ext. intros p. by destruct (c p).
Qed.

(** What the store leaves of the table after an UPDATE of one id. *)
Lemma profiles_update_table (caller : option uuid) (backend : option string)
    (set : Profile -> Profile) (userId : string) (table : list Profile) :
  (Auth.profiles_update caller backend set userId table).2 = table
  \/ exists id,
       uuid_of userId (map p_id table) = Some id
       /\ Auth.profiles_update caller backend set userId table
          = (None, map (fun p => if Auth.reached caller table id p then set p else p) table).
Proof.
  destruct (profiles_update_cases caller backend set userId table)
    as [[e ->]|(id & Hid & ->)]; [by left|right; by exists id].
Qed.

Lemma finish_snd (r : option string * list Profile) : (Auth.finish r).2 = r.2.
Proof. by destruct r as [[e|] t]. Qed.

Lemma getCurrentUser_after (ctx : Auth.Ctx) (a : Profile) (set : Profile -> Profile)
    (t : uuid) :
  (forall p, p_id (set p) = p_id p) ->
  Auth.getCurrentUser ctx = Some a ->
  Auth.getCurrentUser
    (Auth.mkCtx (Auth.session ctx)
       (map (fun p => if String.eqb (p_id p) t then set p else p) (Auth.profiles ctx)))
  = Some (if String.eqb (p_id a) t then set a else a).
Proof.
  intros Hid Ha. apply getCurrentUser_Some in Ha as [Hs Hf].
  unfold Auth.getCurrentUser. simpl. rewrite Hs.
  by rewrite (filter_update p_id set (p_id a) t (Auth.profiles ctx) Hid), Hf.
Qed.

Lemma getCurrentUser_rewrite (ctx : Auth.Ctx) (a : Profile) (c : Profile -> bool)
    (set : Profile -> Profile) :
  (forall p, p_id (set p) = p_id p) ->
  Auth.getCurrentUser ctx = Some a ->
  Auth.getCurrentUser
    (Auth.mkCtx (Auth.session ctx)
       (map (fun p => if c p then set p else p) (Auth.profiles ctx)))
  = Some (if c a then set a else a).
Proof.
  intros Hid Ha. apply getCurrentUser_Some in Ha as [Hs Hf].
  unfold Auth.getCurrentUser. simpl. rewrite Hs.
  by rewrite (filter_rewrite p_id c set (p_id a) (Auth.profiles ctx) Hid), Hf.
Qed.

Lemma hasRole_of (ctx : Auth.Ctx) (u : Profile) (q : string) :
  Auth.getCurrentUser ctx = Some u ->
  Auth.hasRole ctx q = Client.isRole (Some u) q.
Proof. intros H. unfold Auth.hasRole, Client.isRole. by rewrite H. Qed.

Lemma is_curator_or_admin_row (ctx : Auth.Ctx) (u : Profile) :
  Auth.getCurrentUser ctx = Some u ->
  Policies.is_curator_or_admin (Auth.profiles ctx) (p_id u)
  = bool_decide (p_is_active u = Some true)
    && (Auth.role_is u "admin" || Auth.role_is u "curator").
Proof.
  intros H. unfold Policies.is_curator_or_admin. rewrite (has_role_row ctx u _ H).
  unfold Auth.has_role, Auth.role_is. simpl. rewrite String.eqb_refl. simpl.
  destruct (p_is_active u) as [[]|]; simpl; try done.
  destruct (p_role u) as [r|]; simpl; [|done].
  destruct (String.eqb r "admin"); simpl; [done|].
  destruct (String.eqb r "curator"); simpl; [done|].
  by destruct (String.eqb r "user").
Qed.

(** The rows the policies let the user of the session reach: every row for
    an active admin, the user's own row for anyone else who is not an active
    curator, who sees the other rows and may not update them. *)
Lemma reached_by_admin (ctx : Auth.Ctx) (a : Profile) (id : uuid) (p : Profile) :
  Auth.getCurrentUser ctx = Some a ->
  Auth.role_is a "admin" = true -> p_is_active a = Some true ->
  Auth.reached (Auth.session ctx) (Auth.profiles ctx) id p = String.eqb (p_id p) id.
Proof.
  intros Ha Hr Hact. unfold Auth.reached, Policies.profiles_select_using,
    Policies.profiles_update_using.
  rewrite (proj1 (getCurrentUser_Some ctx a Ha)).
  rewrite (is_curator_or_admin_row ctx a Ha), (is_admin_row ctx a Ha), Hr, Hact.
  simpl. by rewrite !orb_true_r, !andb_true_r.
Qed.

Lemma reached_by_others (ctx : Auth.Ctx) (a : Profile) (id : uuid) (p : Profile) :
  Auth.getCurrentUser ctx = Some a ->
  Policies.is_admin (Auth.profiles ctx) (p_id a) = false ->
  Auth.reached (Auth.session ctx) (Auth.profiles ctx) id p
  = String.eqb (p_id p) id && String.eqb (p_id a) (p_id p).
Proof.
  intros Ha Hadm. unfold Auth.reached, Policies.profiles_select_using,
    Policies.profiles_update_using.
  rewrite (proj1 (getCurrentUser_Some ctx a Ha)), Hadm, orb_false_r.
  destruct (String.eqb (p_id p) id), (String.eqb (p_id a) (p_id p)); simpl; try done.
  by rewrite andb_false_r.
Qed.

Lemma reached_own (ctx : Auth.Ctx) (a : Profile) (p : Profile) :
  Auth.getCurrentUser ctx = Some a ->
  Auth.reached (Auth.session ctx) (Auth.profiles ctx) (p_id a) p
  = String.eqb (p_id p) (p_id a).
Proof.
  intros Ha. unfold Auth.reached, Policies.profiles_select_using,
    Policies.profiles_update_using.
  rewrite (proj1 (getCurrentUser_Some ctx a Ha)).
  destruct (String.eqb (p_id p) (p_id a)) eqn:Hp; [|done].
  apply String.eqb_eq in Hp. by rewrite Hp, String.eqb_refl.
Qed.

Lemma current_user_stored (ctx : Auth.Ctx) (a : Profile) :
  Auth.getCurrentUser ctx = Some a -> In (p_id a) (map p_id (Auth.profiles ctx)).
Proof.
  intros Ha. apply getCurrentUser_Some in Ha as [_ Hf]. apply in_map.
  assert (Hin : In a (List.filter (fun p => String.eqb (p_id p) (p_id a))
                                  (Auth.profiles ctx))) by (rewrite Hf; by left).
  apply filter_In in Hin. tauto.
Qed.

Lemma current_user_rows (ctx : Auth.Ctx) (a p : Profile) :
  Auth.getCurrentUser ctx = Some a -> In p (Auth.profiles ctx) -> p_id p = p_id a -> p = a.
Proof.
  intros Ha Hp Hid. apply getCurrentUser_Some in Ha as [_ Hf].
  assert (Hin : In p (List.filter (fun p => String.eqb (p_id p) (p_id a))
                                  (Auth.profiles ctx)))
    by (apply filter_In; split; [done|by apply String.eqb_eq]).
  rewrite Hf in Hin. by destruct Hin as [<-|[]].
Qed.

(** An UPDATE of the caller's own row, by any text that denotes its id: the
    policy for a user's own profile admits it. *)
Lemma profiles_update_own (ctx : Auth.Ctx) (a : Profile) (set : Profile -> Profile)
    (userId : string) :
  Auth.getCurrentUser ctx = Some a ->
  uuid_of userId (map p_id (Auth.profiles ctx)) = Some (p_id a) ->
  (forall p, p_id (set p) = p_id p) -> profile_check (set a) = true ->
  Auth.profiles_update (Auth.session ctx) None set userId (Auth.profiles ctx)
  = (None, map (fun p => if String.eqb (p_id p) (p_id a) then set p else p)
               (Auth.profiles ctx)).
Proof.
  intros Ha Hid Hset Hcheck. unfold Auth.profiles_update. rewrite Hid.
  rewrite (proj2 (forallb_forall _ _)); cycle 1.
  { intros p _. rewrite (reached_own ctx a p Ha).
    destruct (String.eqb (p_id p) (p_id a)) eqn:Hp; [|done]. simpl.
    unfold Policies.profiles_select_using, Policies.profiles_update_check.
    rewrite (proj1 (getCurrentUser_Some ctx a Ha)), Hset.
    apply String.eqb_eq in Hp. by rewrite Hp, String.eqb_refl. }
  rewrite (proj2 (forallb_forall _ _)); cycle 1.
  { intros p Hp. rewrite (reached_own ctx a p Ha).
    destruct (String.eqb (p_id p) (p_id a)) eqn:Hpid; [|done]. simpl.
    apply String.eqb_eq in Hpid. by rewrite (current_user_rows ctx a p Ha Hp Hpid). }
  simpl. f_equal. apply map_ext. intros p. by rewrite (reached_own ctx a p Ha).
Qed.

(** An UPDATE by an active admin: every row with the id is reached. *)
Lemma profiles_update_admin (ctx : Auth.Ctx) (a : Profile) (set : Profile -> Profile)
    (userId : string) (t : uuid) :
  Auth.getCurrentUser ctx = Some a ->
  Auth.role_is a "admin" = true -> p_is_active a = Some true ->
  uuid_of userId (map p_id (Auth.profiles ctx)) = Some t ->
  (forall p, p_id (set p) = p_id p) ->
  Auth.profiles_update (Auth.session ctx) None set userId (Auth.profiles ctx)
  = if forallb (fun p => negb (String.eqb (p_id p) t) || profile_check (set p))
               (Auth.profiles ctx)
    then (None, map (fun p => if String.eqb (p_id p) t then set p else p) (Auth.profiles ctx))
    else (Some (Pg.check_violation "profiles" "profiles_role_check"), Auth.profiles ctx).
Proof.
  intros Ha Hr Hact Hid Hset. unfold Auth.profiles_update. rewrite Hid.
  rewrite (proj2 (forallb_forall _ _)); cycle 1.
  { intros p _. apply orb_true_iff. right.
    unfold Policies.profiles_select_using, Policies.profiles_update_check.
    rewrite (proj1 (getCurrentUser_Some ctx a Ha)).
    rewrite (is_curator_or_admin_row ctx a Ha), (is_admin_row ctx a Ha), Hr, Hact.
    simpl. by rewrite !orb_true_r. }
  simpl.
  rewrite (forallb_pointwise _
             (fun p => negb (String.eqb (p_id p) t) || profile_check (set p)))
    by (intros p; by rewrite (reached_by_admin ctx a t p Ha Hr Hact)).
  destruct (forallb _ _); simpl; [|done].
  f_equal. apply map_ext. intros p. by rewrite (reached_by_admin ctx a t p Ha Hr Hact).
Qed.

(** An UPDATE of another id by a caller who is not an active admin reaches
    no row. *)
Lemma profiles_update_filtered (ctx : Auth.Ctx) (a : Profile) (set : Profile -> Profile)
    (userId : string) (t : uuid) :
  Auth.getCurrentUser ctx = Some a ->
  Policies.is_admin (Auth.profiles ctx) (p_id a) = false ->
  uuid_of userId (map p_id (Auth.profiles ctx)) = Some t -> t <> p_id a ->
  Auth.profiles_update (Auth.session ctx) None set userId (Auth.profiles ctx)
  = (None, Auth.profiles ctx).
Proof.
  intros Ha Hadm Hid Hne. unfold Auth.profiles_update. rewrite Hid.
  assert (Hno : forall p, Auth.reached (Auth.session ctx) (Auth.profiles ctx) t p = false).
  { intros p. rewrite (reached_by_others ctx a t p Ha Hadm).
    destruct (String.eqb (p_id p) t) eqn:Hp; [|done]. simpl.
    apply String.eqb_eq in Hp. apply String.eqb_neq. congruence. }
  rewrite (proj2 (forallb_forall _ _)) by (intros p _; by rewrite Hno).
  rewrite (proj2 (forallb_forall _ _)) by (intros p _; by rewrite Hno).
  simpl. f_equal. rewrite <- (map_id (Auth.profiles ctx)) at 2.
  apply map_ext. intros p. by rewrite Hno.
Qed.

(** Neither [updateUserRole] nor [setUserActiveStatus] takes a right away
    from a caller through another user's id: whatever the value and the
    store's answer, when the text does not denote the caller's own id the
    caller's profile is as it was, and every role check answers the caller as
    before.  The guards on the caller's own id compare texts: they refuse the
    id as the caller's profile shows it, and let another spelling of the same
    uuid through, with which an admin changes its own role or deactivates its
    own account. *)
Theorem caller_keeps_rights (ctx : Auth.Ctx) (a : Profile) (backend : option string)
    (now : string) (userId : string) (newRole : string) (isActive : bool) (q : string) :
  Auth.getCurrentUser ctx = Some a ->
  let after_role :=
    Auth.mkCtx (Auth.session ctx) (Auth.updateUserRole ctx backend now userId newRole).2 in
  let after_status :=
    Auth.mkCtx (Auth.session ctx)
      (Auth.setUserActiveStatus ctx backend now userId isActive).2 in
  (uuid_of userId (map p_id (Auth.profiles ctx)) <> Some (p_id a) ->
   Auth.getCurrentUser after_role = Some a
   /\ Auth.getCurrentUser after_status = Some a
   /\ Auth.hasRole after_role q = Auth.hasRole ctx q
   /\ Auth.hasRole after_status q = Auth.hasRole ctx q)
  /\ (p_id a = userId ->
      Auth.profiles after_role = Auth.profiles ctx
      /\ (isActive = false -> Auth.profiles after_status = Auth.profiles ctx))
  /\ (Auth.role_is a "admin" = true -> p_id a <> userId ->
      uuid_of userId (map p_id (Auth.profiles ctx)) = Some (p_id a) ->
      backend = None -> In newRole role_values ->
      Auth.getCurrentUser after_role = Some (Auth.set_role newRole now a)
      /\ Auth.getCurrentUser after_status = Some (Auth.set_is_active isActive now a)).
Proof.
  intros Ha. cbv zeta.
  assert (Hsame : Auth.getCurrentUser (Auth.mkCtx (Auth.session ctx) (Auth.profiles ctx))
                  = Some a) by (by destruct ctx).
  split; [|split].
  - intros Hother.
    assert (Hkeep : forall set,
              (forall p, p_id (set p) = p_id p) ->
              Auth.getCurrentUser
                (Auth.mkCtx (Auth.session ctx)
                   (Auth.finish (Auth.profiles_update (Auth.session ctx) backend set userId
                                   (Auth.profiles ctx))).2) = Some a).
    { intros set Hset. rewrite finish_snd.
      destruct (profiles_update_table (Auth.session ctx) backend set userId
                  (Auth.profiles ctx)) as [-> | (id & Hid & ->)]; [done|].
      simpl. rewrite (getCurrentUser_rewrite ctx a _ set Hset Ha).
      destruct (Auth.reached _ _ id a) eqn:Hr; [|done].
      apply reached_id in Hr. congruence. }
    assert (Hrole : Auth.getCurrentUser
                      (Auth.mkCtx (Auth.session ctx)
                         (Auth.updateUserRole ctx backend now userId newRole).2) = Some a).
    { unfold Auth.updateUserRole. rewrite Ha.
      destruct (negb (Auth.role_is a "admin")); [done|].
      destruct (String.eqb (p_id a) userId); [done|]. by apply Hkeep. }
    assert (Hstatus : Auth.getCurrentUser
                        (Auth.mkCtx (Auth.session ctx)
                           (Auth.setUserActiveStatus ctx backend now userId isActive).2)
                      = Some a).
    { unfold Auth.setUserActiveStatus. rewrite Ha.
      destruct (negb (Auth.role_is a "admin")); [done|].
      destruct (String.eqb (p_id a) userId && negb isActive); [done|]. by apply Hkeep. }
    split; [exact Hrole|]. split; [exact Hstatus|].
    by rewrite (hasRole_of _ _ q Hrole), (hasRole_of _ _ q Hstatus), (hasRole_of _ _ q Ha).
  - intros Hid. apply String.eqb_eq in Hid.
    unfold Auth.updateUserRole, Auth.setUserActiveStatus. rewrite Ha, Hid. simpl.
    split; [by destruct (negb _)|]. intros ->. by destruct (negb _).
  - intros Hadm Hne Hown -> Hin. apply String.eqb_neq in Hne.
    assert (Hrole : p_role a = Some "admin").
    { unfold Auth.role_is in Hadm. destruct (p_role a) as [r|]; [|done].
      by apply String.eqb_eq in Hadm as ->. }
    unfold Auth.updateUserRole, Auth.setUserActiveStatus. rewrite Ha, Hadm, Hne. simpl.
    rewrite (profiles_update_own ctx a (Auth.set_role newRole now) userId Ha Hown);
      [|done|by apply mem_In].
    rewrite (profiles_update_own ctx a (Auth.set_is_active isActive now) userId Ha Hown);
      [|done|by unfold profile_check; simpl; rewrite Hrole].
    simpl. rewrite !(getCurrentUser_after ctx a _ (p_id a)) by done.
    by rewrite String.eqb_refl.
Qed.

Lemma caller_keeps_rights_witness :
  Auth.hasRole
    (Auth.mkCtx (Some "alice")
       (Auth.setUserActiveStatus (Samples.as_user "alice") None Samples.now "bob" false).2)
    "admin" = true
  /\ Auth.getCurrentUser
       (Auth.mkCtx (Some Samples.root_id)
          (Auth.updateUserRole (Auth.mkCtx (Some Samples.root_id) Samples.staff) None
             Samples.now "6F1C2D3E4A5B4C6D8E7F0A1B2C3D4E5F" "user").2)
     = Some (Auth.set_role "user" Samples.now Samples.root).
Proof.
  split.
  - refine (eq_trans
              (proj2 (proj2 (proj2 (proj1 (caller_keeps_rights (Samples.as_user "alice")
                                             Samples.alice None Samples.now "bob" "user"
                                             false "admin" eq_refl) _)))) _);
      [vm_compute; discriminate | reflexivity].
  - apply (proj2 (proj2 (caller_keeps_rights (Auth.mkCtx (Some Samples.root_id) Samples.staff)
                           Samples.root None Samples.now
                           "6F1C2D3E4A5B4C6D8E7F0A1B2C3D4E5F" "user" true "admin"
                           eq_refl))); try reflexivity.
    + discriminate.
    + simpl. tauto.
Defined.

Lemma profile_check_set_role (newRole now : string) (p : Profile) :
  profile_check (Auth.set_role newRole now p) = mem newRole role_values.
Proof. reflexivity. Qed.

(** The UPDATE [updateUserRole] reaches, for an admin who passes another text
    than its own id. *)
Lemma updateUserRole_admin (ctx : Auth.Ctx) (a : Profile) (now : string) (userId : string)
    (newRole : string) :
  Auth.getCurrentUser ctx = Some a -> Auth.role_is a "admin" = true -> p_id a <> userId ->
  Auth.updateUserRole ctx None now userId newRole
  = Auth.finish (Auth.profiles_update (Auth.session ctx) None (Auth.set_role newRole now)
                   userId (Auth.profiles ctx)).
Proof.
  intros Ha Hadm Hne. unfold Auth.updateUserRole. rewrite Ha, Hadm. simpl.
  apply String.eqb_neq in Hne. by rewrite Hne.
Qed.

Lemma forallb_update_check (userId : uuid) (set : Profile -> Profile) (b : bool)
    (table : list Profile) :
  (forall p, profile_check (set p) = b) ->
  forallb (fun p => negb (String.eqb (p_id p) userId) || profile_check (set p)) table
  = negb (existsb (fun p => String.eqb (p_id p) userId) table) || b.
Proof.
  intros Hb. induction table as [|p l IH]; simpl; [done|].
  rewrite IH, Hb. destruct (String.eqb (p_id p) userId), b; simpl; try done.
  by rewrite orb_true_r.
Qed.

Lemma map_update_absent {A : Type} (id : A -> uuid) (set : A -> A) (t : uuid) (l : list A) :
  existsb (fun p => String.eqb (id p) t) l = false ->
  map (fun p => if String.eqb (id p) t then set p else p) l = l.
Proof.
  induction l as [|p l IH]; simpl; [done|].
  destruct (String.eqb (id p) t); simpl; [done|]. intros H. by rewrite IH.
Qed.

(** What [updateUserRole] answers to a caller whose role is admin and who
    passes another text than its own id, when the store is reachable.  A text
    that is no uuid is refused.  For a text that denotes another id than the
    caller's: when the caller's account is not active the policies show the
    caller no row to update, and the call reports a success that changed
    nothing; when it is active, a target that does not exist is reported as a
    success and nothing changes; a role outside user, curator and admin is
    refused by the CHECK of the table for an existing target and nothing
    changes; a role among the three succeeds, every profile with the target id
    then has that role and updated_at = now, and every other profile is as
    before. *)
Theorem updateUserRole_outcomes (ctx : Auth.Ctx) (a : Profile) (now : string)
    (userId : string) (newRole : string) :
  Auth.getCurrentUser ctx = Some a -> Auth.role_is a "admin" = true -> p_id a <> userId ->
  let answer := Auth.updateUserRole ctx None now userId newRole in
  let denoted := uuid_of userId (map p_id (Auth.profiles ctx)) in
  (denoted = None ->
   answer = (Auth.Failure (Pg.invalid_uuid userId), Auth.profiles ctx))
  /\ (forall t, denoted = Some t -> t <> p_id a ->
        let exists_target := existsb (fun p => String.eqb (p_id p) t) (Auth.profiles ctx) in
        (p_is_active a <> Some true -> answer = (Auth.Success, Auth.profiles ctx))
        /\ (p_is_active a = Some true ->
            (exists_target = false -> answer = (Auth.Success, Auth.profiles ctx))
            /\ (exists_target = true -> ~ In newRole role_values ->
                answer
                = (Auth.Failure (Pg.check_violation "profiles" "profiles_role_check"),
                   Auth.profiles ctx))
            /\ (In newRole role_values ->
                answer = (Auth.Success,
                          map (fun p => if String.eqb (p_id p) t
                                        then Auth.set_role newRole now p else p)
                              (Auth.profiles ctx))
                /\ Forall2 (fun p p' =>
                              if String.eqb (p_id p) t
                              then p_role p' = Some newRole /\ p_updated_at p' = now
                                   /\ p_id p' = p_id p /\ p_is_active p' = p_is_active p
                                   /\ p_email p' = p_email p
                                   /\ p_full_name p' = p_full_name p
                              else p' = p)
                           (Auth.profiles ctx) answer.2))).
Proof.
  intros Ha Hadm Hne. cbv zeta. rewrite (updateUserRole_admin ctx a now userId newRole) by done.
  split.
  - intros Hno. unfold Auth.profiles_update. by rewrite Hno.
  - intros t Ht Hother. split.
    + intros Hinactive.
      rewrite (profiles_update_filtered ctx a _ userId t Ha); try done.
      rewrite (is_admin_row ctx a Ha), Hadm. simpl. by apply bool_decide_eq_false_2.
    + intros Hact.
      rewrite (profiles_update_admin ctx a _ userId t Ha Hadm Hact Ht) by done.
      rewrite (forallb_update_check t _ (mem newRole role_values))
        by (intros p; apply profile_check_set_role).
      split; [|split].
      * intros Hex. rewrite Hex. simpl. by rewrite map_update_absent.
      * intros Hex Hn. apply mem_false in Hn. by rewrite Hex, Hn.
      * intros Hin. apply mem_In in Hin. rewrite Hin, orb_true_r. simpl. split; [done|].
        clear. induction (Auth.profiles ctx) as [|p l IH]; simpl; [constructor|].
        constructor; [|done]. by destruct (String.eqb (p_id p) t).
Qed.

Lemma updateUserRole_outcomes_witness :
  Auth.updateUserRole (Samples.as_user "erin") None Samples.now "carol" "curator"
  = (Auth.Success, Samples.people)
  /\ Auth.updateUserRole (Samples.as_user "alice") None Samples.now "carol" "owner"
     = (Auth.Failure (Pg.check_violation "profiles" "profiles_role_check"),
        Samples.people)
  /\ Auth.updateUserRole (Samples.as_user "alice") None Samples.now "nobody" "curator"
     = (Auth.Failure (Pg.invalid_uuid "nobody"), Samples.people).
Proof.
  split; [|split].
  - apply (proj1 (proj2 (updateUserRole_outcomes (Samples.as_user "erin") Samples.erin
                           Samples.now "carol" "curator" eq_refl eq_refl
                           ltac:(discriminate))
                    "carol" eq_refl ltac:(discriminate))).
    discriminate.
  - apply (proj2 (proj2 (updateUserRole_outcomes (Samples.as_user "alice") Samples.alice
                           Samples.now "carol" "owner" eq_refl eq_refl
                           ltac:(discriminate))
                    "carol" eq_refl ltac:(discriminate))).
    + reflexivity.
    + reflexivity.
    + simpl. intros [H|[H|[H|[]]]]; discriminate.
  - apply (proj1 (updateUserRole_outcomes (Samples.as_user "alice") Samples.alice
                    Samples.now "nobody" "curator" eq_refl eq_refl ltac:(discriminate))).
    reflexivity.
Defined.

(** An admin can activate its own account: [setUserActiveStatus] refuses the
    caller's own id only for a deactivation and never reads the caller's
    is_active, so an admin whose account was deactivated, and who fails
    [isAdmin], passes it again after the call. *)
Theorem setUserActiveStatus_reactivates (ctx : Auth.Ctx) (a : Profile) (now : string) :
  Auth.getCurrentUser ctx = Some a -> p_role a = Some "admin" ->
  let answer := Auth.setUserActiveStatus ctx None now (p_id a) true in
  answer.1 = Auth.Success
  /\ Auth.getCurrentUser (Auth.mkCtx (Auth.session ctx) answer.2)
     = Some (Auth.set_is_active true now a)
  /\ Auth.isAdmin (Auth.mkCtx (Auth.session ctx) answer.2) = true
  /\ (p_is_active a <> Some true -> Auth.isAdmin ctx = false).
Proof.
  intros Ha Hr. cbv zeta.
  assert (Hadm : Auth.role_is a "admin" = true) by (unfold Auth.role_is; by rewrite Hr).
  assert (Hans : Auth.setUserActiveStatus ctx None now (p_id a) true
                 = (Auth.Success,
                    map (fun p => if String.eqb (p_id p) (p_id a)
                                  then Auth.set_is_active true now p else p)
                        (Auth.profiles ctx))).
  { unfold Auth.setUserActiveStatus. rewrite Ha, Hadm. simpl.
    rewrite andb_false_r.
    rewrite (profiles_update_own ctx a (Auth.set_is_active true now) (p_id a) Ha);
      [done| |done|by unfold profile_check; simpl; rewrite Hr].
    apply uuid_of_stored. by apply current_user_stored. }
  rewrite Hans. simpl. split; [done|].
  rewrite (getCurrentUser_after ctx a _ (p_id a)) by done.
  rewrite String.eqb_refl. split; [done|]. split.
  - unfold Auth.isAdmin.
    rewrite (getCurrentUser_after ctx a (Auth.set_is_active true now) (p_id a)) by done.
    rewrite String.eqb_refl. unfold Auth.role_is. simpl. by rewrite Hr.
  - intros Hn. unfold Auth.isAdmin. rewrite Ha.
    rewrite bool_decide_eq_false_2 by done. apply andb_false_r.
Qed.

Lemma setUserActiveStatus_reactivates_witness :
  Auth.isAdmin (Samples.as_user "erin") = false
  /\ Auth.isAdmin
       (Auth.mkCtx (Some "erin")
          (Auth.setUserActiveStatus (Samples.as_user "erin") None Samples.now "erin" true).2)
     = true.
Proof.
  pose proof (setUserActiveStatus_reactivates (Samples.as_user "erin") Samples.erin
                Samples.now eq_refl eq_refl) as (_ & _ & Hafter & Hbefore).
  split; [apply Hbefore; discriminate | exact Hafter].
Defined.

(** Two role changes of one target compose to the second: after an active
    admin has set the role of another user to r1 and then to r2, the table is
    the one a single change to r2 at the later time gives.  In particular a
    promotion followed by the demotion restores the role. *)
Theorem updateUserRole_last_wins (ctx : Auth.Ctx) (a : Profile) (now1 now2 : string)
    (userId : string) (t : uuid) (r1 r2 : string) :
  Auth.getCurrentUser ctx = Some a ->
  Auth.role_is a "admin" = true -> p_is_active a = Some true ->
  uuid_of userId (map p_id (Auth.profiles ctx)) = Some t -> t <> p_id a ->
  In r1 role_values -> In r2 role_values ->
  let first := Auth.updateUserRole ctx None now1 userId r1 in
  let second :=
    Auth.updateUserRole (Auth.mkCtx (Auth.session ctx) first.2) None now2 userId r2 in
  first.1 = Auth.Success
  /\ second = Auth.updateUserRole ctx None now2 userId r2
  /\ second.1 = Auth.Success.
Proof.
  intros Ha Hadm Hact Ht Hother H1 H2. cbv zeta.
  assert (Hne : p_id a <> userId).
  { intros <-. rewrite uuid_of_stored in Ht by (by apply current_user_stored). congruence. }
  assert (Hgo : forall c r now,
            Auth.getCurrentUser c = Some a ->
            uuid_of userId (map p_id (Auth.profiles c)) = Some t ->
            In r role_values ->
            Auth.updateUserRole c None now userId r
            = (Auth.Success,
               map (fun p => if String.eqb (p_id p) t then Auth.set_role r now p else p)
                   (Auth.profiles c))).
  { intros c r now Hc Hct Hr. rewrite (updateUserRole_admin c a now userId r) by done.
    rewrite (profiles_update_admin c a _ userId t Hc Hadm Hact Hct) by done.
    rewrite (forallb_update_check t _ (mem r role_values))
      by (intros p; apply profile_check_set_role).
    apply mem_In in Hr. by rewrite Hr, orb_true_r. }
  rewrite (Hgo ctx r1 now1 Ha Ht H1). simpl. split; [done|].
  assert (Ha1 : Auth.getCurrentUser
                  (Auth.mkCtx (Auth.session ctx)
                     (map (fun p => if String.eqb (p_id p) t
                                    then Auth.set_role r1 now1 p else p)
                          (Auth.profiles ctx))) = Some a).
  { rewrite (getCurrentUser_after ctx a _ t) by done.
    replace (String.eqb (p_id a) t) with false; [done|].
    symmetry. apply String.eqb_neq. congruence. }
  rewrite (Hgo ctx r2 now2 Ha Ht H2).
  rewrite (Hgo _ r2 now2 Ha1); [|simpl|done].
  2:{ by rewrite (map_id_rewrite (fun p => String.eqb (p_id p) t)). }
  simpl. split; [|done].
  f_equal. rewrite map_map. apply map_ext. intros p.
  destruct (String.eqb (p_id p) t) eqn:Hp; simpl; by rewrite Hp.
Qed.

Lemma updateUserRole_last_wins_witness :
  Auth.updateUserRole
    (Auth.mkCtx (Some "alice")
       (Auth.updateUserRole (Samples.as_user "alice") None "2024-03-03T00:00:00Z" "carol"
          "curator").2)
    None Samples.now "carol" "user"
  = Auth.updateUserRole (Samples.as_user "alice") None Samples.now "carol" "user".
Proof.
  apply (proj1 (proj2 (updateUserRole_last_wins (Samples.as_user "alice") Samples.alice
                         "2024-03-03T00:00:00Z" Samples.now "carol" "carol" "curator" "user"
                         eq_refl eq_refl eq_refl eq_refl ltac:(discriminate)
                         ltac:(simpl; tauto) ltac:(simpl; tauto)))).
Defined.

(** ** The counters and the completion trigger *)



(** Through the statements that reach the table, approved_chunks never
    exceeds total_chunks when both are set, and doc_type stays one of fhir,
    vbc, grants and billing. *)
Theorem approved_within_total (db : Completion.DB) :
  Lifecycle.reachable db ->
  Forall (fun d =>
            (forall a t, d_approved_chunks d = Some a -> d_total_chunks d = Some t ->
                         (a <= t)%Z)
            /\ In (d_doc_type d) ["fhir"; "vbc"; "grants"; "billing"])
         (Completion.documents db).
Proof.
  intros Hr. apply reachable_valid in Hr.
  eapply Forall_impl; [exact Hr|]. intros d Hd. unfold document_check in Hd.
  apply andb_true_iff in Hd as [Hd Hv]. apply andb_true_iff in Hd as [Hd _].
  split; [|by apply mem_In in Hd].
  intros a t Ha Ht. unfold valid_chunks in Hv. rewrite Ha, Ht in Hv. by apply Z.leb_le.
Qed.

(** A document of one chunk is inserted and its chunk approved; a second
    approval is refused by valid_chunks and leaves the counter at 1. *)
Lemma approved_within_total_witness :
  let counted := Completion.set_approved_chunks 1 (Samples.document "d1" (Some 1%Z) "review") in
  Lifecycle.reachable (Completion.mkDB [counted] [])
  /\ Forall (fun d =>
               (forall a t, d_approved_chunks d = Some a -> d_total_chunks d = Some t ->
                            (a <= t)%Z)
               /\ In (d_doc_type d) ["fhir"; "vbc"; "grants"; "billing"])
            [counted].
Proof.
  intros counted.
  assert (Hr : Lifecycle.reachable (Completion.mkDB [counted] [])).
  { eapply Lifecycle.reachable_step.
    - eapply Lifecycle.reachable_step.
      + eapply Lifecycle.reachable_step; [apply (Lifecycle.reachable_empty [])|].
        apply (Lifecycle.step_insert None (Samples.document "d1" (Some 1%Z) "review")
                 (Completion.mkDB [] []) [Samples.document "d1" (Some 1%Z) "review"]).
        reflexivity.
      + apply (Lifecycle.step_approved "d1" _ None (Completion.mkDB [counted] [])).
        reflexivity.
    - apply (Lifecycle.step_approved "d1" _
               (Some (Pg.check_violation "documents" "valid_chunks"))
               (Completion.mkDB [counted] [])).
      reflexivity. }
  split; [exact Hr|]. exact (approved_within_total _ Hr).
Defined.

Lemma select_total_completed (doc_id : uuid) (documents : list Document)
    (chunks : list Chunk) :
  Completion.select_total doc_id
    (Completion.mkDB
       (map (fun d => if String.eqb (d_id d) doc_id
                      then Completion.set_processing_status "completed" d else d)
            documents)
       chunks)
  = Completion.select_total doc_id (Completion.mkDB documents chunks).
Proof.
  unfold Completion.select_total. simpl.
  induction documents as [|d l IH]; simpl; [done|].
  destruct (String.eqb (d_id d) doc_id) eqn:Hd; simpl; by rewrite Hd.
Qed.

(** The trigger function is idempotent, and it only ever writes 'completed':
    whatever a statement on review_status does, a document afterwards is the
    document as it was or that document with processing_status 'completed'
    (so a completed document stays completed, also when a chunk goes back to
    pending, and the counters are not touched); a chunk afterwards is the
    chunk as it was or, for the id of the statement, that chunk with the new
    review_status; and a refused statement changes nothing. *)
Theorem review_trigger_frame (backend : option string) (chunk_id : uuid) (s : string)
    (db : Completion.DB) (NEW : Chunk) :
  let answer := Completion.update_review_status backend chunk_id s db in
  Completion.check_document_completion NEW (Completion.check_document_completion NEW db)
  = Completion.check_document_completion NEW db
  /\ Forall2 (fun d d' => d' = d \/ d' = Completion.set_processing_status "completed" d)
             (Completion.documents db) (Completion.documents answer.2)
  /\ Forall2 (fun c c' =>
                c' = c \/ (c_id c = chunk_id /\ c' = Completion.set_review_status s c))
             (Completion.document_chunks db) (Completion.document_chunks answer.2)
  /\ (answer.1 <> None -> answer.2 = db).
Proof.
  cbv zeta.
  assert (Hrefl : forall l : list Document,
            Forall2 (fun d d' => d' = d \/ d' = Completion.set_processing_status "completed" d)
                    l l).
  { intros l. induction l; constructor; auto. }
  assert (Hstep : forall N db0 l,
            Forall2 (fun d d' => d' = d
                                 \/ d' = Completion.set_processing_status "completed" d)
                    l (Completion.documents db0) ->
            Forall2 (fun d d' => d' = d
                                 \/ d' = Completion.set_processing_status "completed" d)
                    l (Completion.documents (Completion.check_document_completion N db0))).
  { intros N db0 l Hl. unfold Completion.check_document_completion.
    destruct (Completion.select_total _ _); [|done].
    destruct (_ <=? _)%Z; [|done]. simpl.
    induction Hl as [|d d' l l' Hd Hl IH]; simpl; constructor; [|done].
    destruct (String.eqb (d_id d') (c_document_id N)); [|done].
    right. by destruct Hd as [-> | ->]. }
  split; [|split; [|split]].
  - destruct (Completion.select_total (c_document_id NEW) db) as [t|] eqn:Ht.
    2:{ unfold Completion.check_document_completion. by rewrite Ht, Ht. }
    destruct (t <=? Completion.count_reviewed (c_document_id NEW) db)%Z eqn:Hle.
    2:{ unfold Completion.check_document_completion. by rewrite Ht, Hle, Ht, Hle. }
    set (db1 := Completion.mkDB
                  (map (fun d => if String.eqb (d_id d) (c_document_id NEW)
                                 then Completion.set_processing_status "completed" d
                                 else d)
                       (Completion.documents db))
                  (Completion.document_chunks db)).
    assert (Hres : Completion.check_document_completion NEW db = db1)
      by (unfold Completion.check_document_completion; by rewrite Ht, Hle).
    rewrite Hres.
    assert (Ht' : Completion.select_total (c_document_id NEW) db1 = Some t).
    { unfold db1. by rewrite select_total_completed. }
    unfold Completion.check_document_completion. rewrite Ht'.
    change (Completion.count_reviewed (c_document_id NEW) db1)
      with (Completion.count_reviewed (c_document_id NEW) db).
    rewrite Hle. unfold db1. simpl. f_equal. rewrite map_map. apply map_ext. intros d.
    destruct (String.eqb (d_id d) (c_document_id NEW)) eqn:Hd; simpl; by rewrite Hd.
  - unfold Completion.update_review_status. destruct backend; [apply Hrefl|].
    destruct (_ && _); [apply Hrefl|]. simpl.
    set (fired := List.filter _ _). generalize fired. intros l.
    set (db0 := Completion.mkDB (Completion.documents db) _).
    assert (H0 : Forall2 (fun d d' => d' = d
                                      \/ d' = Completion.set_processing_status "completed" d)
                         (Completion.documents db) (Completion.documents db0))
      by apply Hrefl.
    revert H0. generalize db0. induction l as [|c l IH]; simpl; intros dbx Hx; [done|].
    apply IH. by apply Hstep.
  - unfold Completion.update_review_status.
    assert (Hsame : forall l : list Chunk,
              Forall2 (fun c c' => c' = c
                                   \/ (c_id c = chunk_id
                                       /\ c' = Completion.set_review_status s c)) l l)
      by (intros l; induction l; constructor; auto).
    destruct backend; [apply Hsame|].
    destruct (_ && _); [apply Hsame|]. simpl.
    set (fired := List.filter _ _). generalize fired. intros l.
    set (db0 := Completion.mkDB (Completion.documents db) _).
    assert (H0 : Forall2 (fun c c' => c' = c
                                      \/ (c_id c = chunk_id
                                          /\ c' = Completion.set_review_status s c))
                         (Completion.document_chunks db) (Completion.document_chunks db0)).
    { simpl. induction (Completion.document_chunks db) as [|c cs IH]; simpl; constructor;
        [|done].
      destruct (String.eqb (c_id c) chunk_id) eqn:Hc; [|by left].
      right. by apply String.eqb_eq in Hc. }
    revert H0. generalize db0. induction l as [|c l IH]; simpl; intros dbx Hx; [done|].
    apply IH. by rewrite check_document_completion_chunks.
  - unfold Completion.update_review_status. destruct backend; [done|].
    by destruct (_ && _).
Qed.

Lemma review_trigger_frame_witness :
  (Completion.update_review_status None "c1" "done" Samples.one_chunk).2 = Samples.one_chunk.
Proof.
  apply (proj2 (proj2 (proj2 (review_trigger_frame None "c1" "done" Samples.one_chunk
                                (Samples.chunk "c1" "d1" 0 "pending"))))).
  discriminate.
Defined.

(** ** Similarity search, continued *)

Section SearchMore.

Variable cosine_distance : VectorSearch.vector -> VectorSearch.vector -> VectorSearch.float8.





Lemma filter_none {A : Type} (f : A -> bool) (l : list A) :
  (forall x, f x = false) -> List.filter f l = [].
Proof. intros H. induction l as [|x l IH]; simpl; [done|]. by rewrite H. Qed.

(** The two filters and the provider.  Every row returned has the doc_type
    asked for, when one is asked for, and shares a use case with the list
    asked for, when one is; a list of use cases that is empty, unlike a
    missing one, matches no record; and a provider other than 'openai' and
    'gemini' gets no row, although the similarity column would be computed
    from the gemini embeddings for it. *)
Theorem match_documents_filters (kb_vectors : list VectorSearch.KbVector)
    (query_embedding : VectorSearch.vector) (t : Q) (n : Z)
    (filter_doc_type : option string) (filter_use_cases : option (list string))
    (p : string) (rows : list VectorSearch.Match) :
  VectorSearch.match_documents cosine_distance kb_vectors query_embedding t n
    filter_doc_type filter_use_cases p = inr rows ->
  Forall (fun m =>
            (forall dt, filter_doc_type = Some dt ->
                        VectorSearch.k_doc_type (VectorSearch.m_metadata m) = dt)
            /\ (forall ys, filter_use_cases = Some ys ->
                  exists x xs,
                    VectorSearch.k_use_cases (VectorSearch.m_metadata m) = Some xs
                    /\ In x xs /\ In x ys))
         rows
  /\ (filter_use_cases = Some [] -> rows = [])
  /\ (p <> "openai" -> p <> "gemini" -> rows = []).
Proof.
  intros Hrows.
  destruct (match_documents_rows _ _ _ _ _ _ _ _ _ Hrows)
    as (_ & scanned & Hsel & Hall & ->).
  assert (Hempty : (forall r, In r kb_vectors ->
                      VectorSearch.where_clause cosine_distance query_embedding t
                        filter_doc_type filter_use_cases p r <> inr true) ->
            scanned = []).
  { intros H. destruct scanned as [|s l]; [done|].
    apply List.Forall_cons_iff in Hall as [(Hin & Hw & _) _]. by destruct (H _ Hin). }
  split; [|split].
  - apply Forall_forall. intros m Hm. apply list_elem_of_fmap in Hm as (s & -> & Hs).
    apply (subseteq_take (Z.to_nat n)) in Hs.
    apply list_elem_of_In in Hs. apply (proj1 (order_by_In _ _)) in Hs.
    rewrite List.Forall_forall in Hall. destruct (Hall s Hs) as (_ & Hw & _).
    apply where_clause_true in Hw as (Hdt & Huc & _). simpl.
    unfold VectorSearch.doc_type_condition in Hdt.
    unfold VectorSearch.use_cases_condition in Huc.
    split.
    + intros dt ->. simpl in Hdt.
      destruct (String.eqb (VectorSearch.k_doc_type (VectorSearch.s_row s)) dt) eqn:He;
        [|done].
      by apply String.eqb_eq in He.
    + intros ys ->. simpl in Huc. unfold VectorSearch.overlap in Huc.
      destruct (VectorSearch.k_use_cases (VectorSearch.s_row s)) as [xs|]; [|done].
      destruct (existsb (fun x => mem x ys) xs) eqn:Hex; [|done].
      apply existsb_exists in Hex as (x & Hx & Hy).
      exists x, xs. repeat split; [done|]. by apply mem_In.
  - intros ->. rewrite Hempty; [by rewrite firstn_nil|].
    intros r _ Hw. apply where_clause_true in Hw as (_ & Huc & _).
    unfold VectorSearch.use_cases_condition, VectorSearch.overlap in Huc. simpl in Huc.
    destruct (VectorSearch.k_use_cases r) as [xs|]; simpl in Huc; [|done].
    assert (Hno : existsb (fun x => mem x []) xs = false)
      by (clear; induction xs; done).
    by rewrite Hno in Huc.
  - intros Ho Hg. rewrite Hempty; [by rewrite firstn_nil|].
    intros r _ Hw. apply where_clause_true in Hw as (_ & _ & e & [[-> _]|[-> _]] & _); done.
Qed.

End SearchMore.


Lemma match_documents_filters_witness :
  VectorSearch.match_documents Samples.cosine_distance Samples.kb Samples.query (3 # 10) 10
    None (Some []) "gemini" = inr [].
Proof.
  destruct (VectorSearch.match_documents Samples.cosine_distance Samples.kb Samples.query
              (3 # 10) 10 None (Some []) "gemini") as [e|rows] eqn:H.
  - vm_compute in H. discriminate.
  - by rewrite (proj1 (proj2 (match_documents_filters Samples.cosine_distance Samples.kb
                                Samples.query (3 # 10) 10 None (Some []) "gemini" rows H))
                  eq_refl).
Defined.

(** ** Profiles of new users, continued *)

Lemma existsb_false_not_in (t : uuid) (l : list Profile) :
  existsb (fun p => String.eqb (p_id p) t) l = false -> t ∉ map p_id l.
Proof.
  induction l as [|p l IH]; simpl; [intros _; apply not_elem_of_nil|].
  intros H. apply orb_false_iff in H as [Hp Hl]. apply String.eqb_neq in Hp.
  apply not_elem_of_cons. split; [congruence | by apply IH].
Qed.

Section ProfileCreation.

Variable jsonb_text : json -> string.

(** The trigger only ever adds: the profiles afterwards are the profiles
    before followed by at most one row, which has the id of the new user; so
    the primary key stays unique, rows that pass the CHECK of [role] still do,
    and the log only grows. *)
Theorem handle_new_user_only_adds (backend : option NewUser.SqlError) (now : string)
    (NEW r : NewUser.AuthUser) (st st' : NewUser.State) :
  NewUser.handle_new_user jsonb_text backend now NEW st = inr (r, st') ->
  (exists added,
     NewUser.profiles st' = (NewUser.profiles st ++ added)%list
     /\ (length added <= 1)%nat
     /\ Forall (fun p => p_id p = NewUser.u_id NEW /\ profile_check p = true) added)
  /\ (List.NoDup (map p_id (NewUser.profiles st)) ->
      List.NoDup (map p_id (NewUser.profiles st')))
  /\ (Forall (fun p => profile_check p = true) (NewUser.profiles st) ->
      Forall (fun p => profile_check p = true) (NewUser.profiles st'))
  /\ exists lines, NewUser.log st' = (NewUser.log st ++ lines)%list.
Proof.
  unfold NewUser.handle_new_user, NewUser.exception_when_others, NewUser.seq,
    NewUser.insert_profile, NewUser.raise_log, NewUser.ret.
  assert (Hsame : forall lines,
            (exists added,
               NewUser.profiles st = (NewUser.profiles st ++ added)%list
               /\ (length added <= 1)%nat
               /\ Forall (fun p => p_id p = NewUser.u_id NEW /\ profile_check p = true) added)
            /\ (List.NoDup (map p_id (NewUser.profiles st)) ->
                List.NoDup (map p_id (NewUser.profiles st)))
            /\ (Forall (fun p => profile_check p = true) (NewUser.profiles st) ->
                Forall (fun p => profile_check p = true) (NewUser.profiles st))
            /\ exists l, (NewUser.log st ++ lines)%list = (NewUser.log st ++ l)%list).
  { intros lines. split; [exists []; rewrite app_nil_r; repeat split; [simpl; lia|constructor]|].
    split; [done|]. split; [done|]. by exists lines. }
  destruct backend as [e|]; simpl.
  { destruct (NewUser.others e); [|done]. intros [= _ <-]. apply Hsame. }
  destruct (NewUser.u_email NEW) as [email|]; simpl; [|intros [= _ <-]; apply Hsame].
  destruct (existsb _ (NewUser.profiles st)) eqn:Hex.
  { intros [= _ <-]. destruct (Hsame []) as (H1 & H2 & H3 & _).
    split; [done|]. split; [done|]. split; [done|]. exists []. by rewrite app_nil_r. }
  intros [= _ <-]. simpl. split; [|split; [|split]].
  - eexists [_]. split; [reflexivity|]. split; [simpl; lia|]. by repeat constructor.
  - intros Hnd. apply NoDup_ListNoDup in Hnd. apply NoDup_ListNoDup.
    rewrite map_app. apply (proj2 (NoDup_app _ _)). split; [done|].
    split; [|apply NoDup_singleton].
    intros x Hx Hin. apply list_elem_of_singleton in Hin as ->.
    by apply (existsb_false_not_in _ _ Hex).
  - intros Hall. apply Forall_app. split; [done|]. by repeat constructor.
  - exists []. by rewrite app_nil_r.
Qed.

End ProfileCreation.

Lemma handle_new_user_only_adds_witness :
  let frank := Samples.new_user (Some "frank@example.org") (Some {["name" := JStr "Frank"]}) in
  let row := mkProfile "frank" "frank@example.org" (Some "Frank") (Some "user") (Some true)
                       Samples.now Samples.now in
  NewUser.handle_new_user (fun _ => "") None Samples.now frank
    (NewUser.mkState Samples.people [])
  = inr (frank, NewUser.mkState (Samples.people ++ [row]) [])
  /\ exists added,
       (Samples.people ++ [row])%list = (Samples.people ++ added)%list
       /\ (length added <= 1)%nat
       /\ Forall (fun p => p_id p = "frank" /\ profile_check p = true) added.
Proof.
  intros frank row. split; [reflexivity|].
  exact (proj1 (handle_new_user_only_adds (fun _ => "") None Samples.now frank frank
                  (NewUser.mkState Samples.people [])
                  (NewUser.mkState (Samples.people ++ [row]) []) eq_refl)).
Defined.

Section BackfillProofs.

Variable jsonb_text : json -> string.

Lemma filter_none_In {A : Type} (f : A -> bool) (l : list A) :
  (forall x, In x l -> f x = false) -> List.filter f l = [].
Proof.
  intros H. induction l as [|x l IH]; simpl; [done|].
  rewrite (H x) by (by left). apply IH. intros y Hy. apply H. by right.
Qed.

Lemma existsb_id_sym (t : uuid) (l : list Profile) :
  existsb (fun p => String.eqb t (p_id p)) l = existsb (fun p => String.eqb (p_id p) t) l.
Proof. apply existsb_pointwise. intros p. apply String.eqb_sym. Qed.

Lemma existsb_id_In (t : uuid) (l : list Profile) :
  existsb (fun p => String.eqb (p_id p) t) l = true <-> exists p, In p l /\ p_id p = t.
Proof.
  rewrite existsb_exists. split; intros (p & Hp & Hid); exists p; split; try done.
  - by apply String.eqb_eq.
  - by apply String.eqb_eq.
Qed.

Lemma new_row_id (now : string) (u : NewUser.AuthUser) (row : Profile) :
  Backfill.new_row jsonb_text now u = Some row ->
  p_id row = NewUser.u_id u /\ p_role row = Some "user" /\ p_is_active row = Some true.
Proof.
  unfold Backfill.new_row. destruct (NewUser.u_email u); [|done]. by intros [= <-].
Qed.

Lemma mapM_new_row (now : string) (l : list NewUser.AuthUser) :
  (forall u, In u l -> NewUser.u_email u <> None) ->
  exists rows,
    mapM (Backfill.new_row jsonb_text now) l = Some rows
    /\ Forall2 (fun u row => Backfill.new_row jsonb_text now u = Some row) l rows.
Proof.
  intros H. induction l as [|u l IH]; [by exists []|].
  destruct IH as (rows & Hrows & Hall); [intros x Hx; apply H; by right|].
  destruct (Backfill.new_row jsonb_text now u) as [row|] eqn:Hrow.
  - exists (row :: rows). split; [|by constructor].
    simpl. by rewrite Hrow, Hrows.
  - exfalso. unfold Backfill.new_row in Hrow.
    destruct (NewUser.u_email u) eqn:He; [done|]. by apply (H u); [left|].
Qed.

Lemma insert_rows_fresh (rows profiles : list Profile) :
  NoDup (map p_id rows) ->
  (forall r, In r rows -> existsb (fun p => String.eqb (p_id p) (p_id r)) profiles = false) ->
  Backfill.insert_rows rows profiles = inr (profiles ++ rows)%list.
Proof.
  revert profiles. induction rows as [|row rows IH]; simpl; intros profiles Hnd Hfresh.
  - by rewrite app_nil_r.
  - rewrite (Hfresh row) by (by left).
    apply NoDup_cons in Hnd as [Hrow Hnd].
    rewrite IH; [by rewrite <- app_assoc|done|].
    intros r Hr. rewrite existsb_app, (Hfresh r) by (by right). simpl.
    rewrite orb_false_r. apply String.eqb_neq. intros Heq. apply Hrow.
    rewrite Heq. apply list_elem_of_fmap. exists r. split; [done|]. by apply list_elem_of_In.
Qed.

Lemma missing_In (users : list NewUser.AuthUser) (profiles : list Profile)
    (u : NewUser.AuthUser) :
  In u (Backfill.missing users profiles)
  <-> In u users
      /\ existsb (fun p => String.eqb (p_id p) (NewUser.u_id u)) profiles = false.
Proof.
  unfold Backfill.missing. rewrite filter_In, existsb_id_sym.
  by rewrite negb_true_iff.
Qed.

Lemma missing_NoDup (users : list NewUser.AuthUser) (profiles : list Profile) :
  NoDup (map NewUser.u_id users) ->
  NoDup (map NewUser.u_id (Backfill.missing users profiles)).
Proof.
  unfold Backfill.missing. induction users as [|u l IH]; simpl; [done|].
  intros Hnd. apply NoDup_cons in Hnd as [Hu Hnd].
  destruct (negb _); simpl; [|by apply IH].
  apply NoDup_cons. split; [|by apply IH].
  intros Hin. apply Hu. apply list_elem_of_fmap in Hin as (x & Hx & Hin).
  apply list_elem_of_fmap. exists x. split; [done|].
  apply list_elem_of_In. apply list_elem_of_In, filter_In in Hin. tauto.
Qed.

(** The backfill of [complete-profile-fix.sql].  When the users that have no
    profile all have an e-mail address, the statement succeeds: it leaves the
    existing profiles as they are and adds, for each such user and no other,
    one profile with role 'user' and is_active true; afterwards every user
    has a profile, and running the statement again adds nothing.  When one of
    those users has no e-mail address the statement fails as a whole. *)
Theorem create_missing_profiles_complete (now : string) (users : list NewUser.AuthUser)
    (profiles : list Profile) :
  NoDup (map NewUser.u_id users) ->
  ((forall u, In u (Backfill.missing users profiles) -> NewUser.u_email u <> None) ->
   exists added,
     Backfill.create_missing_profiles jsonb_text now users profiles
     = inr (profiles ++ added)%list
     /\ Forall2 (fun u row => Backfill.new_row jsonb_text now u = Some row
                              /\ p_id row = NewUser.u_id u
                              /\ p_role row = Some "user" /\ p_is_active row = Some true)
                (Backfill.missing users profiles) added
     /\ (forall u, In u users -> exists p, In p (profiles ++ added) /\ p_id p = NewUser.u_id u)
     /\ (forall now', Backfill.create_missing_profiles jsonb_text now' users
                        (profiles ++ added) = inr (profiles ++ added)%list))
  /\ ((exists u, In u (Backfill.missing users profiles) /\ NewUser.u_email u = None) ->
      exists e, Backfill.create_missing_profiles jsonb_text now users profiles = inl e).
Proof.
  intros Hnd. split.
  - intros Hemail. unfold Backfill.create_missing_profiles.
    destruct (mapM_new_row now (Backfill.missing users profiles) Hemail)
      as (rows & Hrows & Hall).
    assert (Hids : map p_id rows = map NewUser.u_id (Backfill.missing users profiles)).
    { clear -Hall. induction Hall as [|u r l k Hr Hl IH]; simpl; [done|].
      apply new_row_id in Hr as [-> _]. by rewrite IH. }
    exists rows. rewrite Hrows.
    assert (Hcover : forall u, In u users ->
              exists p, In p (profiles ++ rows) /\ p_id p = NewUser.u_id u).
    { intros u Hu.
      destruct (existsb (fun p => String.eqb (p_id p) (NewUser.u_id u)) profiles) eqn:Hex.
      - apply existsb_id_In in Hex as (p & Hp & Hid). exists p. split; [|done].
        apply in_or_app. by left.
      - assert (Hm : In u (Backfill.missing users profiles)) by (by apply missing_In).
        apply list_elem_of_In, list_elem_of_lookup in Hm as [i Hi].
        destruct (Forall2_lookup_l _ _ _ _ _ Hall Hi) as (r & Hr & Hnew).
        exists r. split; [|exact (proj1 (new_row_id _ _ _ Hnew))].
        apply in_or_app. right. apply list_elem_of_In. by eapply list_elem_of_lookup_2. }
    split; [|split; [|split]].
    + apply insert_rows_fresh.
      * rewrite Hids. by apply missing_NoDup.
      * intros r Hr. apply list_elem_of_In in Hr.
        assert (Hin : p_id r ∈ map p_id rows)
          by (apply list_elem_of_fmap; by exists r).
        rewrite Hids in Hin. apply list_elem_of_fmap in Hin as (u & -> & Hu).
        by apply list_elem_of_In, missing_In in Hu as [_ Hu].
    + eapply Forall2_impl; [exact Hall|]. intros u r Hr. split; [done|].
      exact (new_row_id _ _ _ Hr).
    + exact Hcover.
    + intros now'. unfold Backfill.create_missing_profiles.
      assert (Hnone : Backfill.missing users (profiles ++ rows) = []).
      { unfold Backfill.missing. apply filter_none_In. intros u Hu.
        apply negb_false_iff. rewrite existsb_id_sym.
        apply existsb_id_In. by apply Hcover. }
      rewrite Hnone. simpl. done.
  - intros (u & Hu & He). unfold Backfill.create_missing_profiles.
    destruct (mapM _ _) as [rows|] eqn:Hrows; [|eauto].
    exfalso. apply mapM_Some in Hrows. apply list_elem_of_In in Hu.
    apply list_elem_of_lookup in Hu as [i Hi].
    destruct (Forall2_lookup_l _ _ _ _ _ Hrows Hi) as (r & _ & Hr).
    unfold Backfill.new_row in Hr. by rewrite He in Hr.
Qed.

Lemma missing_fresh (l : list NewUser.AuthUser) (profiles : list Profile) (row : Profile) :
  p_id row ∉ map NewUser.u_id l ->
  Backfill.missing l (profiles ++ [row]) = Backfill.missing l profiles.
Proof.
  intros Hrow. unfold Backfill.missing. induction l as [|u l IH]; simpl; [done|].
  apply not_elem_of_cons in Hrow as [Hu Hl]. rewrite (IH Hl), existsb_app. simpl.
  replace (String.eqb (NewUser.u_id u) (p_id row)) with false
    by (symmetry; apply String.eqb_neq; congruence).
  by rewrite !orb_false_r.
Qed.

Lemma handle_new_user_step (now : string) (u : NewUser.AuthUser) (profiles : list Profile)
    (lg : list string) :
  exists lg',
    NewUser.handle_new_user jsonb_text None now u (NewUser.mkState profiles lg)
    = inr (u, NewUser.mkState
                (match Backfill.new_row jsonb_text now u with
                 | Some row =>
                   if existsb (fun p => String.eqb (p_id p) (NewUser.u_id u)) profiles
                   then profiles else (profiles ++ [row])%list
                 | None => profiles
                 end) lg').
Proof.
  unfold NewUser.handle_new_user, NewUser.exception_when_others, NewUser.seq,
    NewUser.insert_profile, Backfill.new_row.
  destruct (NewUser.u_email u) as [email|]; simpl.
  - destruct (existsb _ profiles); by exists lg.
  - by eexists.
Qed.

(** The backfill and the trigger agree.  When the users without a profile
    all have an e-mail address, the statement of [complete-profile-fix.sql]
    leaves the table that [handle_new_user] leaves when it runs at each of
    the users in turn. *)
Theorem backfill_agrees_with_trigger (now : string) (users : list NewUser.AuthUser)
    (profiles : list Profile) (lg : list string) :
  NoDup (map NewUser.u_id users) ->
  (forall u, In u (Backfill.missing users profiles) -> NewUser.u_email u <> None) ->
  Backfill.create_missing_profiles jsonb_text now users profiles
  = inr (NewUser.profiles
           (Backfill.signups jsonb_text now users (NewUser.mkState profiles lg))).
Proof.
  intros Hnd Hemail.
  assert (Hfresh : forall r, In r (Backfill.missing users profiles) ->
            existsb (fun p => String.eqb (p_id p) (NewUser.u_id r)) profiles = false)
    by (intros r Hr; by apply missing_In in Hr as [_ Hr]).
  unfold Backfill.create_missing_profiles.
  destruct (mapM_new_row now _ Hemail) as (rows & Hrows & Hall). rewrite Hrows.
  assert (Hids : map p_id rows = map NewUser.u_id (Backfill.missing users profiles)).
  { clear -Hall. induction Hall as [|u r l k Hr Hl IH]; simpl; [done|].
    apply new_row_id in Hr as [-> _]. by rewrite IH. }
  rewrite insert_rows_fresh; cycle 1.
  { rewrite Hids. by apply missing_NoDup. }
  { intros r Hr. apply list_elem_of_In in Hr.
    assert (Hin : p_id r ∈ map p_id rows) by (apply list_elem_of_fmap; by exists r).
    rewrite Hids in Hin. apply list_elem_of_fmap in Hin as (u & -> & Hu).
    by apply Hfresh, list_elem_of_In. }
  f_equal. clear Hids Hrows Hfresh Hemail.
  revert profiles lg rows Hall.
  induction users as [|u l IH]; intros profiles lg rows Hall.
  - by inversion Hall; subst; rewrite app_nil_r.
  - apply NoDup_cons in Hnd as [Hu Hnd]. unfold Backfill.signups. simpl.
    destruct (handle_new_user_step now u profiles lg) as [lg' ->].
    unfold Backfill.signups in IH.
    unfold Backfill.missing in Hall. simpl in Hall.
    rewrite existsb_id_sym in Hall.
    destruct (existsb (fun p => String.eqb (p_id p) (NewUser.u_id u)) profiles) eqn:Hex;
      simpl in Hall.
    + destruct (Backfill.new_row jsonb_text now u); by apply IH.
    + inversion Hall as [|u' row m rows' Hrow Hrest]; subst. rewrite Hrow.
      rewrite <- (IH Hnd (profiles ++ [row])%list lg' rows'); [by rewrite <- app_assoc|].
      rewrite missing_fresh; [done|]. by rewrite (proj1 (new_row_id _ _ _ Hrow)).
Qed.

End BackfillProofs.

Lemma create_missing_profiles_complete_witness :
  NoDup (map NewUser.u_id Samples.auth_users)
  /\ map NewUser.u_id (Backfill.missing Samples.auth_users Samples.people) = ["frank"; "grace"]
  /\ exists added,
       Backfill.create_missing_profiles (fun _ => "") Samples.now Samples.auth_users
         Samples.people
       = inr (Samples.people ++ added)%list
       /\ length added = 2%nat.
Proof.
  assert (Hnd : NoDup (map NewUser.u_id Samples.auth_users))
    by (apply (bool_decide_unpack _); vm_compute; reflexivity).
  assert (Hemail : forall u, In u (Backfill.missing Samples.auth_users Samples.people) ->
            NewUser.u_email u <> None)
    by (intros u [<-|[<-|[]]]; discriminate).
  split; [exact Hnd|]. split; [reflexivity|].
  destruct (proj1 (create_missing_profiles_complete (fun _ => "") Samples.now
                     Samples.auth_users Samples.people Hnd) Hemail)
    as (added & Hrun & Hrows & _).
  exists added. split; [exact Hrun|].
  apply Forall2_length in Hrows. rewrite <- Hrows. reflexivity.
Defined.

Lemma backfill_agrees_with_trigger_witness :
  NoDup (map NewUser.u_id Samples.auth_users)
  /\ Backfill.create_missing_profiles (fun _ => "") Samples.now Samples.auth_users
       Samples.people
     = inr (NewUser.profiles
              (Backfill.signups (fun _ => "") Samples.now Samples.auth_users
                 (NewUser.mkState Samples.people []))).
Proof.
  assert (Hnd : NoDup (map NewUser.u_id Samples.auth_users))
    by (apply (bool_decide_unpack _); vm_compute; reflexivity).
  split; [exact Hnd|].
  apply (backfill_agrees_with_trigger (fun _ => "") Samples.now Samples.auth_users
           Samples.people [] Hnd).
  intros u [<-|[<-|[]]]; discriminate.
Defined.

(** ** The row policies *)

Lemma select_role_row (table : list Profile) (uid : uuid) (p : Profile) :
  Auth.getCurrentUser (Auth.mkCtx (Some uid) table) = Some p ->
  uid = p_id p /\ select_role table uid = Some (p_role p).
Proof.
  intros H. destruct (getCurrentUser_Some _ _ H) as [Hs Hf]. simpl in Hs, Hf.
  injection Hs as ->. split; [done|]. unfold select_role. by rewrite Hf.
Qed.

(** The handlers and the row policies test the caller differently.  For a
    caller with a profile, the policy for curators ("Curators can view,
    insert, update documents" and the like) admits the caller exactly when
    the handlers' check [['curator', 'admin'].includes(profile.role)] does and
    the profile's is_active is true; the policy for admins admits the caller
    exactly when the settings handler's check does and is_active is true.
    So what the policies refuse and the handlers let through is the callers
    whose account is not active; a caller without a session passes neither. *)
Theorem handler_checks_and_policies (table : list Profile) (uid : uuid) (p : Profile) :
  Auth.getCurrentUser (Auth.mkCtx (Some uid) table) = Some p ->
  Policies.curator_policy (Some uid) table
  = negb (not_curator_or_admin (select_role table uid))
    && bool_decide (p_is_active p = Some true)
  /\ Policies.admin_policy (Some uid) table
     = negb (Settings.not_admin (select_role table uid))
       && bool_decide (p_is_active p = Some true)
  /\ Policies.curator_policy None table = false
  /\ Policies.admin_policy None table = false.
Proof.
  intros H. destruct (select_role_row _ _ _ H) as [-> Hrole]. rewrite Hrole.
  split; [|split; [|done]].
  - unfold Policies.curator_policy, Policies.is_curator_or_admin.
    pose proof (has_role_row (Auth.mkCtx (Some (p_id p)) table) p (Some "curator") H)
      as Hrow.
    simpl in Hrow. rewrite Hrow.
    unfold Auth.has_role, not_curator_or_admin, mem. simpl.
    rewrite String.eqb_refl. simpl.
    destruct (p_is_active p) as [[]|]; simpl;
      destruct (p_role p) as [r|]; simpl; try done;
      rewrite ?andb_false_r; try done.
    destruct (String.eqb r "admin") eqn:Ha; simpl.
    + by rewrite orb_true_r.
    + destruct (String.eqb r "curator") eqn:Hc; simpl; [done|].
      by destruct (String.eqb r "user").
  - unfold Policies.admin_policy.
    pose proof (is_admin_row (Auth.mkCtx (Some (p_id p)) table) p H) as Hadm.
    simpl in Hadm. rewrite Hadm.
    unfold Settings.not_admin, Auth.role_is.
    destruct (p_role p) as [r|]; simpl; [|done].
    by rewrite negb_involutive.
Qed.

Lemma handler_checks_and_policies_witness :
  Policies.curator_policy (Some "dave") Samples.people = false
  /\ not_curator_or_admin (select_role Samples.people "dave") = false.
Proof.
  split; [|reflexivity].
  exact (proj1 (handler_checks_and_policies Samples.people "dave" Samples.dave eq_refl)).
Defined.

(** The policy "Users can update own profile" looks at the id of the row and
    at nothing else.  A caller who is not an admin may rewrite a row exactly
    when the row is the caller's own and keeps its id, whatever the other
    columns become; an admin may rewrite any row; a caller without a session
    none.  In particular the policy admits the statement by which a caller
    sets the role of the caller's own profile to 'admin' and is_active to
    true: the CHECK of the table accepts it, and afterwards [is_admin] holds
    of the caller. *)
Theorem own_profile_policy (table : list Profile) (uid : uuid) (row new_row : Profile)
    (now : string) :
  Policies.profiles_update_allowed None table row new_row = false
  /\ (Policies.is_admin table uid = true ->
      Policies.profiles_update_allowed (Some uid) table row new_row = true)
  /\ (Policies.is_admin table uid = false ->
      (Policies.profiles_update_allowed (Some uid) table row new_row = true
       <-> p_id row = uid /\ p_id new_row = uid))
  /\ (In row table -> p_id row = uid ->
      let promote := fun p => Auth.set_is_active true now (Auth.set_role "admin" now p) in
      Policies.profiles_update_allowed (Some uid) table row (promote row) = true
      /\ exists table',
           Auth.profiles_update (Some uid) None promote uid table = (None, table')
           /\ Policies.is_admin table' uid = true).
Proof.
  unfold Policies.profiles_update_allowed, Policies.profiles_update_using,
    Policies.profiles_update_check.
  split; [done|]. split; [by intros ->; rewrite !orb_true_r|]. split.
  - intros ->. rewrite !orb_false_r, andb_true_iff, !String.eqb_eq. split.
    + by intros [-> <-].
    + by intros [-> ->].
  - intros Hin Hid.
    set (promote := fun p => Auth.set_is_active true now (Auth.set_role "admin" now p)).
    simpl. rewrite Hid, String.eqb_refl. split; [done|].
    assert (Hown : forall p, Auth.reached (Some uid) table uid p = String.eqb (p_id p) uid).
    { intros p. unfold Auth.reached, Policies.profiles_select_using,
        Policies.profiles_update_using.
      destruct (String.eqb (p_id p) uid) eqn:Hp; [|done].
      apply String.eqb_eq in Hp. by rewrite Hp, String.eqb_refl. }
    unfold Auth.profiles_update.
    rewrite uuid_of_stored by (rewrite <- Hid; by apply in_map).
    rewrite (proj2 (forallb_forall _ _)); cycle 1.
    { intros p _. rewrite Hown. destruct (String.eqb (p_id p) uid) eqn:Hp; [|done].
      apply String.eqb_eq in Hp. simpl. by rewrite Hp, String.eqb_refl. }
    rewrite (proj2 (forallb_forall _ _)); cycle 1.
    { intros p _. apply orb_true_iff. by right. }
    eexists. split; [reflexivity|].
    unfold Policies.is_admin. apply existsb_exists.
    exists (promote row). split.
    + apply in_map_iff. exists row. by rewrite Hown, Hid, String.eqb_refl.
    + simpl. by rewrite Hid, String.eqb_refl.
Qed.

Lemma own_profile_policy_witness :
  Policies.is_admin Samples.people "carol" = false
  /\ Policies.profiles_update_allowed (Some "carol") Samples.people Samples.carol
       (Auth.set_is_active true Samples.now (Auth.set_role "admin" Samples.now Samples.carol))
     = true
  /\ exists table',
       Auth.profiles_update (Some "carol") None
         (fun p => Auth.set_is_active true Samples.now (Auth.set_role "admin" Samples.now p))
         "carol" Samples.people = (None, table')
       /\ Policies.is_admin table' "carol" = true.
Proof.
  split; [reflexivity|].
  apply (proj2 (proj2 (proj2 (own_profile_policy Samples.people "carol" Samples.carol
                                Samples.carol Samples.now)))).
  - right. right. by left.
  - reflexivity.
Defined.

(** ** The object of [GET /api/admin/settings] *)

Lemma GET_fold (rows : list Setting) (m0 : gmap string json) (c : Settings.Chain)
    (key : string) :
  List.NoDup (map s_key rows) -> m0 !! "__proto__" = None ->
  c = Settings.SetterOfObject \/ ~ In "__proto__" (map s_key rows) ->
  (fold_left (fun o setting => Settings.assign o (s_key setting) (s_value setting)) rows
             (m0, c)).1 !! key
  = if String.eqb key "__proto__" then None
    else match Settings.stored key rows with
         | Some v => Some v
         | None => m0 !! key
         end.
Proof.
  revert m0 c. induction rows as [|s l IH]; intros m0 c Hnd Hm0 Hc.
  - simpl. destruct (String.eqb key "__proto__") eqn:Hk; [|done].
    apply String.eqb_eq in Hk. by subst.
  - simpl. inversion Hnd as [|? ? Hs Hnd']; subst.
    unfold Settings.stored. simpl.
    destruct (String.eqb (s_key s) "__proto__") eqn:Hp.
    + apply String.eqb_eq in Hp.
      assert (Hno : ~ In "__proto__" (map s_key l)) by (by rewrite <- Hp).
      destruct Hc as [->|Hc]; [|exfalso; apply Hc; by left].
      assert (Hstep : exists c', Settings.assign (m0, Settings.SetterOfObject) (s_key s)
                                   (s_value s) = (m0, c')).
      { unfold Settings.assign. rewrite Hp. simpl. rewrite Hm0.
        rewrite bool_decide_eq_false_2 by (by intros [? ?]).
        destruct (s_value s); by eexists. }
      destruct Hstep as [c' ->]. rewrite (IH m0 c' Hnd' Hm0 (or_intror Hno)).
      destruct (String.eqb key "__proto__") eqn:Hk; [done|].
      assert (Hne : String.eqb (s_key s) key = false).
      { apply String.eqb_neq. intros <-. rewrite Hp in Hk. by rewrite String.eqb_refl in Hk. }
      by rewrite Hne.
    + assert (Hstep : Settings.assign (m0, c) (s_key s) (s_value s)
                      = (<[s_key s := s_value s]> m0, c)).
      { unfold Settings.assign. by rewrite Hp. }
      rewrite Hstep. apply String.eqb_neq in Hp.
      rewrite (IH (<[s_key s := s_value s]> m0) c Hnd').
      * destruct (String.eqb key "__proto__") eqn:Hk; [done|].
        destruct (String.eqb (s_key s) key) eqn:Hsk; simpl.
        -- apply String.eqb_eq in Hsk. subst key.
           assert (Hfind : List.find (fun x => String.eqb (s_key x) (s_key s)) l = None).
           { destruct (List.find _ l) as [x|] eqn:Hf; [|done].
             apply find_some in Hf as [Hx Hxs]. apply String.eqb_eq in Hxs.
             exfalso. apply Hs. rewrite <- Hxs. by apply in_map. }
           unfold Settings.stored. rewrite Hfind. simpl. apply lookup_insert_eq.
        -- apply String.eqb_neq in Hsk. unfold Settings.stored.
           destruct (List.find _ l); simpl; [done|]. by apply lookup_insert_ne.
      * by rewrite lookup_insert_ne.
      * destruct Hc as [->|Hc]; [by left|]. right. intros Hin. apply Hc. by right.
Qed.

(** The object GET answers with, on a table whose keys are distinct, as the
    primary key makes them.  A caller without a session gets the empty
    object.  A caller with one gets, under every key of the table other than
    [__proto__], the value stored under it, and nothing else: the row with
    the key [__proto__], if there is one, is not in the answer.  The order of
    the rows makes no difference. *)
Theorem settings_GET_object (caller : option uuid) (rows : list Setting) :
  List.NoDup (map s_key rows) ->
  exists m,
    Settings.GET caller None rows = Json (BSettings m) 200
    /\ (forall key,
          m !! key = match caller with
                     | None => None
                     | Some _ =>
                       if String.eqb key "__proto__" then None else Settings.stored key rows
                     end)
    /\ (forall rows', Permutation rows rows' ->
          Settings.GET caller None rows' = Settings.GET caller None rows).
Proof.
  intros Hnd.
  assert (Hget : forall l, List.NoDup (map s_key l) ->
            forall key,
              (fold_left (fun o setting => Settings.assign o (s_key setting) (s_value setting))
                         (Settings.select_all caller l)
                         ((∅ : gmap string json), Settings.SetterOfObject)).1 !! key
              = match caller with
                | None => None
                | Some _ =>
                  if String.eqb key "__proto__" then None else Settings.stored key l
                end).
  { intros l Hl key. destruct caller as [uid|].
    - rewrite select_all_authenticated.
      rewrite (GET_fold l ∅ Settings.SetterOfObject key Hl (lookup_empty _) (or_introl eq_refl)).
      destruct (String.eqb key "__proto__"); [done|].
      destruct (Settings.stored key l); [done|apply lookup_empty].
    - rewrite select_all_anonymous. simpl. apply lookup_empty. }
  eexists. split; [reflexivity|]. split; [by apply Hget|].
  intros rows' Hperm. unfold Settings.GET. f_equal. f_equal. apply map_eq. intros key.
  assert (Hnd' : List.NoDup (map s_key rows')).
  { apply NoDup_ListNoDup. rewrite <- Hperm. by apply NoDup_ListNoDup. }
  rewrite (Hget rows Hnd key), (Hget rows' Hnd' key).
  destruct caller; [|done]. destruct (String.eqb key "__proto__"); [done|].
  unfold Settings.stored.
  destruct (List.find (fun s => String.eqb (s_key s) key) rows) as [x|] eqn:Hx;
    destruct (List.find (fun s => String.eqb (s_key s) key) rows') as [y|] eqn:Hy;
    simpl; try done.
  - apply find_some in Hx as [Hx Hxk]. apply find_some in Hy as [Hy Hyk].
    apply String.eqb_eq in Hxk, Hyk.
    assert (Hy' : In y rows) by (apply list_elem_of_In; rewrite Hperm; by apply list_elem_of_In).
    f_equal. f_equal. clear -Hnd Hx Hy' Hxk Hyk. subst key.
    induction rows as [|r l IH]; [done|]. simpl in Hnd.
    inversion Hnd as [|? ? Hr Hl]; subst.
    destruct Hx as [->|Hx], Hy' as [->|Hy']; try done.
    + exfalso. apply Hr. rewrite <- Hyk. by apply in_map.
    + exfalso. apply Hr. rewrite Hyk. by apply in_map.
    + by apply IH.
  - apply find_some in Hx as [Hx Hxk].
    assert (Hx' : In x rows') by (apply list_elem_of_In; rewrite <- Hperm; by apply list_elem_of_In).
    pose proof (find_none _ _ Hy x Hx') as Hno. simpl in Hno. congruence.
  - apply find_some in Hy as [Hy Hyk].
    assert (Hy' : In y rows) by (apply list_elem_of_In; rewrite Hperm; by apply list_elem_of_In).
    pose proof (find_none _ _ Hx y Hy') as Hno. simpl in Hno. congruence.
Qed.

Lemma settings_GET_object_witness :
  exists m,
    Settings.GET (Some "bob") None Samples.seeded_with_proto = Json (BSettings m) 200
    /\ m !! "ai_provider" = Some (JObj [("provider", JStr "gemini")])
    /\ m !! "__proto__" = None.
Proof.
  destruct (settings_GET_object (Some "bob") Samples.seeded_with_proto) as (m & Hget & Hm & _).
  - apply NoDup_ListNoDup. by apply (bool_decide_unpack _).
  - exists m. split; [exact Hget|]. rewrite !Hm. split; reflexivity.
Defined.

(** ** Edits of the metadata of a chunk *)

(** Edits accumulate.  An edit removes no key of ai_metadata; after two
    edits a key other than last_updated holds the value of the second edit if
    that supplied it, else that of the first if that supplied it, else the
    value it had; last_updated holds the time of the second; and the same
    edit made again at the same reading of the clock changes nothing.  A
    metadata value that is a number or a boolean, which the handler lets
    through when it is truthy, supplies no key: only last_updated is written. *)
Theorem metadata_edits_accumulate (current : option (gmap string json))
    (m1 m2 : option json) (t1 t2 : string) (k : string) :
  let first := Metadata.updatedMetadata current m1 t1 in
  let second := Metadata.updatedMetadata (Some first) m2 t2 in
  (is_Some (default ∅ current !! k) -> is_Some (first !! k))
  /\ (k <> "last_updated" ->
      second !! k
      = match Metadata.spread m2 !! k with
        | Some v => Some v
        | None =>
          match Metadata.spread m1 !! k with
          | Some v => Some v
          | None => default ∅ current !! k
          end
        end)
  /\ second !! "last_updated" = Some (JStr t2)
  /\ Metadata.updatedMetadata (Some first) m1 t1 = first
  /\ ((exists n, m1 = Some (JNum n)) \/ (exists b, m1 = Some (JBool b)) ->
      first = <["last_updated" := JStr t1]> (default ∅ current)).
Proof.
  cbv zeta. split; [|split; [|split; [|split]]].
  - intros Hk. rewrite updatedMetadata_lookup.
    destruct (String.eqb k "last_updated"); [by eexists|].
    rewrite shallow_merge_lookup. by destruct (Metadata.spread m1 !! k); [eexists|].
  - intros Hk. apply String.eqb_neq in Hk.
    rewrite updatedMetadata_lookup, Hk, shallow_merge_lookup. simpl.
    by rewrite updatedMetadata_lookup, Hk, shallow_merge_lookup.
  - by rewrite updatedMetadata_lookup.
  - apply map_eq. intros i. rewrite !updatedMetadata_lookup.
    destruct (String.eqb i "last_updated") eqn:Hi; [done|].
    rewrite !shallow_merge_lookup. simpl.
    rewrite updatedMetadata_lookup, Hi, shallow_merge_lookup.
    by destruct (Metadata.spread m1 !! i).
  - intros H. unfold Metadata.updatedMetadata.
    assert (Hs : Metadata.spread m1 = ∅).
    { by destruct H as [[n ->]|[b ->]]. }
    rewrite Hs. f_equal. apply map_eq. intros i.
    by rewrite lookup_union, lookup_empty, (left_id None _).
Qed.

Lemma metadata_edits_accumulate_witness :
  let current : gmap string json := {["topic" := JStr "claims"]} in
  Metadata.updatedMetadata (Some current) (Some (JNum 5)) Samples.now
  = <["last_updated" := JStr Samples.now]> current
  /\ Metadata.updatedMetadata
       (Some (Metadata.updatedMetadata (Some current) (Some (JNum 5)) Samples.now))
       (Some (JObj [("topic", JStr "billing")])) Samples.now !! "topic"
     = Some (JStr "billing").
Proof.
  intros current.
  destruct (metadata_edits_accumulate (Some current) (Some (JNum 5))
              (Some (JObj [("topic", JStr "billing")])) Samples.now Samples.now "topic")
    as (_ & Hsecond & _ & _ & Hfirst).
  split.
  - apply Hfirst. left. by exists 5%Z.
  - rewrite Hsecond by discriminate. reflexivity.
Defined.

(** A string spreads by code unit, not by byte: the two bytes of U+00E9 are
    one property, and the four bytes of U+1F600 are two, a high and a low
    surrogate. *)
Example spread_string_runs :
  Js.code_units "aé" = ["a"; "é"]
  /\ Metadata.spread (Some (JStr "aé")) !! "1" = Some (JStr "é")
  /\ Metadata.spread (Some (JStr "aé")) !! "2" = None
  /\ Js.code_units "😀" = [Js.surrogate 55357; Js.surrogate 56832]
  /\ map String.length (Js.code_units "😀") = [3; 3]%nat.
Proof. repeat split; vm_compute; reflexivity. Qed.

(** ** What the two handlers refuse *)

(** [PUT /api/chunks/{id}/metadata] tests in this order: the session (401),
    the role (403), the body (500 when it cannot be read or is null), the
    metadata (400 when it is missing or falsy), the chunk (404, also when the
    read of the chunk fails for another reason), and answers 500 when the
    store refuses the update.  In each of these cases no chunk is changed;
    and whatever the answer, the chunks keep their ids and their order. *)
Theorem metadata_PUT_refusals (request : Metadata.Request) (profiles : list Profile)
    (chunks : list Chunk) (fetch_backend update_backend : option string)
    (now_metadata now_edited : string) :
  let result :=
    Metadata.PUT request profiles chunks fetch_backend update_backend now_metadata
      now_edited in
  (Metadata.session request = None ->
   result = (Json (BError "Unauthorized") 401, chunks))
  /\ (forall uid, Metadata.session request = Some uid ->
       (not_curator_or_admin (select_role profiles uid) = true ->
        result = (Json (BError "Insufficient permissions") 403, chunks))
       /\ (not_curator_or_admin (select_role profiles uid) = false ->
           (Metadata.json_body request = None \/ Metadata.json_body request = Some JNull ->
            result = (Json (BError "Internal server error") 500, chunks))
           /\ (forall body, Metadata.json_body request = Some body -> body <> JNull ->
                (Js.truthy (Js.member body "metadata") = false ->
                 result = (Json (BError "Metadata is required") 400, chunks))
                /\ (Js.truthy (Js.member body "metadata") = true ->
                    (forall e, fetch_backend = Some e ->
                       result = (Json (BError "Chunk not found") 404, chunks))
                    /\ (forall c e, fetch_backend = None ->
                          List.filter (fun c => String.eqb (c_id c) (Metadata.params_id request))
                                      chunks = [c] ->
                          update_backend = Some e ->
                          result = (Json (BError "Failed to update metadata") 500, chunks))))))
  /\ map c_id result.2 = map c_id chunks
  /\ In (status result.1) [200; 400; 401; 403; 404; 500]%nat.
Proof.
  cbv zeta. unfold Metadata.PUT.
  destruct (Metadata.session request) as [uid|]; [|simpl; intuition (auto; discriminate)].
  split; [done|].
  destruct (not_curator_or_admin (select_role profiles uid)) eqn:Hrole.
  { split; [|simpl; tauto]. intros ? [= <-]. split; [done|]. intros; congruence. }
  destruct (Metadata.json_body request) as [body|];
    [|split; [|simpl; tauto];
      intros ? [= <-]; split; [intros; congruence|]; intros _; split; [done|];
      by intros].
  assert (Hmap : forall set,
            map c_id (map (fun c => if String.eqb (c_id c) (Metadata.params_id request)
                                    then Metadata.set_metadata set uid now_edited c else c)
                          chunks)
            = map c_id chunks).
  { intros set. rewrite map_map. apply map_ext. intros c.
    by destruct (String.eqb (c_id c) (Metadata.params_id request)). }
  assert (Hcase : body = JNull \/ body <> JNull)
    by (destruct body; auto; right; discriminate).
  destruct Hcase as [->|Hnn].
  { split; [|simpl; tauto].
    intros ? [= <-]. split; [intros; congruence|]. intros _. split; [done|].
    by intros ? [= <-]. }
  replace (match body with
           | JNull => _
           | _ => _ end)
    with (if negb (Js.truthy (Js.member body "metadata"))
          then (Json (BError "Metadata is required") 400, chunks)
          else
            match Metadata.select_ai_metadata fetch_backend chunks
                    (Metadata.params_id request) with
            | None => (Json (BError "Chunk not found") 404, chunks)
            | Some current =>
              match Metadata.chunks_update update_backend
                      (Metadata.set_metadata
                         (Metadata.updatedMetadata current (Js.member body "metadata")
                            now_metadata) uid now_edited)
                      (Metadata.params_id request) chunks with
              | (Some _, chunks') =>
                (Json (BError "Failed to update metadata") 500, chunks')
              | (None, chunks') =>
                (Json (BMetadata "Metadata updated successfully"
                         (Metadata.updatedMetadata current (Js.member body "metadata")
                            now_metadata)) 200, chunks')
              end
            end)
    by (destruct body; done).
  split.
  - intros ? [= <-]. split; [intros; congruence|]. intros _. split.
    + by intros [?|[= ->]].
    + intros ? [= <-] _. split; [by intros ->|].
      intros ->. simpl. unfold Metadata.select_ai_metadata, Metadata.chunks_update. split.
      * by intros e ->.
      * by intros c e -> -> ->.
  - destruct (negb _); [simpl; tauto|].
    destruct (Metadata.select_ai_metadata _ _ _); [|simpl; tauto].
    unfold Metadata.chunks_update. destruct update_backend; simpl; [tauto|].
    split; [apply Hmap | tauto].
Qed.

Lemma metadata_PUT_refusals_witness :
  Metadata.PUT (Samples.edit_by "bob" "c1") Samples.people
    [Samples.chunk "c1" "d1" 0 "pending"] (Some "timeout") None Samples.now Samples.now
  = (Json (BError "Chunk not found") 404, [Samples.chunk "c1" "d1" 0 "pending"]).
Proof.
  destruct (metadata_PUT_refusals (Samples.edit_by "bob" "c1") Samples.people
              [Samples.chunk "c1" "d1" 0 "pending"] (Some "timeout") None Samples.now
              Samples.now) as (_ & H & _).
  destruct (H "bob" eq_refl) as [_ H2]. destruct (H2 eq_refl) as [_ H3].
  destruct (H3 (JObj [("metadata", JObj [("topic", JStr "billing")])]) eq_refl) as [_ H4];
    [discriminate|].
  exact (proj1 (H4 eq_refl) "timeout" eq_refl).
Defined.

(** [POST /api/documents/upload] tests the session (401), the role (403),
    the form (500 when it cannot be read) and the three required fields (400
    when the file is missing or the title or the document type is missing or
    empty), and answers 500 when the upload of the file fails.  In each of
    these cases, and whenever the answer is not 200, the table of documents is
    as it was. *)
Theorem upload_POST_refusals (request : Upload.Request) (profiles : list Profile)
    (documents : list Document) (upload_backend update_backend : option string)
    (new_id : uuid) (storage_path : string) :
  let result :=
    Upload.POST request profiles documents upload_backend update_backend new_id
      storage_path in
  (Upload.session request = None ->
   result = (Json (BError "Unauthorized") 401, documents, []))
  /\ (forall uid, Upload.session request = Some uid ->
       (not_curator_or_admin (select_role profiles uid) = true ->
        result = (Json (BError "Insufficient permissions") 403, documents, []))
       /\ (not_curator_or_admin (select_role profiles uid) = false ->
           (Upload.form_data request = None ->
            result.1 = (Json (BError "Internal server error") 500, documents))
           /\ (forall form, Upload.form_data request = Some form ->
                 (Upload.file form = None \/ Upload.title form = None
                  \/ Upload.title form = Some "" \/ Upload.documentType form = None
                  \/ Upload.documentType form = Some "" ->
                  result = (Json (BError "Missing required fields") 400, documents, []))
                 /\ (forall f t dt e,
                       Upload.file form = Some f ->
                       Upload.present (Upload.title form) = Some t ->
                       Upload.present (Upload.documentType form) = Some dt ->
                       Upload.uploadDocument upload_backend new_id storage_path uid f dt
                         documents = inl e ->
                       result.1 = (Json (BError "Internal server error") 500, documents)))))
  /\ (status result.1.1 <> 200%nat -> result.1.2 = documents).
Proof.
  cbv zeta. split; [|split].
  - unfold Upload.POST. by intros ->.
  - intros uid Hs. unfold Upload.POST. rewrite Hs. split; [by intros ->|].
    intros ->. split; [by intros ->|].
    intros form ->. split.
    + intros [->|[Ht|[Ht|[Hd|Hd]]]]; [done|..]; destruct (Upload.file form);
        rewrite ?Ht, ?Hd; simpl; try done;
        destruct (Upload.present (Upload.title form)); done.
    + by intros f t dt e -> -> -> ->.
  - destruct (POST_upload_cases request profiles documents upload_backend update_backend
                new_id storage_path) as [[Hsame _]|Hrun]; [done|].
    destruct Hrun as (uid & form & f & t & dt & documentId & documents1 & e
                      & _ & _ & _ & _ & _ & _ & _ & Hres).
    intros Hst. exfalso. apply Hst. by rewrite Hres.
Qed.

Lemma upload_POST_refusals_witness :
  Upload.POST
    (Upload.mkRequest (Some "bob")
       (Some (Upload.mkForm (Some (Upload.mkFile "guide.pdf" 1024 "application/pdf"))
                            (Some "") (Some "fhir") None)))
    Samples.people [] None None "d1" "documents/d1"
  = (Json (BError "Missing required fields") 400, [], []).
Proof.
  destruct (upload_POST_refusals
              (Upload.mkRequest (Some "bob")
                 (Some (Upload.mkForm (Some (Upload.mkFile "guide.pdf" 1024 "application/pdf"))
                                      (Some "") (Some "fhir") None)))
              Samples.people [] None None "d1" "documents/d1") as (_ & H & _).
  destruct (H "bob" eq_refl) as [_ H2]. destruct (H2 eq_refl) as [_ H3].
  apply (proj1 (H3 _ eq_refl)). right. right. by left.
Defined.

(** The title and the description of an upload are not stored.  Two uploads
    by one caller of the same file under the same document type, whatever
    their titles and descriptions and whatever the store answers to the
    update that carries them, are answered alike and leave the same table;
    and every upload answered 200 has logged that the update failed. *)
Theorem upload_POST_drops_title (request request' : Upload.Request)
    (profiles : list Profile) (documents : list Document)
    (upload_backend update_backend update_backend' : option string)
    (new_id : uuid) (storage_path : string) (form form' : Upload.Form) (t t' : string) :
  Upload.session request = Upload.session request' ->
  Upload.form_data request = Some form -> Upload.form_data request' = Some form' ->
  Upload.file form = Upload.file form' ->
  Upload.documentType form = Upload.documentType form' ->
  Upload.present (Upload.title form) = Some t ->
  Upload.present (Upload.title form') = Some t' ->
  (Upload.POST request profiles documents upload_backend update_backend new_id
     storage_path).1
  = (Upload.POST request' profiles documents upload_backend update_backend' new_id
       storage_path).1
  /\ (forall documentId documents' l,
        Upload.POST request profiles documents upload_backend update_backend new_id
          storage_path = (Json (BDocument documentId) 200, documents', l) ->
        exists e, l = [("Failed to update document metadata: " ++ e)%string]).
Proof.
  intros Hs Hf Hf' Hfile Hdt Ht Ht'. split.
  - unfold Upload.POST. rewrite <- Hs, Hf, Hf', <- Hfile, <- Hdt, Ht, Ht'.
    destruct (Upload.session request) as [uid|]; [|done].
    destruct (not_curator_or_admin _); [done|].
    destruct (Upload.file form) as [f|]; [|done].
    destruct (Upload.present (Upload.documentType form)) as [dt|]; [|done].
    destruct (Upload.uploadDocument _ _ _ _ _ _ _) as [|[documentId documents1]]; [done|].
    destruct (metadata_update_refused update_backend t dt (Upload.description form)
                documentId documents1) as [e ->].
    by destruct (metadata_update_refused update_backend' t' dt (Upload.description form')
                   documentId documents1) as [e' ->].
  - intros documentId documents' l Hres.
    destruct (POST_upload_cases request profiles documents upload_backend update_backend
                new_id storage_path) as [[_ Hno]|Hrun].
    + exfalso. apply (Hno documentId). by rewrite Hres.
    + destruct Hrun as (uid & form0 & f & t0 & dt & documentId0 & documents1 & e
                        & _ & _ & _ & _ & _ & _ & _ & Hrun).
      rewrite Hrun in Hres. injection Hres as _ _ <-. by exists e.
Qed.

Lemma upload_POST_drops_title_witness :
  (Upload.POST (Samples.upload_by "bob") Samples.people [] None None "d1" "documents/d1").1
  = (Upload.POST
       (Upload.mkRequest (Some "bob")
          (Some (Upload.mkForm (Some (Upload.mkFile "guide.pdf" 1024 "application/pdf"))
                               (Some "Another title") (Some "fhir") None)))
       Samples.people [] None (Some "unavailable") "d1" "documents/d1").1.
Proof.
  refine (proj1 (upload_POST_drops_title (Samples.upload_by "bob") _ Samples.people [] None
                   None (Some "unavailable") "d1" "documents/d1"
                   (Upload.mkForm (Some (Upload.mkFile "guide.pdf" 1024 "application/pdf"))
                                  (Some "Guide") (Some "fhir") (Some "A guide"))
                   (Upload.mkForm (Some (Upload.mkFile "guide.pdf" 1024 "application/pdf"))
                                  (Some "Another title") (Some "fhir") None)
                   "Guide" "Another title" _ _ _ _ _ _ _)); reflexivity.
Defined.

(** ** The review screen: [useCurator] *)

Lemma Qle_bool_whole (a b : Z) : Qle_bool (inject_Z a) (inject_Z b) = (a <=? b)%Z.
Proof. unfold Qle_bool. simpl. by rewrite !Z.mul_1_r. Qed.

Lemma lt_whole (a b : Z) : Curator.lt (inject_Z a) (inject_Z b) = (a <? b)%Z.
Proof. unfold Curator.lt. rewrite Qle_bool_whole. by rewrite Z.ltb_antisym. Qed.

Lemma Qred_whole (a : Z) : Qred (inject_Z a) = inject_Z a.
Proof.
  unfold Qred, inject_Z.
  pose proof (Z.ggcd_gcd a 1) as Hg. pose proof (Z.ggcd_correct_divisors a 1) as Hd.
  destruct (Z.ggcd a 1) as [g [aa bb]]. simpl in Hg. rewrite Z.gcd_1_r in Hg. subst g.
  destruct Hd as [Ha Hb]. rewrite !Z.mul_1_l in *. by subst.
Qed.

Lemma Qred_plus_whole (a b : Z) : Qred (inject_Z a + inject_Z b) = inject_Z (a + b).
Proof. rewrite <- inject_Z_plus. apply Qred_whole. Qed.

Lemma Qred_minus_whole (a b : Z) : Qred (inject_Z a - inject_Z b) = inject_Z (a - b).
Proof. unfold Qminus. rewrite <- inject_Z_opp, <- inject_Z_plus. apply Qred_whole. Qed.

Section Navigation.

Context {A : Type}.

(** The rounding of the machine is exact on the whole numbers up to 2^53. *)
Variable round : Q -> Q.
Hypothesis round_whole :
  forall z : Z, (Z.abs z <= 9007199254740992)%Z -> round (inject_Z z) = inject_Z z.

Lemma len_nonneg (st : Curator.State A) : (0 <= Curator.len st)%Z.
Proof. unfold Curator.len. lia. Qed.

Lemma currentChunk_whole (chunks : list A) (i : Z) (stats : Curator.DocumentStats) :
  Curator.currentChunk (Curator.mkState chunks (inject_Z i) stats)
  = if (0 <=? i)%Z then nth_error chunks (Z.to_nat i) else None.
Proof. unfold Curator.currentChunk. simpl. by rewrite Qred_whole. Qed.

(** The index stays on a chunk, for actions of the render that shows the
    state.  Take a list of fewer than 2^32 chunks and an index that is a whole
    number, at least 0 and at most the last position (0 for an empty list).
    Loading a document puts the index at 0.  A step forward adds 1 unless the
    index is the last position, a step back subtracts 1 unless it is 0, and a
    jump to a whole number sets the index if the number is a position of the
    list and does nothing otherwise; none of the three changes the chunks or
    the statistics.  A jump to NaN or to an infinity does nothing; a jump to
    a number between two positions is stored, and then there is no current
    chunk.  A refresh whose test saw the index k sets the index to the last
    position of the new list (0 for an empty one) if k is past its end, and
    leaves it otherwise: when the render it was made in shows the state, the
    index ends on a chunk of the new list.  There is a current chunk exactly
    when the list is not empty.  Unloading the document empties the list and
    keeps the index. *)
Theorem curator_navigation (st seen : Curator.State A) (i k : Z) (chunksData : list A)
    (statsData : Curator.DocumentStats) :
  Curator.currentChunkIndex st = inject_Z i ->
  Curator.currentChunkIndex seen = inject_Z k ->
  (Curator.len st < 4294967296)%Z ->
  (0 <= i <= Z.max 0 (Curator.len st - 1))%Z ->
  let new_len := Z.of_nat (length chunksData) in
  Curator.loadData chunksData statsData st = Curator.mkState chunksData 0 statsData
  /\ Curator.nextChunk round st st
     = Curator.mkState (Curator.chunks st)
         (inject_Z (if (i <? Curator.len st - 1)%Z then i + 1 else i)) (Curator.stats st)
  /\ Curator.previousChunk round st st
     = Curator.mkState (Curator.chunks st) (inject_Z (if (0 <? i)%Z then i - 1 else i))
         (Curator.stats st)
  /\ (forall j : Z,
        Curator.goToChunk st (Curator.Finite (inject_Z j)) st
        = Curator.mkState (Curator.chunks st)
            (inject_Z (if (0 <=? j)%Z && (j <? Curator.len st)%Z then j else i))
            (Curator.stats st))
  /\ (forall q : Q,
        (0 <= q)%Q -> (q < inject_Z (Curator.len st))%Q -> Qden (Qred q) <> 1%positive ->
        Curator.goToChunk st (Curator.Finite q) st
        = Curator.mkState (Curator.chunks st) q (Curator.stats st)
        /\ Curator.currentChunk (Curator.goToChunk st (Curator.Finite q) st) = None)
  /\ (forall b, Curator.goToChunk st Curator.NotANumber st = st
                /\ Curator.goToChunk st (Curator.Infinity b) st = st)
  /\ Curator.refreshChunks seen chunksData statsData st
     = Curator.mkState chunksData
         (inject_Z (if (new_len <=? k)%Z then Z.max 0 (new_len - 1) else i)) statsData
  /\ (0 <= (if (new_len <=? i)%Z then Z.max 0 (new_len - 1) else i)
      <= Z.max 0 (new_len - 1))%Z
  /\ (Curator.currentChunk st = None <-> Curator.isEmpty st = true)
  /\ Curator.isEmpty (Curator.unload st) = true
  /\ Curator.currentChunk (Curator.unload st) = None
  /\ Curator.hasPrevious (Curator.unload st) = Curator.hasPrevious st.
Proof.
  intros Hi Hk Hlen Hok. cbv zeta. pose proof (len_nonneg st) as Hpos.
  destruct st as [chunks q stats]. destruct seen as [chunks0 q0 stats0].
  unfold Curator.len in *. simpl in *. subst q q0.
  split; [done|].
  split.
  { unfold Curator.nextChunk, Curator.len. simpl. rewrite lt_whole.
    destruct (Z.ltb_spec i (Z.of_nat (length chunks) - 1)); [|done].
    change (inject_Z i + 1)%Q with (inject_Z i + inject_Z 1)%Q.
    rewrite (Qred_plus_whole i 1), round_whole by lia. done. }
  split.
  { unfold Curator.previousChunk. simpl.
    change (Curator.lt 0 (inject_Z i)) with (Curator.lt (inject_Z 0) (inject_Z i)).
    rewrite (lt_whole 0 i).
    destruct (Z.ltb_spec 0 i); [|done].
    change (inject_Z i - 1)%Q with (inject_Z i - inject_Z 1)%Q.
    rewrite (Qred_minus_whole i 1), round_whole by lia. done. }
  split.
  { intros j. unfold Curator.goToChunk, Curator.len. simpl.
    change (Qle_bool 0 (inject_Z j)) with (Qle_bool (inject_Z 0) (inject_Z j)).
    rewrite (Qle_bool_whole 0 j), lt_whole. by destruct (_ && _). }
  split.
  { intros q Hq0 Hq1 Hfrac. unfold Curator.goToChunk, Curator.len. simpl.
    assert (H0 : Qle_bool 0 q = true) by (by apply Qle_bool_iff).
    assert (H1 : Curator.lt q (inject_Z (Z.of_nat (length chunks))) = true).
    { unfold Curator.lt. apply negb_true_iff. apply not_true_is_false. intros Hle.
      apply Qle_bool_iff in Hle. by apply (Qlt_not_le _ _ Hq1). }
    rewrite H0, H1. simpl. split; [done|].
    unfold Curator.currentChunk. cbn [Curator.currentChunkIndex Curator.chunks].
    by rewrite (proj2 (Pos.eqb_neq _ _) Hfrac). }
  split; [done|].
  split.
  { unfold Curator.refreshChunks. simpl. rewrite Qle_bool_whole.
    by destruct (_ <=? k)%Z. }
  split; [destruct (Z.leb_spec (Z.of_nat (length chunksData)) i); lia|].
  split.
  { rewrite currentChunk_whole. unfold Curator.isEmpty, Curator.len. simpl.
    destruct (Z.leb_spec 0 i); [|lia]. split.
    - intros Hnone. apply nth_error_None in Hnone. apply Z.eqb_eq. lia.
    - intros Hempty. apply Z.eqb_eq in Hempty. apply nth_error_None. lia. }
  split; [done|]. split; [|done].
  unfold Curator.unload. cbn [Curator.currentChunkIndex]. rewrite currentChunk_whole.
  destruct (0 <=? i)%Z; [|done]. by destruct (Z.to_nat i).
Qed.

End Navigation.

Lemma curator_navigation_witness :
  let st := Curator.mkState ["c1"; "c2"; "c3"] 2 (Curator.mkStats 3 1 1 1 0) in
  Curator.refreshChunks st ["c1"; "c2"] (Curator.mkStats 2 1 1 0 0) st
  = Curator.mkState ["c1"; "c2"] 1 (Curator.mkStats 2 1 1 0 0)
  /\ Curator.nextChunk (fun q => q) st st = st
  /\ Curator.previousChunk (fun q => q) st st
     = Curator.mkState ["c1"; "c2"; "c3"] 1 (Curator.mkStats 3 1 1 1 0).
Proof.
  intros st.
  destruct (curator_navigation (fun q => q) (fun z _ => eq_refl) st st 2 2 ["c1"; "c2"]
              (Curator.mkStats 2 1 1 0 0) eq_refl eq_refl)
    as (_ & Hnext & Hback & _ & _ & _ & Hrefresh & _).
  - reflexivity.
  - vm_compute. split; discriminate.
  - split; [exact Hrefresh|]. split; [exact Hnext|exact Hback].
Defined.

(** The closures, run on the review of three chunks.  A jump to 1.5 is
    stored and leaves the screen without a current chunk.  A refresh that
    was started at the first chunk and returns two chunks after the reviewer
    has moved to the third leaves the index on the third position: its test
    read the index of the render that started it, and there is no current
    chunk though the list is not empty. *)
Example curator_closures_run :
  let stats := Curator.mkStats 3 1 1 1 0 in
  let started := Curator.mkState ["c1"; "c2"; "c3"] 0 stats in
  let moved := Curator.mkState ["c1"; "c2"; "c3"] 2 stats in
  Curator.currentChunk (Curator.goToChunk started (Curator.Finite (3 # 2)) started) = None
  /\ Curator.currentChunk moved = Some "c3"
  /\ Curator.refreshChunks started ["c1"; "c2"] stats moved
     = Curator.mkState ["c1"; "c2"] 2 stats
  /\ Curator.currentChunk (Curator.refreshChunks started ["c1"; "c2"] stats moved) = None
  /\ Curator.isEmpty (Curator.refreshChunks started ["c1"; "c2"] stats moved) = false.
Proof. cbv zeta. repeat split. Qed.

Lemma progress_value {A : Type} (st : Curator.State A) :
  (0 < Curator.total (Curator.stats st))%Z ->
  (Curator.progress st * inject_Z (Curator.total (Curator.stats st))
   == inject_Z (Curator.approved (Curator.stats st) + Curator.rejected (Curator.stats st)))%Q.
Proof.
  intros Ht. unfold Curator.progress. rewrite (proj2 (Z.ltb_lt _ _) Ht).
  rewrite Qmult_comm. apply Qmult_div_r. intros H. unfold Qeq in H. simpl in H. lia.
Qed.

(** The progress shown is the share of the chunks that are approved or
    rejected.  With counters that are not negative and add up to at most the
    total it lies between 0 and 1; for a document with chunks it is 1 exactly
    when approved and rejected add up to the total; without chunks it is 0 and
    the review is not complete.  When the total is the sum of the four
    counters, a review that is complete (nothing pending) shows a progress of
    1 exactly when no chunk was filtered. *)
Theorem curator_progress {A : Type} (st : Curator.State A) :
  let s := Curator.stats st in
  ((0 <= Curator.approved s)%Z -> (0 <= Curator.rejected s)%Z ->
   (Curator.approved s + Curator.rejected s <= Curator.total s)%Z ->
   (0 <= Curator.progress st <= 1)%Q)
  /\ ((0 < Curator.total s)%Z ->
      ((Curator.progress st == 1)%Q
       <-> (Curator.approved s + Curator.rejected s = Curator.total s)%Z))
  /\ ((Curator.total s <= 0)%Z ->
      Curator.progress st = 0%Q /\ Curator.isComplete st = false)
  /\ ((Curator.total s
       = Curator.approved s + Curator.rejected s + Curator.pending s + Curator.filtered s)%Z ->
      Curator.isComplete st = true ->
      ((Curator.progress st == 1)%Q <-> Curator.filtered s = 0%Z)).
Proof.
  cbv zeta.
  assert (Hone : (0 < Curator.total (Curator.stats st))%Z ->
            ((Curator.progress st == 1)%Q
             <-> (Curator.approved (Curator.stats st) + Curator.rejected (Curator.stats st)
                  = Curator.total (Curator.stats st))%Z)).
  { intros Ht. pose proof (progress_value st Ht) as Hv. split.
    - intros H1. rewrite H1, Qmult_1_l in Hv. unfold Qeq in Hv. simpl in Hv. lia.
    - intros Heq. rewrite Heq in Hv.
      apply (Qmult_inj_r _ _ (inject_Z (Curator.total (Curator.stats st)))).
      + intros H. unfold Qeq in H. simpl in H. lia.
      + by rewrite Qmult_1_l. }
  split; [|split; [exact Hone|split]].
  - intros Ha Hr Hle. unfold Curator.progress.
    destruct (Z.ltb_spec 0 (Curator.total (Curator.stats st))) as [Ht|Ht]; [|done].
    assert (Hpos : (0 < inject_Z (Curator.total (Curator.stats st)))%Q)
      by (unfold Qlt; simpl; lia).
    split.
    + apply Qle_shift_div_l; [done|]. unfold Qle. simpl. lia.
    + apply Qle_shift_div_r; [done|]. unfold Qle. simpl. lia.
  - intros Ht. unfold Curator.progress, Curator.isComplete.
    destruct (Z.ltb_spec 0 (Curator.total (Curator.stats st))); [lia|].
    by rewrite andb_false_r.
  - intros Hsum Hc. unfold Curator.isComplete in Hc.
    apply andb_true_iff in Hc as [Hp Ht]. apply Z.eqb_eq in Hp. apply Z.ltb_lt in Ht.
    rewrite (Hone Ht). lia.
Qed.

Lemma curator_progress_witness :
  let st := Curator.mkState ["c1"; "c2"; "c3"; "c4"] 0 (Curator.mkStats 4 2 1 0 1) in
  Curator.isComplete st = true
  /\ (0 <= Curator.progress st <= 1)%Q
  /\ ~ (Curator.progress st == 1)%Q.
Proof.
  intros st. destruct (curator_progress st) as (Hrange & _ & _ & Hfiltered).
  split; [reflexivity|]. split.
  - apply Hrange; simpl; lia.
  - intros H. apply Hfiltered in H; [discriminate | reflexivity | reflexivity].
Defined.

(** ** The statistics of the admin page *)

Lemma by_status_step (acc : gmap string Z) (rows : list Stats.Row) (s : string) :
  default 0%Z
    (fold_left (fun acc doc =>
                  <[Stats.r_status doc := (default 0 (acc !! Stats.r_status doc) + 1)%Z]> acc)
               rows acc !! s)
  = (default 0 (acc !! s)
     + Z.of_nat (length (List.filter (fun r => String.eqb (Stats.r_status r) s) rows)))%Z.
Proof.
  revert acc. induction rows as [|r rows IH]; intros acc; simpl; [lia|].
  rewrite IH. destruct (String.eqb (Stats.r_status r) s) eqn:Hr.
  - apply String.eqb_eq in Hr as ->. rewrite lookup_insert_eq. simpl length. simpl default. lia.
  - apply String.eqb_neq in Hr. by rewrite lookup_insert_ne.
Qed.

Lemma by_status_positive (acc : gmap string Z) (rows : list Stats.Row) (s : string) (n : Z) :
  (forall k v, acc !! k = Some v -> (0 < v)%Z) ->
  fold_left (fun acc doc =>
               <[Stats.r_status doc := (default 0 (acc !! Stats.r_status doc) + 1)%Z]> acc)
            rows acc !! s = Some n ->
  (0 < n)%Z.
Proof.
  revert acc. induction rows as [|r rows IH]; intros acc Hacc; simpl; [by apply Hacc|].
  apply IH. intros k v. destruct (decide (k = Stats.r_status r)) as [->|Hk].
  - rewrite lookup_insert_eq. intros [= <-].
    destruct (acc !! Stats.r_status r) as [w|] eqn:Hw; simpl; [|lia].
    specialize (Hacc _ _ Hw). lia.
  - rewrite lookup_insert_ne by done. apply Hacc.
Qed.

Lemma by_status_sum (acc : gmap string Z) (rows : list Stats.Row) :
  map_fold (fun _ n total => (n + total)%Z) 0%Z
    (fold_left (fun acc doc =>
                  <[Stats.r_status doc := (default 0 (acc !! Stats.r_status doc) + 1)%Z]> acc)
               rows acc)
  = (map_fold (fun _ n total => (n + total)%Z) 0%Z acc + Z.of_nat (length rows))%Z.
Proof.
  revert acc. induction rows as [|r rows IH]; intros acc; simpl fold_left; [simpl; lia|].
  rewrite IH. simpl length.
  assert (Hcomm : forall (m : gmap string Z) (j1 j2 : string) (z1 z2 y : Z),
            j1 <> j2 -> m !! j1 = Some z1 -> m !! j2 = Some z2 ->
            (z1 + (z2 + y) = z2 + (z1 + y))%Z) by (intros; lia).
  destruct (acc !! Stats.r_status r) as [v|] eqn:Hv; simpl default.
  - rewrite <- insert_delete_eq.
    rewrite map_fold_insert_L; [|apply Hcomm|by rewrite lookup_delete_eq].
    rewrite (map_fold_delete_L _ _ (Stats.r_status r) v acc); [lia|apply Hcomm|done].
  - rewrite map_fold_insert_L; [lia|apply Hcomm|done].
Qed.

(** The two histograms count.  When the read of the documents answers, the
    total is the number of rows, the histogram holds under each status the
    number of rows of that status and holds no entry for a status without
    rows, and its entries add up to the total; the same for the chunks.  A
    read that fails counts as no rows: the total is 0 and the histogram is
    empty. *)
Theorem getSystemStats_counts (documents chunks : option (list Stats.Row))
    (vectors : option (list uuid)) :
  let st := Stats.getSystemStats documents chunks vectors in
  let rows_of (data : option (list Stats.Row)) := default [] data in
  let counts (data : option (list Stats.Row)) (total : Z) (histogram : gmap string Z) :=
    total = Z.of_nat (length (rows_of data))
    /\ (forall s,
          default 0%Z (histogram !! s)
          = Z.of_nat (length (List.filter (fun r => String.eqb (Stats.r_status r) s)
                                          (rows_of data))))
    /\ (forall s, histogram !! s = None
                  <-> forall r, In r (rows_of data) -> Stats.r_status r <> s)
    /\ map_fold (fun _ n total => (n + total)%Z) 0%Z histogram = total in
  counts documents (Stats.totalDocuments st) (Stats.documentsByStatus st)
  /\ counts chunks (Stats.totalChunks st) (Stats.chunksByStatus st)
  /\ Stats.totalVectors st = Z.of_nat (length (default [] vectors)).
Proof.
  cbv zeta.
  assert (H : forall data : option (list Stats.Row),
            Stats.count data = Z.of_nat (length (default [] data))
            /\ (forall s,
                  default 0%Z (Stats.histogram data !! s)
                  = Z.of_nat (length (List.filter (fun r => String.eqb (Stats.r_status r) s)
                                                  (default [] data))))
            /\ (forall s, Stats.histogram data !! s = None
                          <-> forall r, In r (default [] data) -> Stats.r_status r <> s)
            /\ map_fold (fun _ n total => (n + total)%Z) 0%Z (Stats.histogram data)
               = Stats.count data).
  { intros [rows|]; simpl.
    - assert (Hcount : forall s,
                default 0%Z (Stats.by_status rows !! s)
                = Z.of_nat (length (List.filter (fun r => String.eqb (Stats.r_status r) s)
                                                rows))).
      { intros s. unfold Stats.by_status. rewrite by_status_step, lookup_empty. simpl. lia. }
      split; [done|]. split; [exact Hcount|]. split.
      + intros s. specialize (Hcount s). split.
        * intros Hnone r Hr Hs. rewrite Hnone in Hcount. simpl in Hcount.
          assert (Hin : In r (List.filter (fun r => String.eqb (Stats.r_status r) s) rows))
            by (apply filter_In; split; [done|by apply String.eqb_eq]).
          destruct (List.filter _ rows); [done|]. simpl in Hcount. lia.
        * intros Hno. rewrite filter_none_In in Hcount
            by (intros r Hr; apply String.eqb_neq; by apply Hno).
          destruct (Stats.by_status rows !! s) as [n|] eqn:Hn; [|done].
          apply by_status_positive in Hn; [simpl in Hcount; lia|].
          intros k v. by rewrite lookup_empty.
      + unfold Stats.by_status. rewrite by_status_sum, map_fold_empty. lia.
    - split; [done|]. split; [intros s; by rewrite lookup_empty|]. split.
      + intros s. rewrite lookup_empty. split; [by intros _ r []|done].
      + by rewrite map_fold_empty. }
  split; [apply H|]. split; [apply H|]. by destruct vectors.
Qed.

(** ** The client's provider: [fetchProfile] and [signIn] *)

Section ClientProfile.

Variable json_text : json -> string.

Lemma single_filter_id (profiles : list Profile) (userId : uuid) (p : Profile) :
  single (List.filter (fun p => String.eqb (p_id p) userId) profiles) = Some p ->
  In p profiles /\ p_id p = userId.
Proof.
  intros H. apply single_Some in H.
  assert (Hin : In p (List.filter (fun p => String.eqb (p_id p) userId) profiles))
    by (rewrite H; by left).
  apply filter_In in Hin as [Hin Hid]. by apply String.eqb_eq in Hid.
Qed.

Lemma fetchProfile_cases (select_backend insert_backend : option Client.StoreError)
    (auth_user : option Client.User) (now : string) (profiles : list Profile)
    (userId : uuid) :
  let r := Client.fetchProfile json_text select_backend insert_backend auth_user now
             profiles userId in
  (r.2 = profiles /\ (r.1 = None \/ exists p, r.1 = Some p /\ In p profiles /\ p_id p = userId))
  \/ exists user row,
       auth_user = Some user /\ Client.user_id user = userId
       /\ row = mkProfile userId (Client.email_of user)
                  (Some (Client.text_of json_text (Client.full_name_of user)))
                  (Some "user") (Some true) now now
       /\ existsb (fun p => String.eqb (p_id p) userId) profiles = false
       /\ (select_backend <> None
           \/ single (List.filter (fun p => String.eqb (p_id p) userId) profiles) = None)
       /\ r = (Some row, (profiles ++ [row])%list).
Proof.
  cbv zeta. unfold Client.fetchProfile.
  destruct (Client.select_profile select_backend profiles userId) as [error|data] eqn:Hsel.
  - assert (Hwhy : select_backend <> None
                   \/ single (List.filter (fun p => String.eqb (p_id p) userId) profiles)
                      = None).
    { unfold Client.select_profile in Hsel. destruct select_backend; [by left|].
      right. by destruct (single _). }
    destruct (_ || _); [|left; by split; [|left]].
    destruct auth_user as [user|]; [|left; by split; [|left]].
    destruct (String.eqb (Client.user_id user) userId) eqn:Hid; [|left; by split; [|left]].
    apply String.eqb_eq in Hid. unfold Client.insert_profile.
    destruct insert_backend; [left; by split; [|left]|].
    simpl p_id. rewrite Hid.
    destruct (existsb (fun p => String.eqb (p_id p) userId) profiles) eqn:Hex;
      [rewrite orb_true_r; left; by split; [|left]|].
    rewrite orb_false_r. simpl negb. cbv iota.
    right. exists user, (mkProfile userId (Client.email_of user)
                           (Some (Client.text_of json_text (Client.full_name_of user)))
                           (Some "user") (Some true) now now).
    by repeat split.
  - left. split; [done|]. right. exists data. split; [done|].
    unfold Client.select_profile in Hsel. destruct select_backend; [done|].
    destruct (single _) as [p|] eqn:Hp; [|done]. injection Hsel as <-.
    by apply single_filter_id.
Qed.

(** [fetchProfile] creates at most the caller's own profile, as a plain
    user.  The table afterwards is the table before, followed by at most one
    row; that row is returned, has the id asked for, role 'user' and is_active
    true, and is added only when no row has that id and the signed-in user is
    the one asked for; so the primary key stays unique and no existing row is
    changed.  A profile that is returned is a row of the table with the id
    asked for; when the table holds the row and the read answers, that row is
    returned and nothing is written; when the read fails for a reason other
    than a missing row, nothing is returned and nothing is written. *)
Theorem fetchProfile_effect (select_backend insert_backend : option Client.StoreError)
    (auth_user : option Client.User) (now : string) (profiles : list Profile)
    (userId : uuid) :
  let r := Client.fetchProfile json_text select_backend insert_backend auth_user now
             profiles userId in
  (exists added,
     r.2 = (profiles ++ added)%list /\ (length added <= 1)%nat
     /\ Forall (fun row => r.1 = Some row /\ p_id row = userId /\ p_role row = Some "user"
                           /\ p_is_active row = Some true
                           /\ (forall p, In p profiles -> p_id p <> userId)
                           /\ exists user, auth_user = Some user
                                           /\ Client.user_id user = userId) added)
  /\ (forall p, r.1 = Some p -> In p r.2 /\ p_id p = userId)
  /\ (List.NoDup (map p_id profiles) -> List.NoDup (map p_id r.2))
  /\ (forall p, select_backend = None ->
        single (List.filter (fun p => String.eqb (p_id p) userId) profiles) = Some p ->
        r = (Some p, profiles))
  /\ (forall e, select_backend = Some e ->
        String.eqb (Client.code e) "PGRST116" = false ->
        Client.contains "No rows found" (Client.message e) = false ->
        r = (None, profiles)).
Proof.
  cbv zeta.
  destruct (fetchProfile_cases select_backend insert_backend auth_user now profiles userId)
    as [[Hsame Hret]|(user & row & Hu & Hid & Hrow & Hex & Hwhy & Hr)].
  all: split; [|split; [|split; [|split]]].
  - exists []. rewrite Hsame, app_nil_r. repeat split; [simpl; lia|constructor].
  - intros p Hp. rewrite Hsame. destruct Hret as [Hn|(q & Hq & Hin & Hqid)]; [congruence|].
    rewrite Hq in Hp. by injection Hp as <-.
  - by rewrite Hsame.
  - intros p -> Hp. unfold Client.fetchProfile, Client.select_profile. by rewrite Hp.
  - intros e -> Hc Hm. unfold Client.fetchProfile, Client.select_profile.
    by rewrite Hc, Hm.
  - exists [row]. rewrite Hr. split; [done|]. split; [simpl; lia|].
    constructor; [|constructor]. rewrite Hrow. simpl. repeat split; try done.
    + intros p Hp Hpid.
      assert (Ht : existsb (fun p => String.eqb (p_id p) userId) profiles = true)
        by (apply existsb_exists; exists p; split; [done|by apply String.eqb_eq]).
      congruence.
    + by exists user.
  - intros p. rewrite Hr. simpl. intros [= <-]. split.
    + apply in_or_app. right. by left.
    + by rewrite Hrow.
  - intros Hnd. rewrite Hr. simpl. rewrite map_app. apply NoDup_ListNoDup.
    apply NoDup_ListNoDup in Hnd. apply (proj2 (NoDup_app _ _)).
    split; [done|]. split; [|apply NoDup_singleton].
    intros x Hx Hin. apply list_elem_of_singleton in Hin as ->.
    rewrite Hrow in Hx. simpl in Hx. by apply (existsb_false_not_in _ _ Hex).
  - intros p -> Hp. destruct Hwhy as [?|Hnone]; [done|]. congruence.
  - intros e He Hc Hm. exfalso. revert Hr.
    unfold Client.fetchProfile, Client.select_profile. rewrite He, Hc, Hm. simpl.
    intros [= ? _]. 
Qed.


End ClientProfile.

Section ProfileOrigins.

Variable json_text : json -> string.

Lemma existsb_false_filter {A : Type} (f : A -> bool) (l : list A) :
  existsb f l = false -> List.filter f l = [].
Proof.
  induction l as [|x l IH]; simpl; [done|].
  intros H. apply orb_false_iff in H as [-> Hl]. by apply IH.
Qed.

Lemma truthy_text (v : json) :
  Js.truthy (Some v) = true ->
  match v with
  | JNull => None
  | JStr s => Some s
  | _ => Some (json_text v)
  end = Some (Client.text_of json_text v).
Proof. by destruct v. Qed.

Lemma full_name_agree (id : uuid) (email : option string) (m : option (gmap string json)) :
  (forall key v, In key ["full_name"; "name"] -> m ≫= (fun o => o !! key) = Some v ->
                 v = JNull \/ Js.truthy (Some v) = true) ->
  NewUser.coalesce [NewUser.get_text json_text m "full_name";
                    NewUser.get_text json_text m "name"; Some ""]
  = Some (Client.text_of json_text (Client.full_name_of (Client.mkUser id email m))).
Proof.
  intros Hok. rewrite coalesce_full_name. f_equal.
  unfold NewUser.get_text, Client.full_name_of, Client.or_else.
  destruct m as [m|]; [|done].
  assert (Ha : forall v, m !! "full_name" = Some v -> v = JNull \/ Js.truthy (Some v) = true)
    by (intros v Hv; apply (Hok "full_name"); [by left | exact Hv]).
  assert (Hb : forall v, m !! "name" = Some v -> v = JNull \/ Js.truthy (Some v) = true)
    by (intros v Hv; apply (Hok "name"); [right; by left | exact Hv]).
  cbn [Client.user_metadata mbind option_bind].
  assert (Hname : match match m !! "name" with
                        | Some JNull | None => None
                        | Some (JStr s) => Some s
                        | Some v => Some (json_text v)
                        end with
                  | Some n => n
                  | None => ""
                  end
                  = Client.text_of json_text
                      (default (JStr "")
                         (if Js.truthy (m !! "name") then m !! "name" else Some (JStr "")))).
  { destruct (m !! "name") as [vb|]; [|done].
    destruct (Hb vb eq_refl) as [->|Hvb]; [done|].
    rewrite Hvb. replace (match vb with JNull => None | JStr s => Some s
                                   | _ => Some (json_text vb) end)
      with (Some (Client.text_of json_text vb)); [done|].
    symmetry. exact (truthy_text vb Hvb). }
  destruct (m !! "full_name") as [va|]; [|exact Hname].
  destruct (Ha va eq_refl) as [->|Hva]; [exact Hname|].
  rewrite Hva, Hva.
  replace (match va with JNull => None | JStr s => Some s | _ => Some (json_text va) end)
    with (Some (Client.text_of json_text va)); [done|].
  symmetry. exact (truthy_text va Hva).
Qed.

(** A profile comes from the trigger [handle_new_user] or, when the client
    finds none, from [fetchProfile].  For a user without a profile and with
    stores that answer, the client adds one row.  When the user has an e-mail
    address and each of the members full_name and name of the metadata is
    absent, null or truthy, the trigger adds the same row.  The two differ
    otherwise: for a user without an e-mail address the trigger adds nothing
    and the client adds a row with the empty address; and for a full_name that
    is the empty string beside a name that is not, the trigger stores the
    empty string and the client the name. *)
Theorem client_and_trigger_rows (user : Client.User) (now : string)
    (profiles : list Profile) (lg : list string) :
  let NEW := NewUser.mkAuthUser (Client.user_id user) (Client.user_email user)
                                (Client.user_metadata user) in
  let client_row :=
    mkProfile (Client.user_id user) (Client.email_of user)
              (Some (Client.text_of json_text (Client.full_name_of user)))
              (Some "user") (Some true) now now in
  let member key := Client.user_metadata user ≫= (fun o => o !! key) in
  existsb (fun p => String.eqb (p_id p) (Client.user_id user)) profiles = false ->
  exists st',
    NewUser.handle_new_user json_text None now NEW (NewUser.mkState profiles lg)
    = inr (NEW, st')
    /\ Client.fetchProfile json_text None None (Some user) now profiles (Client.user_id user)
       = (Some client_row, (profiles ++ [client_row])%list)
    /\ (Client.user_email user <> None ->
        (forall key v, In key ["full_name"; "name"] -> member key = Some v ->
                       v = JNull \/ Js.truthy (Some v) = true) ->
        NewUser.profiles st' = (profiles ++ [client_row])%list)
    /\ (Client.user_email user = None ->
        NewUser.profiles st' = profiles /\ p_email client_row = "")
    /\ (forall email n,
          Client.user_email user = Some email ->
          member "full_name" = Some (JStr "") -> member "name" = Some (JStr n) -> n <> "" ->
          exists row, NewUser.profiles st' = (profiles ++ [row])%list
                      /\ p_full_name row = Some ""
                      /\ p_full_name client_row = Some n).
Proof.
  cbv zeta. intros Hex.
  destruct (handle_new_user_step json_text now
              (NewUser.mkAuthUser (Client.user_id user) (Client.user_email user)
                 (Client.user_metadata user)) profiles lg) as [lg' Hrun].
  rewrite Hrun. eexists. split; [reflexivity|]. simpl NewUser.profiles.
  unfold Backfill.new_row. simpl NewUser.u_email. simpl NewUser.u_id.
  simpl NewUser.u_raw_user_meta_data. rewrite Hex.
  split; [|split; [|split]].
  - unfold Client.fetchProfile, Client.select_profile, Client.insert_profile.
    rewrite (existsb_false_filter _ _ Hex). simpl. rewrite String.eqb_refl. simpl.
    by rewrite Hex.
  - intros He Hok. destruct user as [id [email|] m]; [|done]. simpl in *.
    do 2 f_equal. f_equal. by apply full_name_agree.
  - intros He. rewrite He. split; [done|]. unfold Client.email_of. simpl.
    by rewrite He.
  - intros email n -> Ha Hb Hn. eexists. split; [reflexivity|]. simpl.
    destruct user as [id email' [m|]]; simpl in *; [|done].
    unfold NewUser.get_text, Client.full_name_of, Client.or_else. simpl.
    rewrite Ha, Hb. simpl. split; [done|]. by destruct n.
Qed.

End ProfileOrigins.

Lemma getSystemStats_counts_witness :
  let rows := [Stats.mkRow "d1" "pending"; Stats.mkRow "d2" "completed";
               Stats.mkRow "d3" "pending"] in
  let st := Stats.getSystemStats (Some rows) None (Some ["v1"]) in
  default 0%Z (Stats.documentsByStatus st !! "pending") = 2%Z
  /\ Stats.documentsByStatus st !! "failed" = None
  /\ Stats.totalChunks st = 0%Z.
Proof.
  intros rows st.
  destruct (getSystemStats_counts (Some rows) None (Some ["v1"]))
    as ((_ & Hcount & Hnone & _) & (Hchunks & _) & _).
  split; [exact (Hcount "pending")|]. split; [|exact Hchunks].
  apply Hnone. intros r [<-|[<-|[<-|[]]]]; discriminate.
Defined.

Lemma fetchProfile_effect_witness :
  Client.fetchProfile (fun _ => "") None None None Samples.now Samples.people "bob"
  = (Some Samples.bob, Samples.people).
Proof.
  exact (proj1 (proj2 (proj2 (proj2 (fetchProfile_effect (fun _ => "") None None None
                                       Samples.now Samples.people "bob"))))
           Samples.bob eq_refl eq_refl).
Defined.


Lemma client_and_trigger_rows_witness :
  let frank := Client.mkUser "frank" (Some "frank@example.org")
                 (Some {["name" := JStr "Frank"]}) in
  let row := mkProfile "frank" "frank@example.org" (Some "Frank") (Some "user") (Some true)
                       Samples.now Samples.now in
  exists st',
    NewUser.handle_new_user (fun _ => "") None Samples.now
      (NewUser.mkAuthUser "frank" (Some "frank@example.org")
         (Some {["name" := JStr "Frank"]}))
      (NewUser.mkState Samples.people [])
    = inr (NewUser.mkAuthUser "frank" (Some "frank@example.org")
             (Some {["name" := JStr "Frank"]}), st')
    /\ NewUser.profiles st' = (Samples.people ++ [row])%list
    /\ Client.fetchProfile (fun _ => "") None None (Some frank) Samples.now Samples.people
         "frank"
       = (Some row, (Samples.people ++ [row])%list).
Proof.
  intros frank row.
  destruct (client_and_trigger_rows (fun _ => "") frank Samples.now Samples.people []
              eq_refl) as (st' & Hrun & Hclient & Hsame & _).
  exists st'. split; [exact Hrun|]. split; [|exact Hclient].
  apply Hsame; [discriminate|].
  intros key v [<-|[<-|[]]] Hv; vm_compute in Hv; [discriminate|].
  injection Hv as <-. by right.
Defined.

(** ** [updateProfile] *)

Lemma single_map {A : Type} (f : A -> A) (l : list A) :
  single (map f l) = option_map f (single l).
Proof. by destruct l as [|x [|y l]]. Qed.

Lemma hasRole_same_rights (session : option uuid) (set : Profile -> Profile)
    (c : Profile -> bool) (table : list Profile) (q : string) :
  (forall p, p_id (set p) = p_id p /\ p_role (set p) = p_role p
             /\ p_is_active (set p) = p_is_active p) ->
  Auth.hasRole (Auth.mkCtx session (map (fun p => if c p then set p else p) table)) q
  = Auth.hasRole (Auth.mkCtx session table) q.
Proof.
  intros Hset. unfold Auth.hasRole, Auth.getCurrentUser. simpl.
  destruct session as [uid|]; [|done].
  rewrite (filter_rewrite p_id c set uid table) by (intros p; apply Hset).
  rewrite single_map. destruct (single _) as [a|]; simpl; [|done].
  assert (Hsame : Auth.active (if c a then set a else a) = Auth.active a
                  /\ forall r, Auth.role_is (if c a then set a else a) r
                               = Auth.role_is a r).
  { destruct (c a); [|done]. unfold Auth.active, Auth.role_is.
    destruct (Hset a) as (_ & -> & ->). done. }
  destruct Hsame as [-> Hr]. by rewrite !Hr.
Qed.

(** [updateProfile] makes no check of the caller; the row policies of the
    store decide.  An error of the store, and a text that is no uuid, are
    answered as a failure and nothing changes.  A caller without a session
    changes nothing.  A caller who is not an active admin and passes the id
    of another user gets a success that changed nothing: the policies pass
    over the row.  A caller who passes its own id rewrites its own row: the
    full name when one is given, and updated_at.  Whatever the answer, every
    row keeps its id, e-mail address, role, is_active and created_at, a row
    that changed carries updated_at = now, and without a full_name in the
    updates the full name is kept; so no caller's role check answers
    differently afterwards. *)
Theorem updateProfile_effect (ctx : Auth.Ctx) (backend : option string) (now : string)
    (userId : string) (full_name : option string) :
  let r := Auth.updateProfile ctx backend now userId full_name in
  let denoted := uuid_of userId (map p_id (Auth.profiles ctx)) in
  (forall e, backend = Some e -> r = (Auth.Failure e, Auth.profiles ctx))
  /\ (backend = None -> denoted = None ->
      r = (Auth.Failure (Pg.invalid_uuid userId), Auth.profiles ctx))
  /\ (Auth.session ctx = None -> r.2 = Auth.profiles ctx)
  /\ (forall a t, Auth.getCurrentUser ctx = Some a -> backend = None ->
        denoted = Some t -> t <> p_id a ->
        Policies.is_admin (Auth.profiles ctx) (p_id a) = false ->
        r = (Auth.Success, Auth.profiles ctx))
  /\ (forall a, Auth.getCurrentUser ctx = Some a -> backend = None ->
        denoted = Some (p_id a) -> profile_check a = true ->
        r = (Auth.Success,
             map (fun p => if String.eqb (p_id p) (p_id a)
                           then Auth.set_full_name full_name now p else p)
                 (Auth.profiles ctx)))
  /\ Forall2 (fun p p' =>
                p_id p' = p_id p /\ p_email p' = p_email p /\ p_role p' = p_role p
                /\ p_is_active p' = p_is_active p /\ p_created_at p' = p_created_at p
                /\ (p' = p \/ p_updated_at p' = now)
                /\ (denoted <> Some (p_id p) -> p' = p)
                /\ (full_name = None -> p_full_name p' = p_full_name p))
             (Auth.profiles ctx) r.2
  /\ (forall session' q,
        Auth.hasRole (Auth.mkCtx session' r.2) q
        = Auth.hasRole (Auth.mkCtx session' (Auth.profiles ctx)) q).
Proof.
  cbv zeta. unfold Auth.updateProfile.
  split; [by intros e ->|]. split; [|split; [|split; [|split; [|split]]]].
  - intros -> Hno. unfold Auth.profiles_update. by rewrite Hno.
  - intros Hs. rewrite finish_snd.
    destruct (profiles_update_table (Auth.session ctx) backend
                (Auth.set_full_name full_name now) userId (Auth.profiles ctx))
      as [-> | (id & _ & ->)]; [done|].
    simpl. rewrite <- (map_id (Auth.profiles ctx)) at 2. apply map_ext. intros p.
    unfold Auth.reached, Policies.profiles_select_using. rewrite Hs.
    by rewrite andb_false_r.
  - intros a t Ha -> Ht Hother Hadm.
    by rewrite (profiles_update_filtered ctx a _ userId t Ha Hadm Ht Hother).
  - intros a Ha -> Hown Hcheck.
    by rewrite (profiles_update_own ctx a _ userId Ha Hown).
  - rewrite finish_snd.
    assert (Hrefl : forall (P : Profile -> Profile -> Prop) (l : list Profile),
              (forall p, P p p) -> Forall2 P l l)
      by (intros P l HP; induction l; constructor; auto).
    destruct (profiles_update_table (Auth.session ctx) backend
                (Auth.set_full_name full_name now) userId (Auth.profiles ctx))
      as [-> | (id & Hid & ->)].
    { apply Hrefl. intros p. split_and!; try done. by left. }
    simpl. rewrite Hid.
    assert (Hc : forall p, Auth.reached (Auth.session ctx) (Auth.profiles ctx) id p = true ->
                           p_id p = id) by (intros p; apply reached_id).
    revert Hc. generalize (Auth.reached (Auth.session ctx) (Auth.profiles ctx) id).
    intros c Hc. clear Hid.
    induction (Auth.profiles ctx) as [|p l IH]; simpl; [constructor|].
    constructor; [|exact IH].
    destruct (c p) eqn:Hp.
    + apply Hc in Hp. split_and!; try done.
      * by right.
      * intros Hne. congruence.
      * by intros ->.
    + split_and!; try done. by left.
  - intros session' q. rewrite finish_snd.
    destruct (profiles_update_table (Auth.session ctx) backend
                (Auth.set_full_name full_name now) userId (Auth.profiles ctx))
      as [-> | (id & _ & ->)]; [done|].
    simpl. by apply hasRole_same_rights.
Qed.

Lemma updateProfile_effect_witness :
  Auth.updateProfile (Samples.as_user "carol") None Samples.now "alice" (Some "Mallory")
  = (Auth.Success, Samples.people)
  /\ (Auth.updateProfile (Samples.as_user "carol") None Samples.now "carol" (Some "Carol")).1
     = Auth.Success
  /\ option_map p_full_name
       (Auth.getCurrentUser
          (Auth.mkCtx (Some "carol")
             (Auth.updateProfile (Samples.as_user "carol") None Samples.now "carol"
                (Some "Carol")).2))
     = Some (Some "Carol").
Proof.
  split.
  - apply (proj1 (proj2 (proj2 (proj2 (updateProfile_effect (Samples.as_user "carol") None
                                         Samples.now "alice" (Some "Mallory")))))
             Samples.carol "alice"); try reflexivity.
    discriminate.
  - rewrite (proj1 (proj2 (proj2 (proj2 (proj2 (updateProfile_effect
                                                  (Samples.as_user "carol") None
                                                  Samples.now "carol" (Some "Carol"))))))
               Samples.carol eq_refl eq_refl eq_refl eq_refl).
    split; reflexivity.
Defined.
